(** * CityLearn [Building]: per-time-step energy balance, bounds, observations

    A shallow embedding of [src/citylearn/building.py] (classes [Building]
    and [LSTMDynamicsBuilding]) and of the data classes of
    [src/citylearn/data.py].

    - Python numbers are [pynum]: an unbounded [int] or an IEEE-754 binary64
      [float] (the specification floats of the Standard Library, with
      NaN, infinities and signed zeros).
    - Python exceptions are the [Raise] results of the [result] monad.
    - numpy arrays and Python lists are lists, indexed with [index]
      ([IndexError] out of range).
    - The device and storage models of [citylearn.energy_model] are used
      through their capability contracts, the classes [StorageModel],
      [BatteryModel], [HeatPumpModel], [ElectricHeaterModel], [PVModel]. *)

From Stdlib Require Import ZArith String Ascii SpecFloat.
From stdpp Require Import base option list strings gmap.

Local Open Scope string_scope.
Local Open Scope list_scope.

(** ** Numbers *)

Module Py.

Definition prec : Z := 53%Z.
Definition emax : Z := 1024%Z.

Inductive pynum :=
  | PyInt (n : Z)
  | PyFloat (x : spec_float).

(** [float(n)]: round to nearest, ties to even.  (Python raises
    [OverflowError] where this yields an infinity; the integers of the
    building code are the literals 0 and -1.) *)
Definition float_of_Z (n : Z) : spec_float := binary_normalize prec emax n 0%Z false.

Definition to_float (a : pynum) : spec_float :=
  match a with
  | PyInt n => float_of_Z n
  | PyFloat x => x
  end.

Definition nan : pynum := PyFloat S754_nan.

(** Float literals. *)
Definition flt (n : Z) : pynum := PyFloat (float_of_Z n).

Definition add (a b : pynum) : pynum :=
  match a, b with
  | PyInt m, PyInt n => PyInt (m + n)%Z
  | _, _ => PyFloat (SFadd prec emax (to_float a) (to_float b))
  end.

Definition sub (a b : pynum) : pynum :=
  match a, b with
  | PyInt m, PyInt n => PyInt (m - n)%Z
  | _, _ => PyFloat (SFsub prec emax (to_float a) (to_float b))
  end.

Definition mul (a b : pynum) : pynum :=
  match a, b with
  | PyInt m, PyInt n => PyInt (m * n)%Z
  | _, _ => PyFloat (SFmul prec emax (to_float a) (to_float b))
  end.

Definition neg (a : pynum) : pynum :=
  match a with
  | PyInt n => PyInt (- n)%Z
  | PyFloat x => PyFloat (SFopp x)
  end.

Definition abs (a : pynum) : pynum :=
  match a with
  | PyInt n => PyInt (Z.abs n)
  | PyFloat x => PyFloat (SFabs x)
  end.

(** [a < b], [a <= b], [a > b]: false as soon as one side is NaN.  An
    integer meets a float as the float of the same value (exact up to
    2^53). *)
Definition lt (a b : pynum) : bool :=
  match a, b with
  | PyInt m, PyInt n => Z.ltb m n
  | _, _ => SFltb (to_float a) (to_float b)
  end.

Definition le (a b : pynum) : bool :=
  match a, b with
  | PyInt m, PyInt n => Z.leb m n
  | _, _ => SFleb (to_float a) (to_float b)
  end.

Definition gt (a b : pynum) : bool := lt b a.

(** [math.isnan] *)
Definition isnan (a : pynum) : bool :=
  match a with
  | PyFloat S754_nan => true
  | _ => false
  end.

(** The builtins [max(a, b)] and [min(a, b)]: the first argument is kept
    unless the second compares strictly greater (smaller). *)
Definition max (a b : pynum) : pynum := if gt b a then b else a.
Definition min (a b : pynum) : pynum := if lt b a then b else a.

Definition is_zero (a : pynum) : bool :=
  match a with
  | PyInt n => Z.eqb n 0
  | PyFloat (S754_zero _) => true
  | PyFloat _ => false
  end.

End Py.

Export Py(pynum, PyInt, PyFloat).

Global Instance spec_float_eq_dec : EqDecision spec_float.
Proof. solve_decision. Defined.
Global Instance pynum_eq_dec : EqDecision pynum.
Proof. solve_decision. Defined.

(** ** Exceptions *)

Inductive PyError :=
  | IndexError
  | KeyError (key : string)
  | AttributeError (attr : string)
  | TypeError
  | ValueError
  | ZeroDivisionError
  | AssertionError (unknown : gset string).

Inductive result (A : Type) :=
  | Ok (a : A)
  | Raise (e : PyError).
Global Arguments Ok {A} a.
Global Arguments Raise {A} e.

Global Instance result_ret : MRet result := @Ok.
Global Instance result_bind : MBind result := λ A B f m,
  match m with
  | Ok a => f a
  | Raise e => Raise e
  end.

(** [l[i]] for [0 <= i] *)
Definition index {A} (l : list A) (i : nat) : result A :=
  match l !! i with
  | Some x => Ok x
  | None => Raise IndexError
  end.

(** [a[i] = v] on a numpy float array: the value is stored as a float64 *)
Definition np_setitem (a : list pynum) (i : nat) (v : pynum) : result (list pynum) :=
  if decide (i < length a)%nat then Ok (<[i := PyFloat (Py.to_float v)]> a)
  else Raise IndexError.

(** [a / b] on Python numbers: a zero divisor raises. *)
Definition py_truediv (a b : pynum) : result pynum :=
  if Py.is_zero b then Raise ZeroDivisionError
  else Ok (PyFloat (SFdiv Py.prec Py.emax (Py.to_float a) (Py.to_float b))).

(** [a / b] where [a] is a [numpy.float64]: IEEE division, a zero divisor
    yields an infinity or NaN (numpy only warns). *)
Definition np_truediv (a b : pynum) : pynum :=
  PyFloat (SFdiv Py.prec Py.emax (Py.to_float a) (Py.to_float b)).

(** [a.max()] on a numpy array: NaN propagates, an empty array raises. *)
Definition np_maximum (a b : pynum) : pynum :=
  if Py.isnan a then a else if Py.isnan b then b else if Py.lt a b then b else a.

Definition np_max (a : list pynum) : result pynum :=
  match a with
  | [] => Raise ValueError
  | x :: l => Ok (foldl np_maximum x l)
  end.

(** ** Exogenous data ([src/citylearn/data.py]) *)

Module EnergySimulation.

(** The [EnergySimulation] data class.  The first twelve series are those of
    [src/citylearn/data.py]; [building.py] also reads [occupant_count], the
    two set-point series and the two demand-schedule flags, which it
    compares with 0 as scalars. *)
Record t := {
  month : list pynum;
  hour : list pynum;
  day_type : list pynum;
  daylight_savings_status : list pynum;
  indoor_dry_bulb_temperature : list pynum;
  average_unmet_cooling_setpoint_difference : list pynum;
  indoor_relative_humidity : list pynum;
  non_shiftable_load : list pynum;
  dhw_demand : list pynum;
  cooling_demand : list pynum;
  heating_demand : list pynum;
  solar_generation : list pynum;
  occupant_count : list pynum;
  cooling_dry_bulb_temperature_set_point : list pynum;
  heating_dry_bulb_temperature_set_point : list pynum;
  cooling_device_demand_schedule : pynum;
  heating_device_demand_schedule : pynum;
}.

(** [vars(self)]: the time series, by attribute name, in assignment order *)
Definition vars (x : t) : list (string * list pynum) :=
  [ ("month", month x);
    ("hour", hour x);
    ("day_type", day_type x);
    ("daylight_savings_status", daylight_savings_status x);
    ("indoor_dry_bulb_temperature", indoor_dry_bulb_temperature x);
    ("average_unmet_cooling_setpoint_difference", average_unmet_cooling_setpoint_difference x);
    ("indoor_relative_humidity", indoor_relative_humidity x);
    ("non_shiftable_load", non_shiftable_load x);
    ("dhw_demand", dhw_demand x);
    ("cooling_demand", cooling_demand x);
    ("heating_demand", heating_demand x);
    ("solar_generation", solar_generation x);
    ("occupant_count", occupant_count x);
    ("cooling_dry_bulb_temperature_set_point", cooling_dry_bulb_temperature_set_point x);
    ("heating_dry_bulb_temperature_set_point", heating_dry_bulb_temperature_set_point x) ].

Definition set_cooling_demand (v : list pynum) (x : t) : t :=
  Build_t (month x) (hour x) (day_type x) (daylight_savings_status x)
    (indoor_dry_bulb_temperature x)
    (average_unmet_cooling_setpoint_difference x) (indoor_relative_humidity x)
    (non_shiftable_load x) (dhw_demand x) v (heating_demand x)
    (solar_generation x) (occupant_count x)
    (cooling_dry_bulb_temperature_set_point x)
    (heating_dry_bulb_temperature_set_point x)
    (cooling_device_demand_schedule x) (heating_device_demand_schedule x).

Definition set_heating_demand (v : list pynum) (x : t) : t :=
  Build_t (month x) (hour x) (day_type x) (daylight_savings_status x)
    (indoor_dry_bulb_temperature x)
    (average_unmet_cooling_setpoint_difference x) (indoor_relative_humidity x)
    (non_shiftable_load x) (dhw_demand x) (cooling_demand x) v
    (solar_generation x) (occupant_count x)
    (cooling_dry_bulb_temperature_set_point x)
    (heating_dry_bulb_temperature_set_point x)
    (cooling_device_demand_schedule x) (heating_device_demand_schedule x).

End EnergySimulation.

Module Weather.

(** The [Weather] data class of [src/citylearn/data.py]. *)
Record t := {
  outdoor_dry_bulb_temperature : list pynum;
  outdoor_relative_humidity : list pynum;
  diffuse_solar_irradiance : list pynum;
  direct_solar_irradiance : list pynum;
  outdoor_dry_bulb_temperature_predicted_6h : list pynum;
  outdoor_dry_bulb_temperature_predicted_12h : list pynum;
  outdoor_dry_bulb_temperature_predicted_24h : list pynum;
  outdoor_relative_humidity_predicted_6h : list pynum;
  outdoor_relative_humidity_predicted_12h : list pynum;
  outdoor_relative_humidity_predicted_24h : list pynum;
  diffuse_solar_irradiance_predicted_6h : list pynum;
  diffuse_solar_irradiance_predicted_12h : list pynum;
  diffuse_solar_irradiance_predicted_24h : list pynum;
  direct_solar_irradiance_predicted_6h : list pynum;
  direct_solar_irradiance_predicted_12h : list pynum;
  direct_solar_irradiance_predicted_24h : list pynum;
}.

(** [vars(self)]: the time series, by attribute name, in assignment order *)
Definition vars (x : t) : list (string * list pynum) :=
  [ ("outdoor_dry_bulb_temperature", outdoor_dry_bulb_temperature x);
    ("outdoor_relative_humidity", outdoor_relative_humidity x);
    ("diffuse_solar_irradiance", diffuse_solar_irradiance x);
    ("direct_solar_irradiance", direct_solar_irradiance x);
    ("outdoor_dry_bulb_temperature_predicted_6h", outdoor_dry_bulb_temperature_predicted_6h x);
    ("outdoor_dry_bulb_temperature_predicted_12h", outdoor_dry_bulb_temperature_predicted_12h x);
    ("outdoor_dry_bulb_temperature_predicted_24h", outdoor_dry_bulb_temperature_predicted_24h x);
    ("outdoor_relative_humidity_predicted_6h", outdoor_relative_humidity_predicted_6h x);
    ("outdoor_relative_humidity_predicted_12h", outdoor_relative_humidity_predicted_12h x);
    ("outdoor_relative_humidity_predicted_24h", outdoor_relative_humidity_predicted_24h x);
    ("diffuse_solar_irradiance_predicted_6h", diffuse_solar_irradiance_predicted_6h x);
    ("diffuse_solar_irradiance_predicted_12h", diffuse_solar_irradiance_predicted_12h x);
    ("diffuse_solar_irradiance_predicted_24h", diffuse_solar_irradiance_predicted_24h x);
    ("direct_solar_irradiance_predicted_6h", direct_solar_irradiance_predicted_6h x);
    ("direct_solar_irradiance_predicted_12h", direct_solar_irradiance_predicted_12h x);
    ("direct_solar_irradiance_predicted_24h", direct_solar_irradiance_predicted_24h x) ].

End Weather.

Module CarbonIntensity.

(** The [CarbonIntensity] data class of [src/citylearn/data.py]. *)
Record t := {
  carbon_intensity : list pynum;
}.

(** [vars(self)]: the time series, by attribute name, in assignment order *)
Definition vars (x : t) : list (string * list pynum) :=
  [ ("carbon_intensity", carbon_intensity x) ].

End CarbonIntensity.

Module Pricing.

(** Modelled from the spec: the [Pricing] data class, which
    [src/citylearn/data.py] does not define: per-time-step price arrays,
    the current price [electricity_pricing] and three forecast series (the
    [pricing] setter of [building.py] builds it from four arrays). *)
Record t := {
  electricity_pricing : list pynum;
  electricity_pricing_predicted_6h : list pynum;
  electricity_pricing_predicted_12h : list pynum;
  electricity_pricing_predicted_24h : list pynum;
}.

(** [vars(self)]: the time series, by attribute name, in assignment order *)
Definition vars (x : t) : list (string * list pynum) :=
  [ ("electricity_pricing", electricity_pricing x);
    ("electricity_pricing_predicted_6h", electricity_pricing_predicted_6h x);
    ("electricity_pricing_predicted_12h", electricity_pricing_predicted_12h x);
    ("electricity_pricing_predicted_24h", electricity_pricing_predicted_24h x) ].

End Pricing.

(** ** Capability contracts of the device and storage models

    [citylearn.energy_model] is used by [building.py] through the methods
    and attributes below only.  The methods are functions of the object
    (and return its next state where they mutate it); none is taken to
    raise. *)

(** [StorageTank] and [Battery]: a storage device *)
Class StorageModel (S : Type) := {
  capacity : S → pynum;
  soc : S → list pynum;
  energy_balance : S → list pynum;
  charge : S → pynum → S;
  storage_next_time_step : S → S;
  storage_reset : S → S;
}.

(** [Battery]: a storage device that is also an electric device *)
Class BatteryModel (B : Type) := {
  electricity_consumption : B → list pynum;
  capacity_history : B → list pynum;
}.

(** [HeatPump]: [get_cop(temperature, heating)],
    [get_max_output_power(temperature, heating, max_electric_power=None)],
    [get_input_power(output_power, temperature, heating)] *)
Class HeatPumpModel (H : Type) := {
  hp_nominal_power : H → pynum;
  get_cop : H → pynum → bool → pynum;
  hp_get_max_output_power : H → pynum → bool → option pynum → pynum;
  hp_get_input_power : H → pynum → pynum → bool → pynum;
  hp_update_electricity_consumption : H → pynum → H;
  hp_next_time_step : H → H;
  hp_reset : H → H;
}.

(** [ElectricHeater]: [get_max_output_power()], [get_input_power(output_power)] *)
Class ElectricHeaterModel (E : Type) := {
  eh_nominal_power : E → pynum;
  efficiency : E → pynum;
  eh_get_max_output_power : E → pynum;
  eh_get_input_power : E → pynum → pynum;
  eh_update_electricity_consumption : E → pynum → E;
  eh_next_time_step : E → E;
  eh_reset : E → E;
}.

(** [PV]: [get_generation] applies elementwise to a sample or a series *)
Class PVModel (P : Type) := {
  get_generation : P → pynum → pynum;
  pv_next_time_step : P → P;
  pv_reset : P → P;
}.

(** [Union[HeatPump, ElectricHeater]] *)
Inductive Device (HP EH : Type) :=
  | HeatPump (h : HP)
  | ElectricHeater (e : EH).
Global Arguments HeatPump {HP EH} h.
Global Arguments ElectricHeater {HP EH} e.

(** ** Dictionaries *)

(** [{**d, **{k: v for k, v in kvs}}], and a dictionary display for [d]
    empty *)
Definition dict_update (d : gmap string pynum) (kvs : list (string * pynum)) : gmap string pynum :=
  foldl (λ d kv, <[kv.1 := kv.2]> d) d kvs.

(** [{k: v[t] for k, v in vars(x).items()}] *)
Definition series_at (t : nat) (vs : list (string * list pynum)) : result (list (string * pynum)) :=
  mapM (λ kv, x ← index kv.2 t; mret (kv.1, x)) vs.

(** [vars(x)[key]] *)
Definition vars_lookup {A} (vs : list (string * A)) (key : string) : result A :=
  match list_find (λ kv, kv.1 = key) vs with
  | Some (_, kv) => Ok kv.2
  | None => Raise (KeyError key)
  end.

(** [key.split("_")[0]] *)
Fixpoint split_underscore_head (key : string) : string :=
  match key with
  | EmptyString => EmptyString
  | String c rest => if Ascii.eqb c "_"%char then EmptyString else String c (split_underscore_head rest)
  end.

(** [body] under [try: ... except ZeroDivisionError: handler] *)
Definition except_ZeroDivisionError {A} (body handler : result A) : result A :=
  match body with
  | Raise ZeroDivisionError => handler
  | r => r
  end.

(** [[k for k, v in metadata.items() if v]] *)
Definition active_keys (metadata : list (string * bool)) : list string :=
  (filter (λ kv, kv.2 = true) metadata).*1.

(** The [low] and [high] arrays of a [gym.spaces.Box] *)
Record Box := { low : list pynum; high : list pynum }.

(** [np.array(values, dtype='float32')]: each value is rounded to binary32
    (written back as the binary64 number of the same value). *)
Definition np_float32 (a : pynum) : pynum :=
  match Py.to_float a with
  | S754_finite s m e =>
      match binary_normalize 24 128 (cond_Zopp s (Zpos m)) e s with
      | S754_finite s' m' e' =>
          PyFloat (binary_normalize Py.prec Py.emax (cond_Zopp s' (Zpos m')) e' s')
      | x => PyFloat x
      end
  | x => PyFloat x
  end.

(** ** The [Building] class *)

Section Building.

Context {Tank Battery HP EH PVT : Type}.
Context `{!StorageModel Tank, !StorageModel Battery, !BatteryModel Battery}.
Context `{!HeatPumpModel HP, !ElectricHeaterModel EH, !PVModel PVT}.

(** The attributes of a [Building]; [time_step] is the index of the base
    [Environment], and the last seven fields are the private ledgers
    ([solar_generation_] is [__solar_generation]). *)
Record Building := {
  energy_simulation : EnergySimulation.t;
  weather : Weather.t;
  carbon_intensity : CarbonIntensity.t;
  pricing : Pricing.t;
  dhw_storage : Tank;
  cooling_storage : Tank;
  heating_storage : Tank;
  electrical_storage : Battery;
  dhw_device : Device HP EH;
  cooling_device : HP;
  heating_device : Device HP EH;
  pv : PVT;
  observation_metadata : list (string * bool);
  action_metadata : list (string * bool);
  time_step : nat;
  cooling_electricity_consumption : list pynum;
  heating_electricity_consumption : list pynum;
  dhw_electricity_consumption : list pynum;
  solar_generation_ : list pynum;
  net_electricity_consumption : list pynum;
  net_electricity_consumption_emission : list pynum;
  net_electricity_consumption_price : list pynum;
}.

Definition set_energy_simulation (v : EnergySimulation.t) (b : Building) : Building :=
  Build_Building v (weather b) (carbon_intensity b) (pricing b)
    (dhw_storage b) (cooling_storage b) (heating_storage b)
    (electrical_storage b) (dhw_device b) (cooling_device b)
    (heating_device b) (pv b) (observation_metadata b) (action_metadata b)
    (time_step b) (cooling_electricity_consumption b)
    (heating_electricity_consumption b) (dhw_electricity_consumption b)
    (solar_generation_ b) (net_electricity_consumption b)
    (net_electricity_consumption_emission b)
    (net_electricity_consumption_price b).

Definition set_dhw_storage (v : Tank) (b : Building) : Building :=
  Build_Building (energy_simulation b) (weather b) (carbon_intensity b)
    (pricing b) v (cooling_storage b) (heating_storage b)
    (electrical_storage b) (dhw_device b) (cooling_device b)
    (heating_device b) (pv b) (observation_metadata b) (action_metadata b)
    (time_step b) (cooling_electricity_consumption b)
    (heating_electricity_consumption b) (dhw_electricity_consumption b)
    (solar_generation_ b) (net_electricity_consumption b)
    (net_electricity_consumption_emission b)
    (net_electricity_consumption_price b).

Definition set_cooling_storage (v : Tank) (b : Building) : Building :=
  Build_Building (energy_simulation b) (weather b) (carbon_intensity b)
    (pricing b) (dhw_storage b) v (heating_storage b) (electrical_storage b)
    (dhw_device b) (cooling_device b) (heating_device b) (pv b)
    (observation_metadata b) (action_metadata b) (time_step b)
    (cooling_electricity_consumption b) (heating_electricity_consumption b)
    (dhw_electricity_consumption b) (solar_generation_ b)
    (net_electricity_consumption b) (net_electricity_consumption_emission b)
    (net_electricity_consumption_price b).

Definition set_heating_storage (v : Tank) (b : Building) : Building :=
  Build_Building (energy_simulation b) (weather b) (carbon_intensity b)
    (pricing b) (dhw_storage b) (cooling_storage b) v (electrical_storage b)
    (dhw_device b) (cooling_device b) (heating_device b) (pv b)
    (observation_metadata b) (action_metadata b) (time_step b)
    (cooling_electricity_consumption b) (heating_electricity_consumption b)
    (dhw_electricity_consumption b) (solar_generation_ b)
    (net_electricity_consumption b) (net_electricity_consumption_emission b)
    (net_electricity_consumption_price b).

Definition set_electrical_storage (v : Battery) (b : Building) : Building :=
  Build_Building (energy_simulation b) (weather b) (carbon_intensity b)
    (pricing b) (dhw_storage b) (cooling_storage b) (heating_storage b) v
    (dhw_device b) (cooling_device b) (heating_device b) (pv b)
    (observation_metadata b) (action_metadata b) (time_step b)
    (cooling_electricity_consumption b) (heating_electricity_consumption b)
    (dhw_electricity_consumption b) (solar_generation_ b)
    (net_electricity_consumption b) (net_electricity_consumption_emission b)
    (net_electricity_consumption_price b).

Definition set_dhw_device (v : Device HP EH) (b : Building) : Building :=
  Build_Building (energy_simulation b) (weather b) (carbon_intensity b)
    (pricing b) (dhw_storage b) (cooling_storage b) (heating_storage b)
    (electrical_storage b) v (cooling_device b) (heating_device b) (pv b)
    (observation_metadata b) (action_metadata b) (time_step b)
    (cooling_electricity_consumption b) (heating_electricity_consumption b)
    (dhw_electricity_consumption b) (solar_generation_ b)
    (net_electricity_consumption b) (net_electricity_consumption_emission b)
    (net_electricity_consumption_price b).

Definition set_cooling_device (v : HP) (b : Building) : Building :=
  Build_Building (energy_simulation b) (weather b) (carbon_intensity b)
    (pricing b) (dhw_storage b) (cooling_storage b) (heating_storage b)
    (electrical_storage b) (dhw_device b) v (heating_device b) (pv b)
    (observation_metadata b) (action_metadata b) (time_step b)
    (cooling_electricity_consumption b) (heating_electricity_consumption b)
    (dhw_electricity_consumption b) (solar_generation_ b)
    (net_electricity_consumption b) (net_electricity_consumption_emission b)
    (net_electricity_consumption_price b).

Definition set_heating_device (v : Device HP EH) (b : Building) : Building :=
  Build_Building (energy_simulation b) (weather b) (carbon_intensity b)
    (pricing b) (dhw_storage b) (cooling_storage b) (heating_storage b)
    (electrical_storage b) (dhw_device b) (cooling_device b) v (pv b)
    (observation_metadata b) (action_metadata b) (time_step b)
    (cooling_electricity_consumption b) (heating_electricity_consumption b)
    (dhw_electricity_consumption b) (solar_generation_ b)
    (net_electricity_consumption b) (net_electricity_consumption_emission b)
    (net_electricity_consumption_price b).

Definition set_time_step (v : nat) (b : Building) : Building :=
  Build_Building (energy_simulation b) (weather b) (carbon_intensity b)
    (pricing b) (dhw_storage b) (cooling_storage b) (heating_storage b)
    (electrical_storage b) (dhw_device b) (cooling_device b)
    (heating_device b) (pv b) (observation_metadata b) (action_metadata b) v
    (cooling_electricity_consumption b) (heating_electricity_consumption b)
    (dhw_electricity_consumption b) (solar_generation_ b)
    (net_electricity_consumption b) (net_electricity_consumption_emission b)
    (net_electricity_consumption_price b).

Definition set_cooling_electricity_consumption (v : list pynum) (b : Building) : Building :=
  Build_Building (energy_simulation b) (weather b) (carbon_intensity b)
    (pricing b) (dhw_storage b) (cooling_storage b) (heating_storage b)
    (electrical_storage b) (dhw_device b) (cooling_device b)
    (heating_device b) (pv b) (observation_metadata b) (action_metadata b)
    (time_step b) v (heating_electricity_consumption b)
    (dhw_electricity_consumption b) (solar_generation_ b)
    (net_electricity_consumption b) (net_electricity_consumption_emission b)
    (net_electricity_consumption_price b).

Definition set_heating_electricity_consumption (v : list pynum) (b : Building) : Building :=
  Build_Building (energy_simulation b) (weather b) (carbon_intensity b)
    (pricing b) (dhw_storage b) (cooling_storage b) (heating_storage b)
    (electrical_storage b) (dhw_device b) (cooling_device b)
    (heating_device b) (pv b) (observation_metadata b) (action_metadata b)
    (time_step b) (cooling_electricity_consumption b) v
    (dhw_electricity_consumption b) (solar_generation_ b)
    (net_electricity_consumption b) (net_electricity_consumption_emission b)
    (net_electricity_consumption_price b).

Definition set_dhw_electricity_consumption (v : list pynum) (b : Building) : Building :=
  Build_Building (energy_simulation b) (weather b) (carbon_intensity b)
    (pricing b) (dhw_storage b) (cooling_storage b) (heating_storage b)
    (electrical_storage b) (dhw_device b) (cooling_device b)
    (heating_device b) (pv b) (observation_metadata b) (action_metadata b)
    (time_step b) (cooling_electricity_consumption b)
    (heating_electricity_consumption b) v (solar_generation_ b)
    (net_electricity_consumption b) (net_electricity_consumption_emission b)
    (net_electricity_consumption_price b).

Definition set_net_electricity_consumption (v : list pynum) (b : Building) : Building :=
  Build_Building (energy_simulation b) (weather b) (carbon_intensity b)
    (pricing b) (dhw_storage b) (cooling_storage b) (heating_storage b)
    (electrical_storage b) (dhw_device b) (cooling_device b)
    (heating_device b) (pv b) (observation_metadata b) (action_metadata b)
    (time_step b) (cooling_electricity_consumption b)
    (heating_electricity_consumption b) (dhw_electricity_consumption b)
    (solar_generation_ b) v (net_electricity_consumption_emission b)
    (net_electricity_consumption_price b).

Definition set_net_electricity_consumption_emission (v : list pynum) (b : Building) : Building :=
  Build_Building (energy_simulation b) (weather b) (carbon_intensity b)
    (pricing b) (dhw_storage b) (cooling_storage b) (heating_storage b)
    (electrical_storage b) (dhw_device b) (cooling_device b)
    (heating_device b) (pv b) (observation_metadata b) (action_metadata b)
    (time_step b) (cooling_electricity_consumption b)
    (heating_electricity_consumption b) (dhw_electricity_consumption b)
    (solar_generation_ b) (net_electricity_consumption b) v
    (net_electricity_consumption_price b).

Definition set_net_electricity_consumption_price (v : list pynum) (b : Building) : Building :=
  Build_Building (energy_simulation b) (weather b) (carbon_intensity b)
    (pricing b) (dhw_storage b) (cooling_storage b) (heating_storage b)
    (electrical_storage b) (dhw_device b) (cooling_device b)
    (heating_device b) (pv b) (observation_metadata b) (action_metadata b)
    (time_step b) (cooling_electricity_consumption b)
    (heating_electricity_consumption b) (dhw_electricity_consumption b)
    (solar_generation_ b) (net_electricity_consumption b)
    (net_electricity_consumption_emission b) v.

Definition device_next_time_step (d : Device HP EH) : Device HP EH :=
  match d with
  | HeatPump h => HeatPump (hp_next_time_step h)
  | ElectricHeater e => ElectricHeater (eh_next_time_step e)
  end.

Definition device_reset (d : Device HP EH) : Device HP EH :=
  match d with
  | HeatPump h => HeatPump (hp_reset h)
  | ElectricHeater e => ElectricHeater (eh_reset e)
  end.

Definition device_update_electricity_consumption (d : Device HP EH) (p : pynum) : Device HP EH :=
  match d with
  | HeatPump h => HeatPump (hp_update_electricity_consumption h p)
  | ElectricHeater e => ElectricHeater (eh_update_electricity_consumption e p)
  end.

(** [device.get_input_power(output_power)], the one-argument call: a
    [HeatPump] requires the temperature and the mode as well. *)
Definition device_get_input_power_1 (d : Device HP EH) (output_power : pynum) : result pynum :=
  match d with
  | HeatPump _ => Raise TypeError
  | ElectricHeater e => Ok (eh_get_input_power e output_power)
  end.

Definition active_observations (b : Building) : list string :=
  active_keys (observation_metadata b).

Definition active_actions (b : Building) : list string :=
  active_keys (action_metadata b).

(** The properties [heating_demand] and [dhw_demand]: the series up to the
    current time step, [[0:time_step + 1]]. *)
Definition heating_demand (b : Building) : list pynum :=
  take (S (time_step b)) (EnergySimulation.heating_demand (energy_simulation b)).

Definition dhw_demand (b : Building) : list pynum :=
  take (S (time_step b)) (EnergySimulation.dhw_demand (energy_simulation b)).

(** *** [update_variables] *)

Definition update_variables (b : Building) : result Building :=
  let t := time_step b in
  (* cooling electricity consumption *)
  cd ← index (EnergySimulation.cooling_demand (energy_simulation b)) t;
  cb ← index (energy_balance (cooling_storage b)) t;
  let cooling_demand := Py.add cd cb in
  temperature ← index (Weather.outdoor_dry_bulb_temperature (weather b)) t;
  let cooling_consumption :=
    hp_get_input_power (cooling_device b) cooling_demand temperature false in
  let b1 := set_cooling_electricity_consumption
              (cooling_electricity_consumption b ++ [cooling_consumption]) b in
  (* heating electricity consumption *)
  hd ← index (heating_demand b1) t;
  hb ← index (energy_balance (heating_storage b1)) t;
  let heating_demand := Py.add hd hb in
  heating_consumption ←
    match heating_device b1 with
    | HeatPump h =>
        temperature ← index (Weather.outdoor_dry_bulb_temperature (weather b1)) t;
        Ok (hp_get_input_power h heating_demand temperature true)
    | ElectricHeater _ => device_get_input_power_1 (dhw_device b1) heating_demand
    end;
  let b2 := set_heating_electricity_consumption
              (heating_electricity_consumption b1 ++ [heating_consumption]) b1 in
  (* dhw electricity consumption *)
  dd ← index (dhw_demand b2) t;
  db ← index (energy_balance (dhw_storage b2)) t;
  let dhw_demand := Py.add dd db in
  dhw_consumption ←
    match dhw_device b2 with
    | HeatPump h =>
        temperature ← index (Weather.outdoor_dry_bulb_temperature (weather b2)) t;
        Ok (hp_get_input_power h dhw_demand temperature true)
    | ElectricHeater e => Ok (eh_get_input_power e dhw_demand)
    end;
  let b3 := set_dhw_electricity_consumption
              (dhw_electricity_consumption b2 ++ [dhw_consumption]) b2 in
  (* net electricity consumption *)
  ec ← index (electricity_consumption (electrical_storage b3)) t;
  nsl ← index (EnergySimulation.non_shiftable_load (energy_simulation b3)) t;
  sg ← index (solar_generation_ b3) t;
  let net :=
    Py.add (Py.add (Py.add (Py.add (Py.add cooling_consumption heating_consumption)
      dhw_consumption) ec) nsl) sg in
  let b4 := set_net_electricity_consumption (net_electricity_consumption b3 ++ [net]) b3 in
  (* net electricity consumption price *)
  price ← index (Pricing.electricity_pricing (pricing b4)) t;
  let b5 := set_net_electricity_consumption_price
              (net_electricity_consumption_price b4 ++ [Py.mul net price]) b4 in
  (* net electricity consumption emission *)
  ci ← index (CarbonIntensity.carbon_intensity (carbon_intensity b5)) t;
  Ok (set_net_electricity_consumption_emission
        (net_electricity_consumption_emission b5 ++ [Py.max (PyInt 0) (Py.mul net ci)]) b5).

(** *** [reset] and [next_time_step] *)

(** Modelled from the spec: the base time-stepping object [Environment] of
    [citylearn.base] ([super().reset()], [super().next_time_step()]), which
    owns the current time index: [reset] puts it back to 0 and
    [next_time_step] advances it by one. *)
Definition Environment_reset (time_step : nat) : nat := 0.

Definition Environment_next_time_step (time_step : nat) : nat := S time_step.

(** [reset] up to its last line: the object resets and the variable resets
    write distinct attributes. *)
Definition reset_attributes (b : Building) : Building :=
  {|
    energy_simulation := energy_simulation b;
    weather := weather b;
    carbon_intensity := carbon_intensity b;
    pricing := pricing b;
    observation_metadata := observation_metadata b;
    action_metadata := action_metadata b;
    (* object reset *)
    time_step := Environment_reset (time_step b);
    cooling_storage := storage_reset (cooling_storage b);
    heating_storage := storage_reset (heating_storage b);
    dhw_storage := storage_reset (dhw_storage b);
    electrical_storage := storage_reset (electrical_storage b);
    cooling_device := hp_reset (cooling_device b);
    heating_device := device_reset (heating_device b);
    dhw_device := device_reset (dhw_device b);
    pv := pv_reset (pv b);
    (* variable reset *)
    cooling_electricity_consumption := [];
    heating_electricity_consumption := [];
    dhw_electricity_consumption := [];
    solar_generation_ :=
      (λ x, Py.mul (get_generation (pv_reset (pv b)) x) (PyInt (-1))) <$>
        EnergySimulation.solar_generation (energy_simulation b);
    net_electricity_consumption := [];
    net_electricity_consumption_emission := [];
    net_electricity_consumption_price := [];
  |}.

Definition reset (b : Building) : result Building :=
  update_variables (reset_attributes b).

(** [next_time_step] up to its last line: every device and storage
    advances, then the building itself. *)
Definition advance (b : Building) : Building :=
  {|
    energy_simulation := energy_simulation b;
    weather := weather b;
    carbon_intensity := carbon_intensity b;
    pricing := pricing b;
    observation_metadata := observation_metadata b;
    action_metadata := action_metadata b;
    cooling_device := hp_next_time_step (cooling_device b);
    heating_device := device_next_time_step (heating_device b);
    dhw_device := device_next_time_step (dhw_device b);
    cooling_storage := storage_next_time_step (cooling_storage b);
    heating_storage := storage_next_time_step (heating_storage b);
    dhw_storage := storage_next_time_step (dhw_storage b);
    electrical_storage := storage_next_time_step (electrical_storage b);
    pv := pv_next_time_step (pv b);
    time_step := Environment_next_time_step (time_step b);
    cooling_electricity_consumption := cooling_electricity_consumption b;
    heating_electricity_consumption := heating_electricity_consumption b;
    dhw_electricity_consumption := dhw_electricity_consumption b;
    solar_generation_ := solar_generation_ b;
    net_electricity_consumption := net_electricity_consumption b;
    net_electricity_consumption_emission := net_electricity_consumption_emission b;
    net_electricity_consumption_price := net_electricity_consumption_price b;
  |}.

Definition next_time_step (b : Building) : result Building :=
  update_variables (advance b).

(** *** [apply_actions] and the storage updates *)

Definition update_dynamics (b : Building) : result Building := Ok b.

Definition update_cooling_device (action : pynum) (b : Building) : result Building := Ok b.

Definition update_heating_device (action : pynum) (b : Building) : result Building := Ok b.

(** [0 if space_demand is None or math.isnan(space_demand) else space_demand]
    (an entry of a float array is never [None]) *)
Definition known_space_demand (space_demand : pynum) : pynum :=
  if Py.isnan space_demand then PyInt 0 else space_demand.

Definition update_cooling_storage (action : pynum) (b : Building) : result Building :=
  let t := time_step b in
  let energy := Py.mul action (capacity (cooling_storage b)) in
  space_demand ← index (EnergySimulation.cooling_demand (energy_simulation b)) t;
  let space_demand := known_space_demand space_demand in
  temperature ← index (Weather.outdoor_dry_bulb_temperature (weather b)) t;
  let max_output := hp_get_max_output_power (cooling_device b) temperature false None in
  let energy := Py.max (Py.neg space_demand) (Py.min (Py.sub max_output space_demand) energy) in
  let b := set_cooling_storage (charge (cooling_storage b) energy) b in
  temperature ← index (Weather.outdoor_dry_bulb_temperature (weather b)) t;
  let input_power :=
    hp_get_input_power (cooling_device b) (Py.add space_demand energy) temperature false in
  Ok (set_cooling_device (hp_update_electricity_consumption (cooling_device b) input_power) b).

(** [device.get_max_output_power(temperature, heating=True)] for a heat
    pump, [device.get_max_output_power()] otherwise *)
Definition heating_max_output (d : Device HP EH) (temperatures : list pynum) (t : nat) : result pynum :=
  match d with
  | HeatPump h =>
      temperature ← index temperatures t;
      Ok (hp_get_max_output_power h temperature true None)
  | ElectricHeater e => Ok (eh_get_max_output_power e)
  end.

(** [device.get_input_power(demand, temperature, heating=True)] for a heat
    pump, [device.get_input_power(demand)] otherwise *)
Definition heating_input_power (d : Device HP EH) (demand : pynum) (temperatures : list pynum) (t : nat) : result pynum :=
  match d with
  | HeatPump h =>
      temperature ← index temperatures t;
      Ok (hp_get_input_power h demand temperature true)
  | ElectricHeater e => Ok (eh_get_input_power e demand)
  end.

Definition update_heating_storage (action : pynum) (b : Building) : result Building :=
  let t := time_step b in
  let energy := Py.mul action (capacity (heating_storage b)) in
  space_demand ← index (EnergySimulation.heating_demand (energy_simulation b)) t;
  let space_demand := known_space_demand space_demand in
  max_output ← heating_max_output (heating_device b)
                  (Weather.outdoor_dry_bulb_temperature (weather b)) t;
  let energy := Py.max (Py.neg space_demand) (Py.min (Py.sub max_output space_demand) energy) in
  let b := set_heating_storage (charge (heating_storage b) energy) b in
  let demand := Py.add space_demand energy in
  input_power ← heating_input_power (heating_device b) demand
                   (Weather.outdoor_dry_bulb_temperature (weather b)) t;
  Ok (set_heating_device (device_update_electricity_consumption (heating_device b) input_power) b).

Definition update_dhw_storage (action : pynum) (b : Building) : result Building :=
  let t := time_step b in
  let energy := Py.mul action (capacity (dhw_storage b)) in
  space_demand ← index (EnergySimulation.dhw_demand (energy_simulation b)) t;
  let space_demand := known_space_demand space_demand in
  max_output ← heating_max_output (dhw_device b)
                  (Weather.outdoor_dry_bulb_temperature (weather b)) t;
  let energy := Py.max (Py.neg space_demand) (Py.min (Py.sub max_output space_demand) energy) in
  let b := set_dhw_storage (charge (dhw_storage b) energy) b in
  let demand := Py.add space_demand energy in
  input_power ← heating_input_power (dhw_device b) demand
                   (Weather.outdoor_dry_bulb_temperature (weather b)) t;
  Ok (set_dhw_device (device_update_electricity_consumption (dhw_device b) input_power) b).

Definition update_electrical_storage (action : pynum) (b : Building) : result Building :=
  let energy := Py.mul action (capacity (electrical_storage b)) in
  Ok (set_electrical_storage (charge (electrical_storage b) energy) b).

(** The six actions, [None] when absent. *)
Record Actions := {
  cooling_device_action : option pynum;
  heating_device_action : option pynum;
  cooling_storage_action : option pynum;
  heating_storage_action : option pynum;
  dhw_storage_action : option pynum;
  electrical_storage_action : option pynum;
}.

Definition apply_actions (a : Actions) (b : Building) : result Building :=
  let cooling_device_action := default (Py.flt 0) (cooling_device_action a) in
  let heating_device_action := default (Py.flt 0) (heating_device_action a) in
  let cooling_storage_action := default (Py.flt 0) (cooling_storage_action a) in
  let heating_storage_action := default (Py.flt 0) (heating_storage_action a) in
  let dhw_storage_action := default (Py.flt 0) (dhw_storage_action a) in
  let electrical_storage_action := default (Py.flt 0) (electrical_storage_action a) in
  b ← update_cooling_device cooling_device_action b;
  b ← update_heating_device heating_device_action b;
  b ← update_cooling_storage cooling_storage_action b;
  b ← update_heating_storage heating_storage_action b;
  b ← update_dhw_storage dhw_storage_action b;
  b ← update_electrical_storage electrical_storage_action b;
  update_dynamics b.

(** *** [estimate_action_space] *)

(** [vars(self)[f'_Building__{key}'].capacity]: the private attribute of
    that name, which must be a storage to have a capacity. *)
Definition private_capacity (b : Building) (key : string) : result pynum :=
  if decide (key = "dhw_storage") then Ok (capacity (dhw_storage b))
  else if decide (key = "cooling_storage") then Ok (capacity (cooling_storage b))
  else if decide (key = "heating_storage") then Ok (capacity (heating_storage b))
  else if decide (key = "electrical_storage") then Ok (capacity (electrical_storage b))
  else if decide (key ∈ ["name"; "energy_simulation"; "weather"; "carbon_intensity";
                         "pricing"; "dhw_device"; "cooling_device"; "heating_device"; "pv";
                         "observation_metadata"; "action_metadata";
                         "observation_epsilon"; "observation_space"])
  then Raise (AttributeError "capacity")
  else Raise (KeyError ("_Building__" +:+ key)).

(** The pair appended to [low_limit] and [high_limit] for one active action. *)
Definition action_limits (b : Building) (key : string) : result (pynum * pynum) :=
  if decide (key = "electrical_storage") then Ok (Py.flt (-1), Py.flt 1)
  else if decide (key ∈ ["cooling_device"; "heating_device"]) then Ok (Py.flt 0, Py.flt 1)
  else
    capacity ← private_capacity b key;
    demand ← vars_lookup (EnergySimulation.vars (energy_simulation b))
                (split_underscore_head key +:+ "_demand");
    maximum_demand ← np_max demand;
    let maximum_demand_ratio := np_truediv maximum_demand capacity in
    except_ZeroDivisionError
      (Ok (Py.max (Py.neg maximum_demand_ratio) (Py.flt (-1)),
           Py.min maximum_demand_ratio (Py.flt 1)))
      (Ok (Py.flt (-1), Py.flt 1)).

Definition estimate_action_space (b : Building) : result Box :=
  limits ← mapM (action_limits b) (active_actions b);
  Ok {| low := np_float32 <$> limits.*1; high := np_float32 <$> limits.*2 |}.

(** *** [observations] *)

(** [device.get_cop(...)] of the cooling device for a heat-pump heating
    device, the heating device's [efficiency] otherwise *)
Definition heating_device_cop (b : Building) (t : nat) : result pynum :=
  match heating_device b with
  | HeatPump _ =>
      temperature ← index (Weather.outdoor_dry_bulb_temperature (weather b)) t;
      Ok (get_cop (cooling_device b) temperature true)
  | ElectricHeater e => Ok (efficiency e)
  end.

(** The items of the dictionary display [data] of the [observations]
    property, in the order in which they are written *)
Definition observations_items (b : Building) : result (list (string * pynum)) :=
  let t := time_step b in
  let es := energy_simulation b in
  es_items ← series_at t (EnergySimulation.vars es);
  weather_items ← series_at t (Weather.vars (weather b));
  pricing_items ← series_at t (Pricing.vars (pricing b));
  sg ← index (EnergySimulation.solar_generation es) t;
  let solar_generation := get_generation (pv b) sg in
  cs ← index (soc (cooling_storage b)) t;
  cooling_storage_soc ← py_truediv cs (capacity (cooling_storage b));
  hs ← index (soc (heating_storage b)) t;
  heating_storage_soc ← py_truediv hs (capacity (heating_storage b));
  ds ← index (soc (dhw_storage b)) t;
  dhw_storage_soc ← py_truediv ds (capacity (dhw_storage b));
  bs ← index (soc (electrical_storage b)) t;
  c0 ← index (capacity_history (electrical_storage b)) 0%nat;
  electrical_storage_soc ← py_truediv bs c0;
  net ← index (net_electricity_consumption b) t;
  carbon_items ← series_at t (CarbonIntensity.vars (carbon_intensity b));
  temperature ← index (Weather.outdoor_dry_bulb_temperature (weather b)) t;
  let cooling_device_cop := get_cop (cooling_device b) temperature false in
  heating_cop ← heating_device_cop b t;
  cooling_demand ← index (EnergySimulation.cooling_demand es) t;
  heating_demand ← index (EnergySimulation.heating_demand es) t;
  csp ← index (EnergySimulation.cooling_dry_bulb_temperature_set_point es) t;
  hsp ← index (EnergySimulation.heating_dry_bulb_temperature_set_point es) t;
  csp' ← index (EnergySimulation.cooling_dry_bulb_temperature_set_point es) t;
  indoor ← index (EnergySimulation.indoor_dry_bulb_temperature es) t;
  hsp' ← index (EnergySimulation.heating_dry_bulb_temperature_set_point es) t;
  indoor' ← index (EnergySimulation.indoor_dry_bulb_temperature es) t;
  occupant_count ← index (EnergySimulation.occupant_count es) t;
  Ok (es_items ++ weather_items ++ pricing_items ++
      [("solar_generation", solar_generation);
       ("cooling_storage_soc", cooling_storage_soc);
       ("heating_storage_soc", heating_storage_soc);
       ("dhw_storage_soc", dhw_storage_soc);
       ("electrical_storage_soc", electrical_storage_soc);
       ("net_electricity_consumption", net)] ++
      carbon_items ++
      [("cooling_device_cop", cooling_device_cop);
       ("heating_device_cop", heating_cop);
       ("cooling_demand", cooling_demand);
       ("heating_demand", heating_demand);
       ("cooling_dry_bulb_temperature_set_point", csp);
       ("heating_dry_bulb_temperature_set_point", hsp);
       ("cooling_dry_bulb_temperature_delta", Py.abs (Py.sub csp' indoor));
       ("heating_dry_bulb_temperature_delta", Py.abs (Py.sub hsp' indoor'));
       ("occupant_count", occupant_count)]).

(** The dictionary [data]: a later item replaces an earlier one of the
    same key. *)
Definition observations_data (b : Building) : result (gmap string pynum) :=
  items ← observations_items b;
  Ok (dict_update ∅ items).

(** The [observations] property: the active observations in the order of
    [observation_metadata], or the assertion failure naming the unknown ones *)
Definition observations (b : Building) : result (list (string * pynum)) :=
  data ← observations_data b;
  let observations := omap (λ k, (k,.) <$> data !! k) (active_observations b) in
  let unknown_observations : gset string :=
    list_to_set (active_observations b) ∖ list_to_set observations.*1 in
  if decide (size unknown_observations = 0%nat) then Ok observations
  else Raise (AssertionError unknown_observations).

End Building.

(** ** numpy and pandas helpers of the look-back window *)

(** [np.roll(a, shift)] *)
Definition np_roll {A} (a : list A) (shift : Z) : list A :=
  let n := length a in
  if decide (n = 0%nat) then a
  else
    let k := Z.to_nat (shift mod Z.of_nat n) in
    drop (n - k) a ++ take (n - k) a.

(** [a[-n:]] *)
Definition tail_slice {A} (a : list A) (n : nat) : list A :=
  if decide (n = 0%nat) then a else drop (length a - n) a.

(** [a[start:stop]] for [0 <= start] *)
Definition slice {A} (a : list A) (start stop : nat) : list A :=
  take (stop - start) (drop start a).

(** [np.roll(np.concatenate([x, x[-lookback:]]), shift)[t:t + lookback]] *)
Definition lookback_window {A} (shift : Z) (lookback t : nat) (x : list A) : list A :=
  slice (np_roll (x ++ tail_slice x lookback) shift) t (t + lookback).

(** [pd.DataFrame(np.zeros((rows, width)), columns=columns)] *)
Definition df_zeros (rows width : nat) (columns : list string) : result (list (string * list pynum)) :=
  if decide (width = length columns) then Ok ((λ c, (c, replicate rows (Py.flt 0))) <$> columns)
  else Raise ValueError.

(** [frame[c] = values]: the column [c] is replaced where it stands, a new
    column goes last; the values must fill the rows of the frame. *)
Definition df_assign (c : string) (values : list pynum) (frame : list (string * list pynum)) : list (string * list pynum) :=
  match list_find (λ kv, kv.1 = c) frame with
  | Some (i, _) => <[i := (c, values)]> frame
  | None => frame ++ [(c, values)]
  end.

Definition df_set (rows : nat) (c : string) (values : list pynum) (frame : list (string * list pynum)) : result (list (string * list pynum)) :=
  if decide (length values = rows) then Ok (df_assign c values frame)
  else Raise ValueError.

(** [frame[c]] *)
Definition df_column (frame : list (string * list pynum)) (c : string) : list pynum :=
  match list_find (λ kv, kv.1 = c) frame with
  | Some (_, kv) => kv.2
  | None => []
  end.

(** ** The [LSTMDynamicsBuilding] class *)

Module LSTMDynamicsBuilding.
Section LSTMDynamicsBuilding.

Context {Tank Battery HP EH PVT : Type}.
Context `{!StorageModel Tank, !StorageModel Battery, !BatteryModel Battery}.
Context `{!HeatPumpModel HP, !ElectricHeaterModel EH, !PVModel PVT}.

(** Modelled from the spec: the cyclic encoding [PeriodicNormalization] of
    [citylearn.preprocessing], a sine and cosine pair computed from a sample
    and the maximum [x_max] of the window. *)
Variables periodic_sin periodic_cos : pynum → pynum → pynum.

(** The attributes of [self.dynamics] read by the window assembly *)
Record Dynamics := { lookback : nat; input_size : nat }.

Definition columns : list string :=
  [ "direct_solar_irradiance"; "outdoor_dry_bulb_temperature"; "occupant_count"; "q_hvac";
    "hour_sin"; "hour_cos"; "day_type_sin"; "day_type_cos"; "month_sin"; "month_cos";
    "indoor_dry_bulb_temperature" ].

(** [{**vars(self.energy_simulation), **vars(self.weather)}[c]] *)
Definition dynamics_data (b : @Building Tank Battery HP EH PVT) (c : string) : result (list pynum) :=
  vars_lookup (Weather.vars (weather b) ++ EnergySimulation.vars (energy_simulation b)) c.

(** One pass of [for c in periodic_columns] *)
Definition set_periodic (dynamics : Dynamics) (b : @Building Tank Battery HP EH PVT) (c : string) (frame : list (string * list pynum)) : result (list (string * list pynum)) :=
  let l := lookback dynamics in
  series ← dynamics_data b c;
  let values := lookback_window (Z.of_nat l) l (time_step b) series in
  x_max ← np_max values;
  frame ← df_set l (c +:+ "_sin") (periodic_sin x_max <$> values) frame;
  df_set l (c +:+ "_cos") (periodic_cos x_max <$> values) frame.

(** One pass of [for c in columns] over the columns left *)
Definition set_plain (dynamics : Dynamics) (b : @Building Tank Battery HP EH PVT) (c : string) (frame : list (string * list pynum)) : result (list (string * list pynum)) :=
  let l := lookback dynamics in
  series ← dynamics_data b c;
  df_set l c (lookback_window (Z.of_nat l) l (time_step b) series) frame.

(** [update_dynamics], up to the assembled [model_input] (before scaling) *)
Definition model_input (dynamics : Dynamics) (b : @Building Tank Battery HP EH PVT) : result (list (string * list pynum)) :=
  let l := lookback dynamics in
  let t := time_step b in
  let es := energy_simulation b in
  frame ← df_zeros l (input_size dynamics) columns;
  frame ← df_set l "q_hvac"
            (lookback_window (Z.of_nat l - 1) l t (EnergySimulation.cooling_demand es)) frame;
  frame ← df_set l "indoor_dry_bulb_temperature"
            (lookback_window (Z.of_nat l) l t (EnergySimulation.indoor_dry_bulb_temperature es))
            frame;
  (* for c in periodic_columns *)
  frame ← set_periodic dynamics b "hour" frame;
  frame ← set_periodic dynamics b "day_type" frame;
  frame ← set_periodic dynamics b "month" frame;
  (* for c in columns, the three names left *)
  frame ← set_plain dynamics b "direct_solar_irradiance" frame;
  frame ← set_plain dynamics b "outdoor_dry_bulb_temperature" frame;
  set_plain dynamics b "occupant_count" frame.

Definition update_cooling_device (action : pynum) (b : @Building Tank Battery HP EH PVT) : result (@Building Tank Battery HP EH PVT) :=
  let t := time_step b in
  let es := energy_simulation b in
  demand ←
    (if Py.gt (EnergySimulation.cooling_device_demand_schedule es) (PyInt 0) then
       let electric_power :=
         Py.min (Py.mul action (hp_nominal_power (cooling_device b)))
           (hp_nominal_power (cooling_device b)) in
       temperature ← index (Weather.outdoor_dry_bulb_temperature (weather b)) t;
       Ok (hp_get_max_output_power (cooling_device b) temperature false (Some electric_power))
     else Ok (Py.flt 0));
  cooling_demand ← np_setitem (EnergySimulation.cooling_demand es) t demand;
  Ok (set_energy_simulation (EnergySimulation.set_cooling_demand cooling_demand es) b).

Definition device_nominal_power (d : Device HP EH) : pynum :=
  match d with
  | HeatPump h => hp_nominal_power h
  | ElectricHeater e => eh_nominal_power e
  end.

Definition update_heating_device (action : pynum) (b : @Building Tank Battery HP EH PVT) : result (@Building Tank Battery HP EH PVT) :=
  let t := time_step b in
  let es := energy_simulation b in
  demand ←
    (if Py.gt (EnergySimulation.heating_device_demand_schedule es) (PyInt 0) then
       let electric_power :=
         Py.min (Py.mul action (device_nominal_power (heating_device b)))
           (device_nominal_power (heating_device b)) in
       match heating_device b with
       | HeatPump h =>
           temperature ← index (Weather.outdoor_dry_bulb_temperature (weather b)) t;
           Ok (hp_get_max_output_power h temperature true (Some electric_power))
       | ElectricHeater e => Ok (eh_get_max_output_power e)
       end
     else Ok (Py.flt 0));
  heating_demand ← np_setitem (EnergySimulation.heating_demand es) t demand;
  Ok (set_energy_simulation (EnergySimulation.set_heating_demand heating_demand es) b).

End LSTMDynamicsBuilding.
End LSTMDynamicsBuilding.

(** ** Runs of a building *)

Section Runs.

Context {Tank Battery HP EH PVT : Type}.
Context `{!StorageModel Tank, !StorageModel Battery, !BatteryModel Battery}.
Context `{!HeatPumpModel HP, !ElectricHeaterModel EH, !PVModel PVT}.

(** The six time-series ledgers: cooling, heating and hot-water electricity
    consumption, net electricity consumption, its price and its emission. *)
Definition ledgers (b : @Building Tank Battery HP EH PVT) : list (list pynum) :=
  [ cooling_electricity_consumption b; heating_electricity_consumption b;
    dhw_electricity_consumption b; net_electricity_consumption b;
    net_electricity_consumption_price b; net_electricity_consumption_emission b ].

(** One call of the environment on a building: the actions of a step, or
    the move to the next time step. *)
Inductive step : @Building Tank Battery HP EH PVT → @Building Tank Battery HP EH PVT → Prop :=
  | step_apply_actions a b b' : apply_actions a b = Ok b' → step b b'
  | step_next_time_step b b' : next_time_step b = Ok b' → step b b'.

(** The states of an episode: [reset], then any number of calls. *)
Definition episode (b : @Building Tank Battery HP EH PVT) : Prop :=
  ∃ b0 b1, reset b0 = Ok b1 ∧ rtc step b1 b.

End Runs.

(** Row [i] of [column] holds the sample of [source] one step after the
    step [p] whose indoor temperature is in row [i] of the temperature
    column, for each of the [rows] rows of the window. *)
Definition one_step_after_temperature (frame : list (string * list pynum)) (temperatures : list pynum) (column : string) (source : list pynum) (rows : nat) : Prop :=
  ∀ i, i < rows →
    ∃ p, is_Some (temperatures !! p) ∧
         df_column frame "indoor_dry_bulb_temperature" !! i = temperatures !! p ∧
         df_column frame column !! i = source !! (S p mod length source).

(** ** numpy and builtin reductions used by the space estimation *)

(** The builtins [min(iterable)] and [max(iterable)]: the first extreme
    element is kept; an empty iterable raises. *)
Definition py_min_list (l : list pynum) : result pynum :=
  match l with
  | [] => Raise ValueError
  | x :: l => Ok (foldl Py.min x l)
  end.

Definition py_max_list (l : list pynum) : result pynum :=
  match l with
  | [] => Raise ValueError
  | x :: l => Ok (foldl Py.max x l)
  end.

(** [a.min()] on a numpy array: NaN propagates, an empty array raises. *)
Definition np_minimum (a b : pynum) : pynum :=
  if Py.isnan a then a else if Py.isnan b then b else if Py.lt b a then b else a.

Definition np_min (a : list pynum) : result pynum :=
  match a with
  | [] => Raise ValueError
  | x :: l => Ok (foldl np_minimum x l)
  end.

(** [np.isinf] *)
Definition np_isinf (a : pynum) : bool :=
  match Py.to_float a with
  | S754_infinity _ => true
  | _ => false
  end.

(** An elementwise operation on two numpy arrays: equal lengths, or a
    length of one broadcast against the other. *)
Definition np_map2 (f : pynum → pynum → pynum) (a b : list pynum) : result (list pynum) :=
  if decide (length a = length b) then Ok (zip_with f a b)
  else
    match a, b with
    | [x], _ => Ok (f x <$> b)
    | _, [y] => Ok ((λ x, f x y) <$> a)
    | _, _ => Raise ValueError
    end.

(** [dict(items)[key]]: the last item of that key *)
Definition getitem {A} (items : list (string * A)) (key : string) : result A :=
  match list_find (λ kv, kv.1 = key) (reverse items) with
  | Some (_, kv) => Ok kv.2
  | None => Raise (KeyError key)
  end.

(** The literals [0.8] and [2.5] *)
Definition float_0_8 : pynum := np_truediv (Py.flt 8) (Py.flt 10).
Definition float_2_5 : pynum := np_truediv (Py.flt 5) (Py.flt 2).

(** ** [estimate_observation_space] *)

Section ObservationSpace.

Context {Tank Battery HP EH PVT : Type}.
Context `{!StorageModel Tank, !StorageModel Battery, !BatteryModel Battery}.
Context `{!HeatPumpModel HP, !ElectricHeaterModel EH, !PVModel PVT}.

(** [self.__observation_epsilon], set to [0.0] by [__init__] *)
Definition observation_epsilon : pynum := Py.flt 0.

Definition temperature_band : pynum := PyInt 20.

(** The items of the dictionary display [data]: the PV generation first,
    then the series of the four data objects. *)
Definition observation_space_data (b : @Building Tank Battery HP EH PVT) : list (string * list pynum) :=
  [("solar_generation",
    get_generation (pv b) <$> EnergySimulation.solar_generation (energy_simulation b))] ++
  EnergySimulation.vars (energy_simulation b) ++
  Weather.vars (weather b) ++
  CarbonIntensity.vars (carbon_intensity b) ++
  Pricing.vars (pricing b).

(** The series [net_electric_consumption] of the
    [net_electricity_consumption] case *)
Definition net_electric_consumption (b : @Building Tank Battery HP EH PVT) : result (list pynum) :=
  let es := energy_simulation b in
  s ← np_map2 Py.add (EnergySimulation.non_shiftable_load es) (EnergySimulation.dhw_demand es);
  s ← np_map2 Py.add s (EnergySimulation.cooling_demand es);
  s ← np_map2 Py.add s (EnergySimulation.heating_demand es);
  c ← py_truediv (capacity (dhw_storage b)) float_0_8;
  let s := (λ x, Py.add x c) <$> s in
  c ← py_truediv (capacity (cooling_storage b)) float_0_8;
  let s := (λ x, Py.add x c) <$> s in
  c ← py_truediv (capacity (heating_storage b)) float_0_8;
  let s := (λ x, Py.add x c) <$> s in
  c ← py_truediv (capacity (electrical_storage b)) float_0_8;
  let s := (λ x, Py.add x c) <$> s in
  solar ← getitem (observation_space_data b) "solar_generation";
  np_map2 Py.sub s solar.

(** The names with a case of their own in the loop of
    [estimate_observation_space] *)
Definition special_observations : list string :=
  [ "net_electricity_consumption"; "cooling_storage_soc"; "heating_storage_soc";
    "dhw_storage_soc"; "electrical_storage_soc"; "cooling_device_cop"; "heating_device_cop";
    "indoor_dry_bulb_temperature"; "cooling_dry_bulb_temperature_delta";
    "heating_dry_bulb_temperature_delta"; "cooling_demand"; "heating_demand" ].

(** The pair appended to [low_limit] and [high_limit] for one active
    observation.  [get_cop] is called on the array of outdoor temperatures
    and gives the array of the coefficients, one per temperature, as
    [get_generation] does on the solar series. *)
Definition observation_limits (b : @Building Tank Battery HP EH PVT) (key : string) : result (pynum * pynum) :=
  let es := energy_simulation b in
  if decide (key = "net_electricity_consumption") then
    net ← net_electric_consumption b;
    m ← py_max_list (Py.abs <$> net);
    m' ← py_max_list (Py.abs <$> net);
    Ok (Py.neg m, m')
  else if decide (key ∈ ["cooling_storage_soc"; "heating_storage_soc"; "dhw_storage_soc";
                         "electrical_storage_soc"]) then
    Ok (Py.flt 0, Py.flt 1)
  else if decide (key ∈ ["cooling_device_cop"]) then
    let cop :=
      (λ t, get_cop (cooling_device b) t false) <$>
        Weather.outdoor_dry_bulb_temperature (weather b) in
    l ← py_min_list cop;
    h ← py_max_list cop;
    Ok (l, h)
  else if decide (key ∈ ["heating_device_cop"]) then
    match heating_device b with
    | HeatPump h =>
        let cop :=
          (λ t, get_cop h t true) <$> Weather.outdoor_dry_bulb_temperature (weather b) in
        l ← py_min_list cop;
        h ← py_max_list cop;
        Ok (l, h)
    | ElectricHeater e => Ok (efficiency e, efficiency e)
    end
  else if decide (key = "indoor_dry_bulb_temperature") then
    l ← np_min (EnergySimulation.indoor_dry_bulb_temperature es);
    h ← np_max (EnergySimulation.indoor_dry_bulb_temperature es);
    Ok (Py.sub l temperature_band, Py.add h temperature_band)
  else if decide (key ∈ ["cooling_dry_bulb_temperature_delta";
                         "heating_dry_bulb_temperature_delta"]) then
    Ok (Py.flt 0, temperature_band)
  else if decide (key ∈ ["cooling_demand"; "heating_demand"]) then
    series ← vars_lookup (EnergySimulation.vars es) key;
    demand ← np_max series;
    Ok (Py.flt 0, Py.mul demand float_2_5)
  else
    series ← getitem (observation_space_data b) key;
    l ← py_min_list series;
    series' ← getitem (observation_space_data b) key;
    h ← py_max_list series';
    Ok (l, h).

Definition estimate_observation_space (b : @Building Tank Battery HP EH PVT) : result Box :=
  limits ← mapM (observation_limits b) (active_observations b);
  let low_limit := (λ v, Py.sub v observation_epsilon) <$> limits.*1 in
  let high_limit := (λ v, Py.add v observation_epsilon) <$> limits.*2 in
  Ok {| low := np_float32 <$> low_limit; high := np_float32 <$> high_limit |}.

End ObservationSpace.


(** ** The energy flows of the storages *)

(** [np.array(a, dtype=float)] *)
Definition np_array_float (a : list pynum) : list pynum :=
  (λ x, PyFloat (Py.to_float x)) <$> a.

(** [a.clip(min=lower)] and [a.clip(max=upper)] on a float array: an
    element that is NaN or strictly beyond the bound is kept, and any other
    element gives the bound as a float; so does a tie with the bound, a
    zero of the other sign. *)
Definition np_clip_min (a : list pynum) (lower : pynum) : list pynum :=
  (λ x, if Py.isnan x || Py.lt lower x then x else PyFloat (Py.to_float lower)) <$> a.

Definition np_clip_max (a : list pynum) (upper : pynum) : list pynum :=
  (λ x, if Py.isnan x || Py.lt x upper then x else PyFloat (Py.to_float upper)) <$> a.

(** [np.array(balance, dtype=float).clip(min=0)]: the energy that goes
    into a storage *)
Definition energy_to_storage (balance : list pynum) : list pynum :=
  np_clip_min (np_array_float balance) (PyInt 0).

(** [np.array(balance, dtype=float).clip(max=0)*-1]: the energy that comes
    out of a storage *)
Definition energy_from_storage (balance : list pynum) : list pynum :=
  (λ x, Py.mul x (PyInt (-1))) <$> np_clip_max (np_array_float balance) (PyInt 0).

Section EnergyFlows.

Context {Tank Battery HP EH PVT : Type}.
Context `{!StorageModel Tank, !StorageModel Battery, !BatteryModel Battery}.
Context `{!HeatPumpModel HP, !ElectricHeaterModel EH, !PVModel PVT}.

Definition energy_from_cooling_device_to_cooling_storage (b : @Building Tank Battery HP EH PVT) : list pynum :=
  energy_to_storage (energy_balance (cooling_storage b)).

Definition energy_from_heating_device_to_heating_storage (b : @Building Tank Battery HP EH PVT) : list pynum :=
  energy_to_storage (energy_balance (heating_storage b)).

Definition energy_from_dhw_device_to_dhw_storage (b : @Building Tank Battery HP EH PVT) : list pynum :=
  energy_to_storage (energy_balance (dhw_storage b)).

Definition energy_to_electrical_storage (b : @Building Tank Battery HP EH PVT) : list pynum :=
  energy_to_storage (energy_balance (electrical_storage b)).

Definition energy_from_cooling_storage (b : @Building Tank Battery HP EH PVT) : list pynum :=
  energy_from_storage (energy_balance (cooling_storage b)).

Definition energy_from_heating_storage (b : @Building Tank Battery HP EH PVT) : list pynum :=
  energy_from_storage (energy_balance (heating_storage b)).

Definition energy_from_dhw_storage (b : @Building Tank Battery HP EH PVT) : list pynum :=
  energy_from_storage (energy_balance (dhw_storage b)).

Definition energy_from_electrical_storage (b : @Building Tank Battery HP EH PVT) : list pynum :=
  energy_from_storage (energy_balance (electrical_storage b)).

End EnergyFlows.

(** ** Simple device and storage models

    Small stand-ins for the models of [citylearn.energy_model], used to run
    the embedding on concrete buildings. *)

(** A lossless tank that logs the energy of every [charge] call in
    [energy_balance]; also used as the battery. *)
Record SimpleStorage := {
  ss_capacity : pynum;
  ss_soc : list pynum;
  ss_energy_balance : list pynum;
}.

Definition ss_charge (s : SimpleStorage) (energy : pynum) : SimpleStorage :=
  {| ss_capacity := ss_capacity s;
     ss_soc := ss_soc s ++ [Py.add (default (Py.flt 0) (last (ss_soc s))) energy];
     ss_energy_balance := ss_energy_balance s ++ [energy] |}.

Definition ss_reset (s : SimpleStorage) : SimpleStorage :=
  {| ss_capacity := ss_capacity s; ss_soc := [Py.flt 0]; ss_energy_balance := [Py.flt 0] |}.

Global Instance simple_storage_model : StorageModel SimpleStorage := {|
  capacity := ss_capacity;
  soc := ss_soc;
  energy_balance := ss_energy_balance;
  charge := ss_charge;
  storage_next_time_step := id;
  storage_reset := ss_reset;
|}.

Global Instance simple_battery_model : BatteryModel SimpleStorage := {|
  electricity_consumption := ss_energy_balance;
  capacity_history := λ s, [ss_capacity s];
|}.

(** A heat pump with a constant coefficient of performance and a constant
    maximum thermal output. *)
Record SimpleHeatPump := {
  shp_nominal_power : pynum;
  shp_cop : pynum;
  shp_max_output : pynum;
  shp_electricity_consumption : list pynum;
}.

Global Instance simple_heat_pump_model : HeatPumpModel SimpleHeatPump := {|
  hp_nominal_power := shp_nominal_power;
  get_cop := λ h _ _, shp_cop h;
  hp_get_max_output_power := λ h _ _ max_electric_power,
    match max_electric_power with
    | None => shp_max_output h
    | Some p => Py.mul p (shp_cop h)
    end;
  hp_get_input_power := λ h output_power _ _, np_truediv output_power (shp_cop h);
  hp_update_electricity_consumption := λ h p,
    {| shp_nominal_power := shp_nominal_power h; shp_cop := shp_cop h;
       shp_max_output := shp_max_output h;
       shp_electricity_consumption := shp_electricity_consumption h ++ [p] |};
  hp_next_time_step := id;
  hp_reset := λ h,
    {| shp_nominal_power := shp_nominal_power h; shp_cop := shp_cop h;
       shp_max_output := shp_max_output h; shp_electricity_consumption := [] |};
|}.

(** A resistive heater: input power is output power over the efficiency. *)
Record SimpleHeater := {
  she_nominal_power : pynum;
  she_efficiency : pynum;
  she_electricity_consumption : list pynum;
}.

Global Instance simple_heater_model : ElectricHeaterModel SimpleHeater := {|
  eh_nominal_power := she_nominal_power;
  efficiency := she_efficiency;
  eh_get_max_output_power := λ e, Py.mul (she_nominal_power e) (she_efficiency e);
  eh_get_input_power := λ e output_power, np_truediv output_power (she_efficiency e);
  eh_update_electricity_consumption := λ e p,
    {| she_nominal_power := she_nominal_power e; she_efficiency := she_efficiency e;
       she_electricity_consumption := she_electricity_consumption e ++ [p] |};
  eh_next_time_step := id;
  eh_reset := λ e,
    {| she_nominal_power := she_nominal_power e; she_efficiency := she_efficiency e;
       she_electricity_consumption := [] |};
|}.

(** A PV array: [nominal_power * x / 1000]. *)
Record SimplePV := { spv_nominal_power : pynum }.

Global Instance simple_pv_model : PVModel SimplePV := {|
  get_generation := λ p x, np_truediv (Py.mul (spv_nominal_power p) x) (Py.flt 1000);
  pv_next_time_step := id;
  pv_reset := id;
|}.

(** ** Concrete buildings over a horizon of four steps *)

Definition floats (l : list Z) : list pynum := Py.flt <$> l.
Definition ints (l : list Z) : list pynum := PyInt <$> l.

Definition sample_energy_simulation (cooling heating : list pynum) (cooling_schedule : pynum) : EnergySimulation.t := {|
  EnergySimulation.month := ints [7; 7; 7; 8]%Z;
  EnergySimulation.hour := ints [21; 22; 23; 0]%Z;
  EnergySimulation.day_type := ints [2; 2; 2; 3]%Z;
  EnergySimulation.daylight_savings_status := ints [0; 0; 0; 0]%Z;
  EnergySimulation.indoor_dry_bulb_temperature := floats [20; 21; 22; 23]%Z;
  EnergySimulation.average_unmet_cooling_setpoint_difference := floats [0; 0; 0; 0]%Z;
  EnergySimulation.indoor_relative_humidity := floats [50; 51; 52; 53]%Z;
  EnergySimulation.non_shiftable_load := floats [2; 3; 2; 3]%Z;
  EnergySimulation.dhw_demand := floats [1; 1; 2; 2]%Z;
  EnergySimulation.cooling_demand := cooling;
  EnergySimulation.heating_demand := heating;
  EnergySimulation.solar_generation := floats [0; 500; 1000; 0]%Z;
  EnergySimulation.occupant_count := floats [3; 4; 5; 6]%Z;
  EnergySimulation.cooling_dry_bulb_temperature_set_point := floats [24; 24; 24; 24]%Z;
  EnergySimulation.heating_dry_bulb_temperature_set_point := floats [18; 18; 18; 18]%Z;
  EnergySimulation.cooling_device_demand_schedule := cooling_schedule;
  EnergySimulation.heating_device_demand_schedule := PyInt 0;
|}.

Definition sample_weather : Weather.t :=
  let temperature := floats [30; 31; 32; 33]%Z in
  let humidity := floats [40; 41; 42; 43]%Z in
  let diffuse := floats [100; 110; 120; 130]%Z in
  let direct := floats [200; 210; 220; 230]%Z in
  Weather.Build_t temperature humidity diffuse direct
    temperature temperature temperature humidity humidity humidity
    diffuse diffuse diffuse direct direct direct.

Definition sample_pricing : Pricing.t :=
  let price := floats [2; 2; 4; 4]%Z in
  Pricing.Build_t price price price price.

Definition sample_heat_pump (cop max_output : Z) : SimpleHeatPump :=
  {| shp_nominal_power := Py.flt 4; shp_cop := Py.flt cop;
     shp_max_output := Py.flt max_output; shp_electricity_consumption := [] |}.

Definition sample_heater (efficiency : pynum) : SimpleHeater :=
  {| she_nominal_power := Py.flt 8; she_efficiency := efficiency;
     she_electricity_consumption := [] |}.

Definition sample_storage (capacity : pynum) : SimpleStorage :=
  {| ss_capacity := capacity; ss_soc := [Py.flt 0]; ss_energy_balance := [Py.flt 0] |}.

Definition sample_building
    (cooling heating : list pynum) (cooling_schedule heating_capacity : pynum)
    (heating_dev dhw_dev : Device SimpleHeatPump SimpleHeater)
    (observation_names action_names : list string)
  : @Building SimpleStorage SimpleStorage SimpleHeatPump SimpleHeater SimplePV := {|
  energy_simulation := sample_energy_simulation cooling heating cooling_schedule;
  weather := sample_weather;
  carbon_intensity := CarbonIntensity.Build_t (floats [1; 1; 2; 2]%Z);
  pricing := sample_pricing;
  dhw_storage := sample_storage (Py.flt 6);
  cooling_storage := sample_storage (Py.flt 10);
  heating_storage := sample_storage heating_capacity;
  electrical_storage := sample_storage (Py.flt 8);
  dhw_device := dhw_dev;
  cooling_device := sample_heat_pump 2 5;
  heating_device := heating_dev;
  pv := {| spv_nominal_power := Py.flt 2 |};
  observation_metadata := (λ k, (k, true)) <$> observation_names;
  action_metadata := (λ k, (k, true)) <$> action_names;
  time_step := 0;
  cooling_electricity_consumption := [];
  heating_electricity_consumption := [];
  dhw_electricity_consumption := [];
  solar_generation_ := [];
  net_electricity_consumption := [];
  net_electricity_consumption_emission := [];
  net_electricity_consumption_price := [];
|}.

(** A building whose heating device is a heat pump. *)
Definition building_1 :=
  sample_building (floats [4; 5; 6; 7]%Z) (floats [9; 9; 8; 8]%Z) (PyInt 1) (Py.flt 12)
    (HeatPump (sample_heat_pump 4 6)) (ElectricHeater (sample_heater (Py.flt 1)))
    ["hour"; "outdoor_dry_bulb_temperature"; "heating_device_cop"; "net_electricity_consumption"]
    ["cooling_storage"; "electrical_storage"].

(** No cooling demand, a cooling storage of capacity 10 and a cooling device
    whose maximum output is 5. *)
Definition building_2 :=
  sample_building (floats [0; 0; 0; 0]%Z) (floats [9; 9; 8; 8]%Z) (PyInt 0) (Py.flt 12)
    (HeatPump (sample_heat_pump 4 6)) (ElectricHeater (sample_heater (Py.flt 1)))
    ["hour"] ["cooling_storage"].

(** Resistive heaters for heating (efficiency 1) and hot water (efficiency 0.5). *)
Definition building_3 :=
  sample_building (floats [4; 5; 6; 7]%Z) (floats [9; 9; 8; 8]%Z) (PyInt 1) (Py.flt 12)
    (ElectricHeater (sample_heater (Py.flt 1)))
    (ElectricHeater (sample_heater (np_truediv (Py.flt 1) (Py.flt 2))))
    ["hour"] ["cooling_storage"].

(** No heating demand over the horizon and a heating storage of capacity 0. *)
Definition building_4 :=
  sample_building (floats [4; 5; 6; 7]%Z) (floats [0; 0; 0; 0]%Z) (PyInt 1) (Py.flt 0)
    (HeatPump (sample_heat_pump 4 6)) (ElectricHeater (sample_heater (Py.flt 1)))
    ["hour"] ["heating_storage"].

(** [building_1] at time step 2, with a look-back of two steps. *)
Definition building_5 := set_time_step 2 building_1.

Definition dynamics_5 : LSTMDynamicsBuilding.Dynamics :=
  {| LSTMDynamicsBuilding.lookback := 2; LSTMDynamicsBuilding.input_size := 11 |}.

(** The cooling demand of [building_1] with the cooling schedule switched off. *)
Definition building_7 :=
  sample_building (floats [4; 5; 6; 7]%Z) (floats [9; 9; 8; 8]%Z) (PyInt 0) (Py.flt 12)
    (HeatPump (sample_heat_pump 4 6)) (ElectricHeater (sample_heater (Py.flt 1)))
    ["hour"] ["cooling_device"].

(** An observation name without a data source *)
Definition building_6 :=
  sample_building (floats [4; 5; 6; 7]%Z) (floats [9; 9; 8; 8]%Z) (PyInt 1) (Py.flt 12)
    (HeatPump (sample_heat_pump 4 6)) (ElectricHeater (sample_heater (Py.flt 1)))
    ["hour"; "indoor_air_quality"] ["cooling_storage"].

(** Cooling and heating demands that are NaN at step 0, and heat pumps for
    heating (maximum output 6) and hot water (maximum output 4). *)
Definition building_11 :=
  sample_building (Py.nan :: floats [5; 6; 7]%Z) (Py.nan :: floats [9; 8; 8]%Z) (PyInt 1)
    (Py.flt 12)
    (HeatPump (sample_heat_pump 4 6)) (HeatPump (sample_heat_pump 3 4))
    ["hour"] ["cooling_storage"; "heating_storage"; "dhw_storage"].

(** The result of a call that returns, [b] itself otherwise. *)
Definition returned {A} (b : A) (r : result A) : A :=
  match r with
  | Ok b' => b'
  | Raise _ => b
  end.

(** The sample buildings once reset, and [building_1] after the actions of
    the first step and at the next time step. *)
Definition building_1_reset := returned building_1 (reset building_1).
Definition actions_1 : Actions :=
  {| cooling_device_action := None; heating_device_action := None;
     cooling_storage_action := Some (Py.flt 1); heating_storage_action := None;
     dhw_storage_action := None; electrical_storage_action := Some (Py.flt (-1)) |}.
Definition building_1_acted := returned building_1_reset (apply_actions actions_1 building_1_reset).
Definition building_1_next := returned building_1_acted (next_time_step building_1_acted).
Definition building_3_reset := returned building_3 (reset building_3).
Definition building_6_reset := returned building_6 (reset building_6).

Definition items_1 : list (string * pynum) := returned [] (observations_items building_1_reset).
Definition items_6 : list (string * pynum) := returned [] (observations_items building_6_reset).

(** What [observations] returns on [building_1] once reset *)
Definition observations_1 : list (string * pynum) :=
  returned [] (observations building_1_reset).

(** A stand-in for the cyclic encoding: the sample over the window maximum. *)
Definition sample_periodic (x_max x : pynum) : pynum := np_truediv x x_max.

Definition frame_5 : list (string * list pynum) :=
  returned [] (LSTMDynamicsBuilding.model_input sample_periodic sample_periodic
                 dynamics_5 building_5).

(** ** More concrete buildings *)

(** The action space of [building_1] *)
Definition action_space_1 : Box :=
  returned {| low := []; high := [] |} (estimate_action_space building_1).

(** The observation space of [building_1] *)
Definition observation_space_1 : Box :=
  returned {| low := []; high := [] |} (estimate_observation_space building_1).

(** Resistive heaters for heating and hot water, and observations of the
    five kinds that [estimate_observation_space] tells apart. *)
Definition building_8 :=
  sample_building (floats [4; 5; 6; 7]%Z) (floats [9; 9; 8; 8]%Z) (PyInt 1) (Py.flt 12)
    (ElectricHeater (sample_heater (Py.flt 1))) (ElectricHeater (sample_heater (Py.flt 1)))
    ["solar_generation"; "cooling_storage_soc"; "heating_device_cop";
     "heating_dry_bulb_temperature_delta"; "outdoor_dry_bulb_temperature"]
    ["cooling_storage"].

Definition observation_space_8 : Box :=
  returned {| low := []; high := [] |} (estimate_observation_space building_8).

(** [building_8] once reset, and what [observations] returns on it *)
Definition building_8_reset := returned building_8 (reset building_8).

Definition observations_8 : list (string * pynum) :=
  returned [] (observations building_8_reset).

(** A heating demand that is negative over the whole horizon *)
Definition building_12 :=
  sample_building (floats [4; 5; 6; 7]%Z) (floats [-60; -70; -80; -90]%Z) (PyInt 1) (Py.flt 12)
    (HeatPump (sample_heat_pump 4 6)) (ElectricHeater (sample_heater (Py.flt 1)))
    ["hour"] ["heating_storage"].

Definition action_space_12 : Box :=
  returned {| low := []; high := [] |} (estimate_action_space building_12).

(** The action space of [building_7], whose one action is the cooling device *)
Definition action_space_7 : Box :=
  returned {| low := []; high := [] |} (estimate_action_space building_7).

(** The energy simulation [es] with the heating schedule flag [flag] *)
Definition sample_heating_schedule (flag : pynum) (es : EnergySimulation.t) : EnergySimulation.t := {|
  EnergySimulation.month := EnergySimulation.month es;
  EnergySimulation.hour := EnergySimulation.hour es;
  EnergySimulation.day_type := EnergySimulation.day_type es;
  EnergySimulation.daylight_savings_status := EnergySimulation.daylight_savings_status es;
  EnergySimulation.indoor_dry_bulb_temperature := EnergySimulation.indoor_dry_bulb_temperature es;
  EnergySimulation.average_unmet_cooling_setpoint_difference :=
    EnergySimulation.average_unmet_cooling_setpoint_difference es;
  EnergySimulation.indoor_relative_humidity := EnergySimulation.indoor_relative_humidity es;
  EnergySimulation.non_shiftable_load := EnergySimulation.non_shiftable_load es;
  EnergySimulation.dhw_demand := EnergySimulation.dhw_demand es;
  EnergySimulation.cooling_demand := EnergySimulation.cooling_demand es;
  EnergySimulation.heating_demand := EnergySimulation.heating_demand es;
  EnergySimulation.solar_generation := EnergySimulation.solar_generation es;
  EnergySimulation.occupant_count := EnergySimulation.occupant_count es;
  EnergySimulation.cooling_dry_bulb_temperature_set_point :=
    EnergySimulation.cooling_dry_bulb_temperature_set_point es;
  EnergySimulation.heating_dry_bulb_temperature_set_point :=
    EnergySimulation.heating_dry_bulb_temperature_set_point es;
  EnergySimulation.cooling_device_demand_schedule :=
    EnergySimulation.cooling_device_demand_schedule es;
  EnergySimulation.heating_device_demand_schedule := flag;
|}.

(** [building_3], whose heating device is a resistive heater, and
    [building_1], whose heating device is a heat pump, with the heating
    schedule switched on. *)
Definition building_9 :=
  set_energy_simulation (sample_heating_schedule (PyInt 1) (energy_simulation building_3))
    building_3.

Definition building_10 :=
  set_energy_simulation (sample_heating_schedule (PyInt 1) (energy_simulation building_1))
    building_1.

(** [building_1] after the cooling device update for the action 2 *)
Definition building_1_cooled :=
  returned building_1 (LSTMDynamicsBuilding.update_cooling_device (Py.flt 2) building_1).

(** * Properties *)

(** ** The [result] monad and indexing *)

Lemma bind_Ok {A B} (m : result A) (f : A → result B) (y : B) :
  m ≫= f = Ok y ↔ ∃ x, m = Ok x ∧ f x = Ok y.
Proof.
  destruct m as [x|e]; cbn.
  - split; [eauto | intros (? & [= <-] & ?); done].
  - split; [done | intros (? & [=] & _)].
Qed.

Lemma index_Ok {A} (l : list A) (i : nat) (x : A) : index l i = Ok x ↔ l !! i = Some x.
Proof. unfold index. destruct (l !! i); split; congruence. Qed.

Lemma index_lookup {A} (l : list A) (i : nat) (x : A) : l !! i = Some x → index l i = Ok x.
Proof. apply index_Ok. Qed.

Lemma index_take {A} (l : list A) (i : nat) : index (take (S i) l) i = index l i.
Proof. unfold index. rewrite lookup_take_lt by lia. done. Qed.

(** Splits [H : (x ← m; k) = Ok _] on the result of [m]. *)
Tactic Notation "bind_step" hyp(H) "as" ident(x) ident(Hx) :=
  match type of H with
  | (?m ≫= _) = Ok _ =>
      destruct m as [x|] eqn:Hx; [cbn [mbind result_bind] in H | by cbn in H]
  end.

(** ** Comparisons with zero *)

Lemma float_zero : Py.to_float (PyInt 0) = S754_zero false.
Proof. reflexivity. Qed.

Lemma lt_zero_le (x : pynum) : Py.lt (PyInt 0) x = true → Py.le (PyInt 0) x = true.
Proof.
  destruct x as [n|[s|s| |s m e]]; cbn; try done.
  - intros ?%Z.ltb_lt. apply Z.leb_le. lia.
  - by destruct s.
  - by destruct s.
Qed.

Lemma le_zero_not_gt (x : pynum) : Py.le x (PyInt 0) = true → Py.gt x (PyInt 0) = false.
Proof.
  destruct x as [n|[s|s| |s m e]]; cbn; try done.
  - intros ?%Z.leb_le. apply Z.ltb_ge. lia.
  - by destruct s.
  - by destruct s.
Qed.

Lemma le_zero_not_lt (x : pynum) : Py.le (PyInt 0) x = true → Py.lt x (PyInt 0) = false.
Proof.
  destruct x as [n|[s|s| |s m e]]; cbn; try done.
  - intros ?%Z.leb_le. apply Z.ltb_ge. lia.
  - by destruct s.
  - by destruct s.
Qed.

(** [max(0, x)] is never below zero, whatever [x] is (NaN included). *)
Lemma max_zero_nonneg (x : pynum) : Py.le (PyInt 0) (Py.max (PyInt 0) x) = true.
Proof.
  unfold Py.max, Py.gt. destruct (Py.lt (PyInt 0) x) eqn:Hlt.
  - by apply lt_zero_le.
  - reflexivity.
Qed.

Section BuildingFacts.

Context {Tank Battery HP EH PVT : Type}.
Context `{!StorageModel Tank, !StorageModel Battery, !BatteryModel Battery}.
Context `{!HeatPumpModel HP, !ElectricHeaterModel EH, !PVModel PVT}.

Abbreviation Building := (@Building Tank Battery HP EH PVT).

Implicit Types b : Building.

(** *** What one call of [update_variables] reads and appends *)

Lemma update_variables_inv b b' :
  update_variables b = Ok b' →
  let t := time_step b in
  ∃ cd cb temperature hd hb hc dd db ec nsl sg price ci,
    EnergySimulation.cooling_demand (energy_simulation b) !! t = Some cd ∧
    energy_balance (cooling_storage b) !! t = Some cb ∧
    Weather.outdoor_dry_bulb_temperature (weather b) !! t = Some temperature ∧
    EnergySimulation.heating_demand (energy_simulation b) !! t = Some hd ∧
    energy_balance (heating_storage b) !! t = Some hb ∧
    match heating_device b with
    | HeatPump h => Ok (hp_get_input_power h (Py.add hd hb) temperature true)
    | ElectricHeater _ => device_get_input_power_1 (dhw_device b) (Py.add hd hb)
    end = Ok hc ∧
    EnergySimulation.dhw_demand (energy_simulation b) !! t = Some dd ∧
    energy_balance (dhw_storage b) !! t = Some db ∧
    electricity_consumption (electrical_storage b) !! t = Some ec ∧
    EnergySimulation.non_shiftable_load (energy_simulation b) !! t = Some nsl ∧
    solar_generation_ b !! t = Some sg ∧
    Pricing.electricity_pricing (pricing b) !! t = Some price ∧
    CarbonIntensity.carbon_intensity (carbon_intensity b) !! t = Some ci ∧
    let cc := hp_get_input_power (cooling_device b) (Py.add cd cb) temperature false in
    let dc :=
      match dhw_device b with
      | HeatPump h => hp_get_input_power h (Py.add dd db) temperature true
      | ElectricHeater e => eh_get_input_power e (Py.add dd db)
      end in
    let net := Py.add (Py.add (Py.add (Py.add (Py.add cc hc) dc) ec) nsl) sg in
    b' =
      set_net_electricity_consumption_emission
        (net_electricity_consumption_emission b ++ [Py.max (PyInt 0) (Py.mul net ci)])
        (set_net_electricity_consumption_price
           (net_electricity_consumption_price b ++ [Py.mul net price])
           (set_net_electricity_consumption (net_electricity_consumption b ++ [net])
              (set_dhw_electricity_consumption (dhw_electricity_consumption b ++ [dc])
                 (set_heating_electricity_consumption
                    (heating_electricity_consumption b ++ [hc])
                    (set_cooling_electricity_consumption
                       (cooling_electricity_consumption b ++ [cc]) b))))).
Proof.
  intros H t. unfold update_variables in H. fold t in H.
  bind_step H as cd Hcd. bind_step H as cb Hcb. bind_step H as T HT.
  unfold heating_demand, dhw_demand in H. cbn [time_step energy_simulation
    set_cooling_electricity_consumption set_heating_electricity_consumption
    set_dhw_electricity_consumption heating_storage dhw_storage heating_device
    dhw_device weather] in H. fold t in H.
  rewrite !index_take in H.
  bind_step H as hdm Hhd. bind_step H as hb Hhb. bind_step H as hc Hhc.
  bind_step H as dd Hdd. bind_step H as db Hdb. bind_step H as dc Hdc.
  cbn [electrical_storage energy_simulation solar_generation_ time_step
    set_dhw_electricity_consumption set_net_electricity_consumption
    set_net_electricity_consumption_price pricing carbon_intensity] in H.
  bind_step H as ec Hec. bind_step H as nsl Hnsl. bind_step H as sg Hsg.
  bind_step H as price Hprice. bind_step H as ci Hci.
  apply index_Ok in Hcd, Hcb, HT, Hhd, Hhb, Hdd, Hdb, Hec, Hnsl, Hsg, Hprice, Hci.
  exists cd, cb, T, hdm, hb, hc, dd, db, ec, nsl, sg, price, ci.
  rewrite (index_lookup _ _ _ HT) in Hhc, Hdc. cbn [mbind result_bind] in Hhc, Hdc.
  repeat split; try done.
  all: try (destruct (heating_device b); cbn [mbind result_bind] in Hhc; done).
  injection H as <-.
  destruct (dhw_device b); cbn [mbind result_bind] in Hdc; by injection Hdc as <-.
Qed.


Lemma update_variables_time_step b b' :
  update_variables b = Ok b' → time_step b' = time_step b.
Proof.
  intros H. apply update_variables_inv in H.
  destruct H as (?&?&?&?&?&?&?&?&?&?&?&?&?&?&?&?&?&?&?&?&?&?&?&?&?&?&->). done.
Qed.

(** Every ledger grows by exactly one entry, at its end. *)
Lemma update_variables_ledgers b b' :
  update_variables b = Ok b' →
  Forall2 (λ l l', ∃ x, l' = l ++ [x]) (ledgers b) (ledgers b').
Proof.
  intros H. apply update_variables_inv in H.
  destruct H as (?&?&?&?&?&?&?&?&?&?&?&?&?&?&?&?&?&?&?&?&?&?&?&?&?&?&->).
  unfold ledgers. cbn. repeat constructor; eauto.
Qed.

(** [update_variables] returns as soon as every series it reads reaches the
    current time step and the heating and hot-water devices fit together. *)
Lemma update_variables_returns b :
  let t := time_step b in
  let es := energy_simulation b in
  t < length (EnergySimulation.cooling_demand es) →
  t < length (EnergySimulation.heating_demand es) →
  t < length (EnergySimulation.dhw_demand es) →
  t < length (EnergySimulation.non_shiftable_load es) →
  t < length (energy_balance (cooling_storage b)) →
  t < length (energy_balance (heating_storage b)) →
  t < length (energy_balance (dhw_storage b)) →
  t < length (electricity_consumption (electrical_storage b)) →
  t < length (Weather.outdoor_dry_bulb_temperature (weather b)) →
  t < length (solar_generation_ b) →
  t < length (Pricing.electricity_pricing (pricing b)) →
  t < length (CarbonIntensity.carbon_intensity (carbon_intensity b)) →
  (∀ e h, heating_device b = ElectricHeater e → dhw_device b ≠ HeatPump h) →
  ∃ b', update_variables b = Ok b'.
Proof.
  intros t es H1 H2 H3 H4 H5 H6 H7 H8 H9 H10 H11 H12 Hdev.
  apply lookup_lt_is_Some_2 in H1 as [? H1], H2 as [? H2], H3 as [? H3], H4 as [? H4],
    H5 as [? H5], H6 as [? H6], H7 as [? H7], H8 as [? H8], H9 as [? H9], H10 as [? H10],
    H11 as [? H11], H12 as [? H12].
  apply index_lookup in H1, H2, H3, H4, H5, H6, H7, H8, H9, H10, H11, H12.
  unfold update_variables, heating_demand, dhw_demand.
  cbn [time_step energy_simulation set_cooling_electricity_consumption
    set_heating_electricity_consumption set_dhw_electricity_consumption heating_storage
    dhw_storage heating_device dhw_device weather electrical_storage solar_generation_
    set_net_electricity_consumption set_net_electricity_consumption_price pricing
    carbon_intensity].
  fold t es. rewrite !index_take, H1, H5, H9. cbn [mbind result_bind].
  rewrite H2, H6. cbn [mbind result_bind].
  destruct (heating_device b) as [h|e] eqn:Hh; destruct (dhw_device b) as [h'|e'] eqn:Hd;
    try (exfalso; exact (Hdev e h' eq_refl eq_refl));
    rewrite ?H9; cbn [mbind result_bind device_get_input_power_1];
    rewrite H3, H7; cbn [mbind result_bind]; rewrite ?H9; cbn [mbind result_bind];
    rewrite H8, H4, H10, H11, H12; cbn [mbind result_bind]; eexists; reflexivity.
Qed.

(** *** The net electricity consumption entry *)

(** C1. [reset] stores the generation of the PV array with a minus sign, and
    the net electricity consumption entry that [update_variables] appends is
    the sum of the cooling, heating and hot-water entries appended by the
    same call, the electrical storage's electricity consumption, the
    non-shiftable load and that negated solar generation, all at the
    current time step. *)
Theorem net_electricity_consumption_entry :
  (∀ b b', reset b = Ok b' →
     solar_generation_ b' =
       (λ x, Py.mul (get_generation (pv b') x) (PyInt (-1))) <$>
         EnergySimulation.solar_generation (energy_simulation b')) ∧
  (∀ b b', update_variables b = Ok b' →
     let t := time_step b in
     ∃ cooling heating dhw storage load solar,
       cooling_electricity_consumption b' = cooling_electricity_consumption b ++ [cooling] ∧
       heating_electricity_consumption b' = heating_electricity_consumption b ++ [heating] ∧
       dhw_electricity_consumption b' = dhw_electricity_consumption b ++ [dhw] ∧
       electricity_consumption (electrical_storage b) !! t = Some storage ∧
       EnergySimulation.non_shiftable_load (energy_simulation b) !! t = Some load ∧
       solar_generation_ b !! t = Some solar ∧
       net_electricity_consumption b' =
         net_electricity_consumption b ++
           [Py.add (Py.add (Py.add (Py.add (Py.add cooling heating) dhw) storage) load) solar]).
Proof.
  split.
  - intros b b' H. unfold reset in H. apply update_variables_inv in H.
    destruct H as (?&?&?&?&?&?&?&?&?&?&?&?&?&?&?&?&?&?&?&?&?&?&?&?&?&?&->).
    reflexivity.
  - intros b b' H t. apply update_variables_inv in H.
    destruct H as (cd&cb&T&hd&hb&hc&dd&db&ec&nsl&sg&?&?&?&?&?&?&?&?&?&?&Hec&Hnsl&Hsg&?&?&->).
    eexists _, hc, _, ec, nsl, sg.
    split_and!; [reflexivity|reflexivity|reflexivity|exact Hec|exact Hnsl|exact Hsg|reflexivity].
Qed.

(** *** The emission entry *)

Lemma apply_actions_ledgers a b b' :
  apply_actions a b = Ok b' → ledgers b' = ledgers b ∧ time_step b' = time_step b.
Proof.
  unfold apply_actions, update_cooling_device, update_heating_device, update_dynamics,
    update_electrical_storage.
  cbn [mbind result_bind]. intros H.
  bind_step H as b1 H1. bind_step H as b2 H2. bind_step H as b3 H3.
  injection H as <-.
  assert (ledgers b1 = ledgers b ∧ time_step b1 = time_step b) as [E1 T1].
  { unfold update_cooling_storage in H1. bind_step H1 as d Hd. bind_step H1 as T HT.
    cbn [weather time_step set_cooling_storage] in H1. rewrite HT in H1.
    cbn [mbind result_bind] in H1. by injection H1 as <-. }
  assert (ledgers b2 = ledgers b1 ∧ time_step b2 = time_step b1) as [E2 T2].
  { unfold update_heating_storage in H2. bind_step H2 as d Hd. bind_step H2 as m Hm.
    bind_step H2 as p Hp. by injection H2 as <-. }
  assert (ledgers b3 = ledgers b2 ∧ time_step b3 = time_step b2) as [E3 T3].
  { unfold update_dhw_storage in H3. bind_step H3 as d Hd. bind_step H3 as m Hm.
    bind_step H3 as p Hp. by injection H3 as <-. }
  split; [change (ledgers b3 = ledgers b) | change (time_step b3 = time_step b)]; congruence.
Qed.

Lemma reset_ledgers b b' :
  reset b = Ok b' → time_step b' = 0 ∧ Forall (λ l, ∃ x, l = [x]) (ledgers b').
Proof.
  unfold reset. intros H. split.
  - by rewrite (update_variables_time_step _ _ H).
  - apply update_variables_ledgers in H. unfold ledgers in *. cbn in H.
    repeat match goal with
           | H : Forall2 _ (_ :: _) _ |- _ => apply Forall2_cons_inv_l in H as (?&?&[? ->]&H&->)
           | H : Forall2 _ [] _ |- _ => apply Forall2_nil_inv_l in H as ->
           end.
    repeat constructor; eauto.
Qed.

Lemma next_time_step_ledgers b b' :
  next_time_step b = Ok b' →
  time_step b' = S (time_step b) ∧
  Forall2 (λ l l', ∃ x, l' = l ++ [x]) (ledgers b) (ledgers b').
Proof.
  unfold next_time_step. intros H. split.
  - by rewrite (update_variables_time_step _ _ H).
  - by apply update_variables_ledgers in H.
Qed.

Lemma step_ledgers b b' :
  step b b' →
  Forall2 (λ l l', l' = l ∨ ∃ x, l' = l ++ [x]) (ledgers b) (ledgers b') ∧
  ((ledgers b' = ledgers b ∧ time_step b' = time_step b) ∨
   (time_step b' = S (time_step b) ∧
    Forall2 (λ l l', ∃ x, l' = l ++ [x]) (ledgers b) (ledgers b'))).
Proof.
  intros [a ? ? H|? ? H].
  - apply apply_actions_ledgers in H as [E ?]. split; [|by left].
    rewrite E. apply Forall_Forall2_diag, Forall_forall. eauto.
  - apply next_time_step_ledgers in H as [? H]. split; [|by right].
    eapply Forall2_impl; [exact H|]. cbn. eauto.
Qed.

Lemma episode_ind (P : Building → Prop) :
  (∀ b0 b1, reset b0 = Ok b1 → P b1) →
  (∀ b b', P b → step b b' → P b') →
  ∀ b, episode b → P b.
Proof.
  intros Hreset Hstep b (b0 & b1 & H0 & Hrun).
  revert b Hrun. apply (rtc_ind_r (λ b, P b)); eauto.
Qed.

(** C4. The emission entry that [update_variables] appends is
    [max(0, net * carbon_intensity[t])] for the net electricity consumption
    appended by the same call; it is at least zero and never below it, and
    so is every entry of the emission ledger throughout an episode. *)
Theorem emission_entry :
  (∀ b b', update_variables b = Ok b' →
     ∃ net ci,
       net_electricity_consumption b' = net_electricity_consumption b ++ [net] ∧
       CarbonIntensity.carbon_intensity (carbon_intensity b) !! time_step b = Some ci ∧
       net_electricity_consumption_emission b' =
         net_electricity_consumption_emission b ++ [Py.max (PyInt 0) (Py.mul net ci)] ∧
       Py.le (PyInt 0) (Py.max (PyInt 0) (Py.mul net ci)) = true ∧
       Py.lt (Py.max (PyInt 0) (Py.mul net ci)) (PyInt 0) = false) ∧
  (∀ b, episode b →
     Forall (λ e, Py.le (PyInt 0) e = true ∧ Py.lt e (PyInt 0) = false)
       (net_electricity_consumption_emission b)).
Proof.
  assert (∀ b b', update_variables b = Ok b' →
     ∃ net ci,
       net_electricity_consumption b' = net_electricity_consumption b ++ [net] ∧
       CarbonIntensity.carbon_intensity (carbon_intensity b) !! time_step b = Some ci ∧
       net_electricity_consumption_emission b' =
         net_electricity_consumption_emission b ++ [Py.max (PyInt 0) (Py.mul net ci)] ∧
       Py.le (PyInt 0) (Py.max (PyInt 0) (Py.mul net ci)) = true ∧
       Py.lt (Py.max (PyInt 0) (Py.mul net ci)) (PyInt 0) = false) as Hone.
  { intros b b' H. apply update_variables_inv in H.
    destruct H as (?&?&?&?&?&?&?&?&?&?&?&?&ci&?&?&?&?&?&?&?&?&?&?&?&?&Hci&->).
    eexists _, ci. cbn. split_and!; try done.
    - apply max_zero_nonneg.
    - apply le_zero_not_lt, max_zero_nonneg. }
  split; [done|].
  apply episode_ind.
  - intros b0 b1 Hreset. unfold reset in Hreset.
    apply Hone in Hreset as (net & ci & _ & _ & -> & ? & ?).
    cbn [net_electricity_consumption_emission app]. by repeat constructor.
  - intros b b' IH Hstep. destruct Hstep as [a b b' H|b b' H].
    + apply apply_actions_ledgers in H as [E _]. unfold ledgers in E.
      injection E as _ _ _ _ _ E. by rewrite E.
    + unfold next_time_step in H. apply Hone in H as (net & ci & _ & _ & -> & ? & ?).
      cbn [net_electricity_consumption_emission]. apply Forall_app.
      split; [done|]. by repeat constructor.
Qed.

(** *** Ledger lengths *)

(** C5. Throughout an episode, that is after [reset] and after every later
    call of [next_time_step] (and of [apply_actions]), each of the six
    ledgers has exactly [time_step + 1] entries, and every entry present at
    some point is still there, at the same index and with the same value,
    after any number of later calls. *)
Theorem ledgers_length_append_only b :
  episode b →
  Forall (λ l, length l = S (time_step b)) (ledgers b) ∧
  ∀ b', rtc step b b' →
    Forall2 (λ l l', ∀ i x, l !! i = Some x → l' !! i = Some x) (ledgers b) (ledgers b').
Proof.
  intros Hb. split.
  - revert b Hb. apply episode_ind.
    + intros b0 b1 [Ht Hl]%reset_ledgers. rewrite Ht.
      eapply Forall_impl; [exact Hl|]. by intros l [x ->].
    + intros b b' IH [_ [[-> ->]|[-> Hl]]]%step_ledgers; [done|].
      revert IH Hl. generalize (ledgers b) (ledgers b') (time_step b).
      intros ls ls' n IH Hl. induction Hl as [|l l' ls ls' [x ->] _ IHl]; [constructor|].
      apply Forall_cons in IH as [El IH]. constructor; [|by apply IHl].
      rewrite length_app, El. cbn. lia.
  - clear Hb. intros b' Hrun. induction Hrun as [b|b b1 b' Hstep _ IH].
    + apply Forall_Forall2_diag, Forall_forall. auto.
    + apply step_ledgers in Hstep as [Hstep _].
      revert Hstep IH. generalize (ledgers b) (ledgers b1) (ledgers b').
      intros ls ls1 ls' H1. revert ls'.
      induction H1 as [|l l1 ls ls1 Hl _ IH1]; intros ls' H2.
      * apply Forall2_nil_inv_l in H2 as ->. constructor.
      * apply Forall2_cons_inv_l in H2 as (l' & ls2 & Hl' & H2 & ->).
        constructor; [|by apply IH1].
        intros i x Hi. apply Hl'. destruct Hl as [->|[y ->]]; [done|].
        by apply lookup_app_l_Some.
Qed.

End BuildingFacts.

(** ** Storage updates *)

Section StorageFacts.

Context {Tank Battery HP EH PVT : Type}.
Context `{!StorageModel Tank, !StorageModel Battery, !BatteryModel Battery}.
Context `{!HeatPumpModel HP, !ElectricHeaterModel EH, !PVModel PVT}.

Implicit Types b : @Building Tank Battery HP EH PVT.

Lemma known_space_demand_nan : known_space_demand Py.nan = PyInt 0.
Proof. reflexivity. Qed.

Lemma known_space_demand_number (d : pynum) : Py.isnan d = false → known_space_demand d = d.
Proof. unfold known_space_demand. by intros ->. Qed.

Lemma heating_max_output_input_power (d : Device HP EH) (temperatures : list pynum) (t : nat) (m demand : pynum) :
  heating_max_output d temperatures t = Ok m →
  ∃ p, heating_input_power d demand temperatures t = Ok p.
Proof.
  unfold heating_max_output, heating_input_power. destruct d; [|eauto].
  intros H. bind_step H as T HT. cbn [mbind result_bind]. eauto.
Qed.

(** C2. For the cooling, the heating and the hot-water storage alike: with
    [d] the demand of the current step, 0 when it is NaN, [m] the maximum
    output of the device ([get_max_output_power] at the current outdoor
    temperature with [heating=False] for the cooling device and with
    [heating=True] for a heating or hot-water heat pump, and
    [get_max_output_power()] of a resistive heater) and
    [raw = action * capacity], the update returns and the storage is the
    old one charged with [max(-d, min(m - d, raw))]. *)
Theorem storage_charge_request (action : pynum) b :
  let t := time_step b in
  let temperatures := Weather.outdoor_dry_bulb_temperature (weather b) in
  (∀ demand temperature,
     EnergySimulation.cooling_demand (energy_simulation b) !! t = Some demand →
     temperatures !! t = Some temperature →
     let d := if Py.isnan demand then PyInt 0 else demand in
     let m := hp_get_max_output_power (cooling_device b) temperature false None in
     let raw := Py.mul action (capacity (cooling_storage b)) in
     ∃ b', update_cooling_storage action b = Ok b' ∧
           cooling_storage b' =
             charge (cooling_storage b) (Py.max (Py.neg d) (Py.min (Py.sub m d) raw))) ∧
  (∀ demand h temperature,
     EnergySimulation.heating_demand (energy_simulation b) !! t = Some demand →
     heating_device b = HeatPump h →
     temperatures !! t = Some temperature →
     let d := if Py.isnan demand then PyInt 0 else demand in
     let m := hp_get_max_output_power h temperature true None in
     let raw := Py.mul action (capacity (heating_storage b)) in
     ∃ b', update_heating_storage action b = Ok b' ∧
           heating_storage b' =
             charge (heating_storage b) (Py.max (Py.neg d) (Py.min (Py.sub m d) raw))) ∧
  (∀ demand e,
     EnergySimulation.heating_demand (energy_simulation b) !! t = Some demand →
     heating_device b = ElectricHeater e →
     let d := if Py.isnan demand then PyInt 0 else demand in
     let m := eh_get_max_output_power e in
     let raw := Py.mul action (capacity (heating_storage b)) in
     ∃ b', update_heating_storage action b = Ok b' ∧
           heating_storage b' =
             charge (heating_storage b) (Py.max (Py.neg d) (Py.min (Py.sub m d) raw))) ∧
  (∀ demand h temperature,
     EnergySimulation.dhw_demand (energy_simulation b) !! t = Some demand →
     dhw_device b = HeatPump h →
     temperatures !! t = Some temperature →
     let d := if Py.isnan demand then PyInt 0 else demand in
     let m := hp_get_max_output_power h temperature true None in
     let raw := Py.mul action (capacity (dhw_storage b)) in
     ∃ b', update_dhw_storage action b = Ok b' ∧
           dhw_storage b' =
             charge (dhw_storage b) (Py.max (Py.neg d) (Py.min (Py.sub m d) raw))) ∧
  (∀ demand e,
     EnergySimulation.dhw_demand (energy_simulation b) !! t = Some demand →
     dhw_device b = ElectricHeater e →
     let d := if Py.isnan demand then PyInt 0 else demand in
     let m := eh_get_max_output_power e in
     let raw := Py.mul action (capacity (dhw_storage b)) in
     ∃ b', update_dhw_storage action b = Ok b' ∧
           dhw_storage b' =
             charge (dhw_storage b) (Py.max (Py.neg d) (Py.min (Py.sub m d) raw))).
Proof.
  intros t temperatures. subst t temperatures. split_and!.
  - intros demand T Hd HT d m raw. unfold update_cooling_storage.
    rewrite (index_lookup _ _ _ Hd). cbn [mbind result_bind].
    rewrite (index_lookup _ _ _ HT). cbn [mbind result_bind weather set_cooling_storage].
    rewrite (index_lookup _ _ _ HT). cbn [mbind result_bind].
    eexists. split; reflexivity.
  - intros demand h T Hd Hh HT d m raw.
    unfold update_heating_storage, heating_max_output, heating_input_power.
    rewrite (index_lookup _ _ _ Hd). cbn [mbind result_bind]. rewrite Hh.
    rewrite (index_lookup _ _ _ HT).
    cbn [mbind result_bind weather heating_device set_heating_storage].
    rewrite Hh, (index_lookup _ _ _ HT). cbn [mbind result_bind].
    eexists. split; reflexivity.
  - intros demand e Hd He d m raw.
    unfold update_heating_storage, heating_max_output, heating_input_power.
    rewrite (index_lookup _ _ _ Hd). cbn [mbind result_bind]. rewrite He.
    cbn [mbind result_bind weather heating_device set_heating_storage].
    rewrite He. cbn [mbind result_bind].
    eexists. split; reflexivity.
  - intros demand h T Hd Hh HT d m raw.
    unfold update_dhw_storage, heating_max_output, heating_input_power.
    rewrite (index_lookup _ _ _ Hd). cbn [mbind result_bind]. rewrite Hh.
    rewrite (index_lookup _ _ _ HT).
    cbn [mbind result_bind weather dhw_device set_dhw_storage].
    rewrite Hh, (index_lookup _ _ _ HT). cbn [mbind result_bind].
    eexists. split; reflexivity.
  - intros demand e Hd He d m raw.
    unfold update_dhw_storage, heating_max_output, heating_input_power.
    rewrite (index_lookup _ _ _ Hd). cbn [mbind result_bind]. rewrite He.
    cbn [mbind result_bind weather dhw_device set_dhw_storage].
    rewrite He. cbn [mbind result_bind].
    eexists. split; reflexivity.
Qed.

End StorageFacts.

(** ** Observations *)

Section ObservationFacts.

Context {Tank Battery HP EH PVT : Type}.
Context `{!StorageModel Tank, !StorageModel Battery, !BatteryModel Battery}.
Context `{!HeatPumpModel HP, !ElectricHeaterModel EH, !PVModel PVT}.

Implicit Types b : @Building Tank Battery HP EH PVT.

(** Splits [H : (x ← m; ...) = Ok _] along all its binds. *)
Ltac bind_all H :=
  repeat match type of H with
         | (?m ≫= _) = Ok _ =>
             let x := fresh "x" in
             let E := fresh "E" in
             destruct m as [x|] eqn:E; [cbn [mbind result_bind] in H | by cbn in H]
         end.

(** The entry of [heating_device_cop] in the assembled data. *)
Lemma heating_device_cop_data b (data : gmap string pynum) :
  observations_data b = Ok data →
  ∃ temperature,
    Weather.outdoor_dry_bulb_temperature (weather b) !! time_step b = Some temperature ∧
    data !! "heating_device_cop" =
      Some match heating_device b with
           | HeatPump _ => get_cop (cooling_device b) temperature true
           | ElectricHeater e => efficiency e
           end.
Proof.
  intros H. unfold observations_data in H.
  destruct (observations_items b) as [items|] eqn:Hitems; [|by cbn in H].
  cbn [mbind result_bind] in H. injection H as <-.
  unfold observations_items in Hitems. bind_all Hitems. injection Hitems as <-.
  match goal with
  | HT : index (Weather.outdoor_dry_bulb_temperature _) _ = Ok ?T,
    Hc : heating_device_cop _ _ = Ok ?c |- _ =>
      exists T; split; [by apply index_Ok|];
      unfold heating_device_cop in Hc; rewrite HT in Hc; cbn [mbind result_bind] in Hc;
      assert (c = match heating_device b with
                  | HeatPump _ => get_cop (cooling_device b) T true
                  | ElectricHeater e => efficiency e
                  end) as <- by (destruct (heating_device b); congruence)
  end.
  unfold dict_update. rewrite !foldl_app. cbn [foldl fst snd].
  rewrite !foldl_app. cbn [foldl fst snd].
  rewrite !lookup_insert_ne by done. apply lookup_insert_eq.
Qed.

Lemma observations_names (data : gmap string pynum) (active : list string) :
  (omap (λ k, (k,.) <$> data !! k) active).*1 = filter (λ k, is_Some (data !! k)) active.
Proof.
  induction active as [|k active IH]; [done|].
  rewrite filter_cons. cbn -[filter]. destruct (data !! k) as [v|] eqn:E; cbn -[filter].
  - rewrite decide_True by eauto. by f_equal.
  - rewrite decide_False by (by intros [? ?]). done.
Qed.

Lemma observations_values (data : gmap string pynum) (active : list string) :
  Forall (λ kv, data !! kv.1 = Some kv.2) (omap (λ k, (k,.) <$> data !! k) active).
Proof.
  induction active as [|k active IH]; [constructor|]. cbn.
  destruct (data !! k) as [v|] eqn:E; cbn; [by constructor|done].
Qed.

(** When every active name has an entry, the comprehension lists the
    active names in order, each with its entry. *)
Lemma observations_all_known (data : gmap string pynum) (active : list string) :
  (∀ k, k ∈ active → is_Some (data !! k)) →
  Forall2 (λ k kv, kv.1 = k ∧ data !! k = Some kv.2) active
    (omap (λ k, (k,.) <$> data !! k) active).
Proof.
  induction active as [|k active IH]; intros Hall; [constructor|]. cbn.
  destruct (Hall k) as [v Hv]; [by left|]. rewrite Hv. cbn.
  constructor; [done|]. apply IH. intros k' Hk'. apply Hall. by right.
Qed.

(** What [observations] returns: one pair per active observation, in
    order, with the entry of that name in the data. *)
Lemma observations_Ok b (data : gmap string pynum) (obs : list (string * pynum)) :
  observations_data b = Ok data →
  observations b = Ok obs →
  Forall2 (λ k kv, kv.1 = k ∧ data !! k = Some kv.2) (active_observations b) obs.
Proof.
  intros Hdata H. unfold observations in H. rewrite Hdata in H.
  cbn [mbind result_bind] in H. case_decide as Hsize; [|done]. injection H as <-.
  apply observations_all_known. intros k Hk.
  apply size_empty_iff in Hsize. rewrite observations_names in Hsize.
  destruct (data !! k) as [v|] eqn:E; [by eexists|]. exfalso.
  apply (not_elem_of_empty (C:=gset string) k), Hsize.
  rewrite elem_of_difference, !elem_of_list_to_set, list_elem_of_filter.
  split; [done|]. intros [[? ?] _]. congruence.
Qed.

(** C10. The value of [heating_device_cop], in the assembled data and in
    the mapping that [observations] returns, at the position of that name
    among the active observations and wherever that name is paired with a
    value: the coefficient of performance of the cooling device, asked in
    heating mode at the current outdoor temperature, whenever the heating
    device is a heat pump, and the heating device's own efficiency
    otherwise. *)
Theorem heating_device_cop_observation b :
  let cop := λ temperature,
    match heating_device b with
    | HeatPump _ => get_cop (cooling_device b) temperature true
    | ElectricHeater e => efficiency e
    end in
  (∀ data : gmap string pynum,
     observations_data b = Ok data →
     ∃ temperature,
       Weather.outdoor_dry_bulb_temperature (weather b) !! time_step b = Some temperature ∧
       data !! "heating_device_cop" = Some (cop temperature)) ∧
  (∀ obs,
     observations b = Ok obs →
     ∃ temperature,
       Weather.outdoor_dry_bulb_temperature (weather b) !! time_step b = Some temperature ∧
       (∀ n, active_observations b !! n = Some "heating_device_cop" →
             obs !! n = Some ("heating_device_cop", cop temperature)) ∧
       (∀ v, ("heating_device_cop", v) ∈ obs → v = cop temperature)).
Proof.
  intros cop. subst cop. cbn beta. split; [intros data; apply heating_device_cop_data|].
  intros obs H.
  destruct (observations_data b) as [data|e] eqn:Hdata;
    [|by unfold observations in H; rewrite Hdata in H].
  destruct (heating_device_cop_data b data Hdata) as (T & HT & Hcop).
  pose proof (observations_Ok b data obs Hdata H) as Hobs.
  exists T. split; [exact HT|]. split.
  - intros n Hn. destruct (Forall2_lookup_l _ _ _ _ _ Hobs Hn) as ([k v] & Hkv & Hk & Hv).
    cbn in Hk, Hv. subst k. rewrite Hkv. f_equal. f_equal. congruence.
  - intros v Hv. apply list_elem_of_lookup in Hv as [n Hn].
    destruct (Forall2_lookup_r _ _ _ _ _ Hobs Hn) as (k & _ & Hk & Hv).
    cbn in Hk, Hv. subst k. congruence.
Qed.

(** C7. Once the data of the current step is assembled: if some active
    observation has no entry in it, reading [observations] fails with the
    assertion error that carries exactly the active names without entry;
    if every active observation has an entry, the result lists exactly the
    active observations, in order, each with its value in the data. *)
Theorem observations_resolution b (data : gmap string pynum) :
  observations_data b = Ok data →
  ((∃ k, k ∈ active_observations b ∧ data !! k = None) →
     ∃ unknown,
       observations b = Raise (AssertionError unknown) ∧
       ∀ k, k ∈ unknown ↔ k ∈ active_observations b ∧ data !! k = None) ∧
  ((∀ k, k ∈ active_observations b → is_Some (data !! k)) →
     ∃ obs,
       observations b = Ok obs ∧
       obs.*1 = active_observations b ∧
       Forall (λ kv, data !! kv.1 = Some kv.2) obs).
Proof.
  intros Hdata. unfold observations. rewrite Hdata. cbn [mbind result_bind].
  set (obs := omap (λ k, (k,.) <$> data !! k) (active_observations b)).
  set (unknown := (list_to_set (active_observations b) ∖ list_to_set obs.*1 : gset string)).
  assert (∀ k, k ∈ unknown ↔ k ∈ active_observations b ∧ data !! k = None) as Hunknown.
  { intros k. unfold unknown, obs. rewrite observations_names.
    rewrite elem_of_difference, !elem_of_list_to_set, list_elem_of_filter.
    rewrite eq_None_not_Some. tauto. }
  split.
  - intros (k & Hk & Hnone). exists unknown. split; [|done].
    rewrite decide_False; [done|].
    intros Hsize%size_empty_iff. apply (not_elem_of_empty (C:=gset string) k).
    apply Hsize, Hunknown. done.
  - intros Hall. exists obs. rewrite decide_True.
    + split_and!; [done| |apply observations_values].
      unfold obs. rewrite observations_names. revert Hall.
      generalize (active_observations b). intros active Hall.
      induction active as [|k active IH]; [done|].
      rewrite filter_cons_True by (apply Hall; left). f_equal.
      apply IH. intros k' Hk'. apply Hall. by right.
    + apply size_empty_iff. intros k. split; [|set_solver].
      intros [Hk Hnone]%Hunknown. destruct (Hall k Hk) as [? ?]. congruence.
Qed.

End ObservationFacts.

(** ** The look-back window *)

Lemma mod_wrap (a n : nat) : n ≤ a < 2 * n → a mod n = a - n.
Proof.
  intros Ha. symmetry. apply (Nat.mod_unique a n 1); lia.
Qed.

Lemma np_roll_lookup {A} (a : list A) (shift : Z) (j : nat) :
  let n := length a in
  let k := Z.to_nat (shift mod Z.of_nat n) in
  j < n → np_roll a shift !! j = a !! ((j + n - k) mod n).
Proof.
  intros n k Hj. unfold np_roll. fold n. rewrite decide_False by lia. fold k.
  assert (k < n) as Hk.
  { unfold k. pose proof (Z.mod_pos_bound shift (Z.of_nat n)). lia. }
  destruct (decide (j < k)) as [Hlt|Hge].
  - rewrite lookup_app_l by (rewrite length_drop; fold n; lia).
    rewrite lookup_drop, Nat.mod_small by lia. f_equal. lia.
  - rewrite lookup_app_r by (rewrite length_drop; fold n; lia).
    rewrite length_drop. fold n. rewrite lookup_take_lt by lia.
    rewrite mod_wrap by lia. f_equal. lia.
Qed.

Lemma length_np_roll {A} (a : list A) (shift : Z) : length (np_roll a shift) = length a.
Proof.
  unfold np_roll. case_decide; [done|].
  rewrite length_app, length_drop, length_take. lia.
Qed.

Lemma length_tail_slice {A} (x : list A) (l : nat) :
  0 < l ≤ length x → length (tail_slice x l) = l.
Proof. intros Hl. unfold tail_slice. rewrite decide_False by lia. rewrite length_drop. lia. Qed.

Lemma length_lookback_window {A} (x : list A) (shift : Z) (l t : nat) :
  0 < l ≤ length x → t < length x → length (lookback_window shift l t x) = l.
Proof.
  intros Hl Ht. unfold lookback_window, slice.
  rewrite length_take, length_drop, length_np_roll, length_app, length_tail_slice by done.
  lia.
Qed.

Lemma lookback_window_roll {A} (x : list A) (shift : Z) (l t i : nat) :
  i < l →
  lookback_window shift l t x !! i = np_roll (x ++ tail_slice x l) shift !! (t + i).
Proof.
  intros Hi. unfold lookback_window, slice.
  rewrite lookup_take_lt by lia. apply lookup_drop.
Qed.

(** Rolled by the look-back, row [i] of the window is the sample of step
    [t + i - lookback], counted cyclically over the horizon. *)
Lemma lookback_window_lookup {A} (x : list A) (l t i : nat) :
  let n := length x in
  0 < l ≤ n → t < n → i < l →
  lookback_window (Z.of_nat l) l t x !! i = x !! ((t + i + n - l) mod n).
Proof.
  intros n Hl Ht Hi. rewrite lookback_window_roll by done.
  rewrite np_roll_lookup; rewrite length_app, length_tail_slice by done; fold n; [|lia].
  rewrite Z.mod_small, Nat2Z.id by lia.
  destruct (decide (t + i < l)) as [Hlt|Hge].
  - rewrite !Nat.mod_small by lia.
    rewrite lookup_app_r by (fold n; lia). fold n.
    unfold tail_slice. rewrite decide_False by lia. rewrite lookup_drop. fold n.
    f_equal. lia.
  - rewrite !mod_wrap by lia.
    rewrite lookup_app_l by (fold n; lia). f_equal. lia.
Qed.

(** Rolled by the look-back minus one, row [i] is the sample one step later. *)
Lemma lookback_window_lookup_pred {A} (x : list A) (l t i : nat) :
  let n := length x in
  0 < l ≤ n → t < n → i < l →
  lookback_window (Z.of_nat l - 1) l t x !! i = x !! (S ((t + i + n - l) mod n) mod n).
Proof.
  intros n Hl Ht Hi. rewrite lookback_window_roll by done.
  rewrite np_roll_lookup; rewrite length_app, length_tail_slice by done; fold n; [|lia].
  rewrite Z.mod_small by lia.
  replace (Z.to_nat (Z.of_nat l - 1)) with (l - 1) by lia.
  destruct (decide (t + i < l)) as [Hlt|Hge].
  - rewrite (Nat.mod_small (t + i + n - l)) by lia.
    destruct (decide (t + i + 1 < l)) as [Hlt'|Hge'].
    + rewrite !Nat.mod_small by lia.
      rewrite lookup_app_r by (fold n; lia). fold n.
      unfold tail_slice. rewrite decide_False by lia. rewrite lookup_drop. fold n.
      f_equal. lia.
    + rewrite !mod_wrap by lia.
      rewrite lookup_app_l by (fold n; lia). f_equal. lia.
  - rewrite (mod_wrap (t + i + n - l)) by lia.
    rewrite (Nat.mod_small (S _)) by lia. rewrite mod_wrap by lia.
    rewrite lookup_app_l by (fold n; lia). f_equal. lia.
Qed.

Lemma np_max_returns (a : list pynum) : 0 < length a → ∃ m, np_max a = Ok m.
Proof. destruct a; cbn; [lia|eauto]. Qed.

(** ** The temperature-driven variant *)

Section LSTMDynamicsFacts.

Context {Tank Battery HP EH PVT : Type}.
Context `{!StorageModel Tank, !StorageModel Battery, !BatteryModel Battery}.
Context `{!HeatPumpModel HP, !ElectricHeaterModel EH, !PVModel PVT}.
Variables periodic_sin periodic_cos : pynum → pynum → pynum.

Implicit Types b : @Building Tank Battery HP EH PVT.

Import LSTMDynamicsBuilding.

Lemma df_set_returns (rows : nat) (c : string) (values : list pynum) (frame : list (string * list pynum)) :
  length values = rows → df_set rows c values frame = Ok (df_assign c values frame).
Proof. intros H. unfold df_set. by rewrite decide_True. Qed.

(** The eleven assignments of [update_dynamics] on the frame of zeros. *)
Lemma model_input_frame (z q temperature hs hc ds dc ms mc s o c : list pynum) :
  df_assign "occupant_count" c
    (df_assign "outdoor_dry_bulb_temperature" o
       (df_assign "direct_solar_irradiance" s
          (df_assign "month_cos" mc
             (df_assign "month_sin" ms
                (df_assign "day_type_cos" dc
                   (df_assign "day_type_sin" ds
                      (df_assign "hour_cos" hc
                         (df_assign "hour_sin" hs
                            (df_assign "indoor_dry_bulb_temperature" temperature
                               (df_assign "q_hvac" q ((λ c, (c, z)) <$> columns)))))))))))
  = [ ("direct_solar_irradiance", s); ("outdoor_dry_bulb_temperature", o);
      ("occupant_count", c); ("q_hvac", q); ("hour_sin", hs); ("hour_cos", hc);
      ("day_type_sin", ds); ("day_type_cos", dc); ("month_sin", ms); ("month_cos", mc);
      ("indoor_dry_bulb_temperature", temperature) ].
Proof. vm_compute. reflexivity. Qed.

Lemma dynamics_data_lookup b :
  dynamics_data b "hour" = Ok (EnergySimulation.hour (energy_simulation b)) ∧
  dynamics_data b "day_type" = Ok (EnergySimulation.day_type (energy_simulation b)) ∧
  dynamics_data b "month" = Ok (EnergySimulation.month (energy_simulation b)) ∧
  dynamics_data b "occupant_count" =
    Ok (EnergySimulation.occupant_count (energy_simulation b)) ∧
  dynamics_data b "direct_solar_irradiance" =
    Ok (Weather.direct_solar_irradiance (weather b)) ∧
  dynamics_data b "outdoor_dry_bulb_temperature" =
    Ok (Weather.outdoor_dry_bulb_temperature (weather b)).
Proof.
  unfold dynamics_data. destruct (energy_simulation b), (weather b).
  vm_compute. done.
Qed.

Lemma df_column_lookup (z q temperature hs hc ds dc ms mc s o c : list pynum) :
  let frame :=
    [ ("direct_solar_irradiance", s); ("outdoor_dry_bulb_temperature", o);
      ("occupant_count", c); ("q_hvac", q); ("hour_sin", hs); ("hour_cos", hc);
      ("day_type_sin", ds); ("day_type_cos", dc); ("month_sin", ms); ("month_cos", mc);
      ("indoor_dry_bulb_temperature", temperature) ] in
  df_column frame "direct_solar_irradiance" = s ∧
  df_column frame "outdoor_dry_bulb_temperature" = o ∧
  df_column frame "occupant_count" = c ∧
  df_column frame "q_hvac" = q ∧
  df_column frame "hour_sin" = hs ∧ df_column frame "hour_cos" = hc ∧
  df_column frame "day_type_sin" = ds ∧ df_column frame "day_type_cos" = dc ∧
  df_column frame "month_sin" = ms ∧ df_column frame "month_cos" = mc ∧
  df_column frame "indoor_dry_bulb_temperature" = temperature.
Proof. vm_compute. done. Qed.

(** The assembled window, column by column. *)
Lemma model_input_returns (dynamics : Dynamics) b :
  let es := energy_simulation b in
  let l := lookback dynamics in
  let window := λ x : list pynum, lookback_window (Z.of_nat l) l (time_step b) x in
  let n := length (EnergySimulation.indoor_dry_bulb_temperature es) in
  input_size dynamics = 11 →
  0 < l ≤ n → time_step b < n →
  length (EnergySimulation.cooling_demand es) = n →
  length (EnergySimulation.hour es) = n →
  length (EnergySimulation.day_type es) = n →
  length (EnergySimulation.month es) = n →
  length (EnergySimulation.occupant_count es) = n →
  length (Weather.direct_solar_irradiance (weather b)) = n →
  length (Weather.outdoor_dry_bulb_temperature (weather b)) = n →
  ∃ hour_max day_type_max month_max,
    model_input periodic_sin periodic_cos dynamics b =
      Ok [ ("direct_solar_irradiance", window (Weather.direct_solar_irradiance (weather b)));
           ("outdoor_dry_bulb_temperature",
            window (Weather.outdoor_dry_bulb_temperature (weather b)));
           ("occupant_count", window (EnergySimulation.occupant_count es));
           ("q_hvac",
            lookback_window (Z.of_nat l - 1) l (time_step b)
              (EnergySimulation.cooling_demand es));
           ("hour_sin", periodic_sin hour_max <$> window (EnergySimulation.hour es));
           ("hour_cos", periodic_cos hour_max <$> window (EnergySimulation.hour es));
           ("day_type_sin", periodic_sin day_type_max <$> window (EnergySimulation.day_type es));
           ("day_type_cos", periodic_cos day_type_max <$> window (EnergySimulation.day_type es));
           ("month_sin", periodic_sin month_max <$> window (EnergySimulation.month es));
           ("month_cos", periodic_cos month_max <$> window (EnergySimulation.month es));
           ("indoor_dry_bulb_temperature",
            window (EnergySimulation.indoor_dry_bulb_temperature es)) ].
Proof.
  intros es l window n Hsize Hl Ht Hcd Hh Hd Hm Ho Hs HT. subst window. cbn beta.
  assert (∀ (shift : Z) (x : list pynum),
            length x = n → length (lookback_window shift l (time_step b) x) = l) as Hlen.
  { intros shift x Hx. apply length_lookback_window; lia. }
  destruct (np_max_returns (lookback_window (Z.of_nat l) l (time_step b)
              (EnergySimulation.hour es))) as [hm Hhm].
  { rewrite Hlen by done. lia. }
  destruct (np_max_returns (lookback_window (Z.of_nat l) l (time_step b)
              (EnergySimulation.day_type es))) as [dm Hdm].
  { rewrite Hlen by done. lia. }
  destruct (np_max_returns (lookback_window (Z.of_nat l) l (time_step b)
              (EnergySimulation.month es))) as [mm Hmm].
  { rewrite Hlen by done. lia. }
  exists hm, dm, mm.
  destruct (dynamics_data_lookup b) as (Eh & Ed & Em & Eo & Es & ET).
  unfold model_input, df_zeros, set_periodic, set_plain. fold es l.
  rewrite Hsize, Eh, Ed, Em, Eo, Es, ET. fold es.
  rewrite decide_True by done. cbn [mbind result_bind].
  rewrite Hhm, Hdm, Hmm. cbn [mbind result_bind].
  repeat (rewrite df_set_returns by (rewrite ?length_fmap; by apply Hlen);
          cbn [mbind result_bind]).
  rewrite model_input_frame. reflexivity.
Qed.

(** C8 (as amended). In the window assembled by [update_dynamics], the row
    [i] of the indoor temperature column is the sample of step
    [p = t + i - lookback] (cyclically over the horizon), and so is the row
    [i] of the direct solar irradiance, outdoor temperature and occupant
    count columns and of the hour, day type and month samples behind the
    cyclic encodings; only the [q_hvac] column is one step ahead, its row
    [i] being the cooling demand of step [p + 1]. *)
Theorem lookback_window_alignment (dynamics : Dynamics) b :
  let es := energy_simulation b in
  let l := lookback dynamics in
  let t := time_step b in
  let n := length (EnergySimulation.indoor_dry_bulb_temperature es) in
  input_size dynamics = 11 →
  0 < l ≤ n → t < n →
  length (EnergySimulation.cooling_demand es) = n →
  length (EnergySimulation.hour es) = n →
  length (EnergySimulation.day_type es) = n →
  length (EnergySimulation.month es) = n →
  length (EnergySimulation.occupant_count es) = n →
  length (Weather.direct_solar_irradiance (weather b)) = n →
  length (Weather.outdoor_dry_bulb_temperature (weather b)) = n →
  ∃ frame,
    model_input periodic_sin periodic_cos dynamics b = Ok frame ∧
    ∀ i, i < l →
      let p := (t + i + n - l) mod n in
      df_column frame "indoor_dry_bulb_temperature" !! i =
        EnergySimulation.indoor_dry_bulb_temperature es !! p ∧
      df_column frame "direct_solar_irradiance" !! i =
        Weather.direct_solar_irradiance (weather b) !! p ∧
      df_column frame "outdoor_dry_bulb_temperature" !! i =
        Weather.outdoor_dry_bulb_temperature (weather b) !! p ∧
      df_column frame "occupant_count" !! i = EnergySimulation.occupant_count es !! p ∧
      (∃ x_max,
         df_column frame "hour_sin" !! i = periodic_sin x_max <$> EnergySimulation.hour es !! p ∧
         df_column frame "hour_cos" !! i = periodic_cos x_max <$> EnergySimulation.hour es !! p) ∧
      (∃ x_max,
         df_column frame "day_type_sin" !! i =
           periodic_sin x_max <$> EnergySimulation.day_type es !! p ∧
         df_column frame "day_type_cos" !! i =
           periodic_cos x_max <$> EnergySimulation.day_type es !! p) ∧
      (∃ x_max,
         df_column frame "month_sin" !! i = periodic_sin x_max <$> EnergySimulation.month es !! p ∧
         df_column frame "month_cos" !! i = periodic_cos x_max <$> EnergySimulation.month es !! p) ∧
      df_column frame "q_hvac" !! i = EnergySimulation.cooling_demand es !! (S p mod n).
Proof.
  intros es l t n Hsize Hl Ht Hcd Hh Hd Hm Ho Hs HT.
  destruct (model_input_returns dynamics b) as (hm & dm & mm & ->); try done.
  eexists. split; [reflexivity|]. intros i Hi p. fold es l t.
  match goal with
  | |- context [df_column [ (_, ?s); (_, ?o); (_, ?c); (_, ?q); (_, ?hs); (_, ?hc);
                            (_, ?ds); (_, ?dc); (_, ?ms); (_, ?mc); (_, ?temperature) ] _] =>
      destruct (df_column_lookup [] q temperature hs hc ds dc ms mc s o c)
        as (-> & -> & -> & -> & -> & -> & -> & -> & -> & -> & ->)
  end.
  rewrite !list_lookup_fmap.
  rewrite lookback_window_lookup_pred by lia.
  rewrite !lookback_window_lookup by lia.
  rewrite Hcd, Hh, Hd, Hm, Ho, Hs, HT. fold n p.
  split_and!; eauto.
Qed.

(** C9. [update_cooling_device] overwrites the cooling demand of the current
    step only: with 0 when the demand schedule flag is at most 0, whatever
    the action; and, when the flag is above 0, with the maximum output of
    the cooling device at the current outdoor temperature for the electric
    power [min(action * nominal_power, nominal_power)]. *)
Theorem cooling_device_demand (action : pynum) b :
  let t := time_step b in
  let es := energy_simulation b in
  let flag := EnergySimulation.cooling_device_demand_schedule es in
  let nominal_power := hp_nominal_power (cooling_device b) in
  t < length (EnergySimulation.cooling_demand es) →
  (Py.le flag (PyInt 0) = true →
     ∃ b', update_cooling_device action b = Ok b' ∧
           EnergySimulation.cooling_demand (energy_simulation b') =
             <[t := Py.flt 0]> (EnergySimulation.cooling_demand es)) ∧
  (Py.gt flag (PyInt 0) = true →
     ∀ temperature,
       Weather.outdoor_dry_bulb_temperature (weather b) !! t = Some temperature →
       ∃ b', update_cooling_device action b = Ok b' ∧
             EnergySimulation.cooling_demand (energy_simulation b') =
               <[t := PyFloat (Py.to_float
                        (hp_get_max_output_power (cooling_device b) temperature false
                           (Some (Py.min (Py.mul action nominal_power) nominal_power))))]>
                 (EnergySimulation.cooling_demand es)).
Proof.
  intros t es flag nominal_power Ht. subst flag nominal_power. split.
  - intros Hle%le_zero_not_gt. unfold update_cooling_device. fold t es. rewrite Hle.
    cbn [mbind result_bind]. unfold np_setitem. rewrite decide_True by done.
    cbn [mbind result_bind]. eexists. split; reflexivity.
  - intros Hgt T HT. unfold update_cooling_device. fold t es. rewrite Hgt.
    rewrite (index_lookup _ _ _ HT). cbn [mbind result_bind].
    unfold np_setitem. rewrite decide_True by done.
    cbn [mbind result_bind]. eexists. split; reflexivity.
Qed.

End LSTMDynamicsFacts.

(** ** The sample buildings *)

Lemma building_1_reset_eq : reset building_1 = Ok building_1_reset.
Proof. vm_compute. reflexivity. Qed.

Lemma building_1_reset_update :
  update_variables (reset_attributes building_1) = Ok building_1_reset.
Proof. vm_compute. reflexivity. Qed.

Lemma building_1_acted_eq : apply_actions actions_1 building_1_reset = Ok building_1_acted.
Proof. vm_compute. reflexivity. Qed.

Lemma building_1_next_eq : next_time_step building_1_acted = Ok building_1_next.
Proof. vm_compute. reflexivity. Qed.

Lemma building_3_reset_eq : reset building_3 = Ok building_3_reset.
Proof. vm_compute. reflexivity. Qed.

Lemma building_6_reset_eq : reset building_6 = Ok building_6_reset.
Proof. vm_compute. reflexivity. Qed.

Lemma items_1_eq : observations_items building_1_reset = Ok items_1.
Proof. vm_compute. reflexivity. Qed.

Lemma items_6_eq : observations_items building_6_reset = Ok items_6.
Proof. vm_compute. reflexivity. Qed.

Lemma frame_5_eq :
  LSTMDynamicsBuilding.model_input sample_periodic sample_periodic dynamics_5 building_5
  = Ok frame_5.
Proof. vm_compute. reflexivity. Qed.

Lemma frame_5_eq' : frame_5 =
  [ ("direct_solar_irradiance", floats [200; 210]%Z);
    ("outdoor_dry_bulb_temperature", floats [30; 31]%Z);
    ("occupant_count", floats [3; 4]%Z);
    ("q_hvac", floats [5; 6]%Z);
    ("hour_sin", [np_truediv (PyInt 21) (PyInt 22); np_truediv (PyInt 22) (PyInt 22)]);
    ("hour_cos", [np_truediv (PyInt 21) (PyInt 22); np_truediv (PyInt 22) (PyInt 22)]);
    ("day_type_sin", [Py.flt 1; Py.flt 1]);
    ("day_type_cos", [Py.flt 1; Py.flt 1]);
    ("month_sin", [Py.flt 1; Py.flt 1]);
    ("month_cos", [Py.flt 1; Py.flt 1]);
    ("indoor_dry_bulb_temperature", floats [20; 21]%Z) ].
Proof. vm_compute. reflexivity. Qed.

Lemma episode_building_1_acted : episode building_1_acted.
Proof.
  exists building_1, building_1_reset. split; [exact building_1_reset_eq|].
  eapply rtc_l; [|apply rtc_refl]. apply step_apply_actions with actions_1.
  exact building_1_acted_eq.
Qed.

Lemma episode_building_1_next : episode building_1_next.
Proof.
  destruct episode_building_1_acted as (b0 & b1 & H0 & Hrun).
  exists b0, b1. split; [done|]. eapply rtc_r; [exact Hrun|].
  apply step_next_time_step. exact building_1_next_eq.
Qed.

(** C1 on [building_1]: [reset] negates the PV generation, and the net
    entry it appends is the sum of the three consumption entries appended
    with it, the storage consumption, the load and the negated generation
    of step 0. *)
Lemma net_electricity_consumption_entry_witness :
  solar_generation_ building_1_reset =
    (λ x, Py.mul (get_generation (pv building_1_reset) x) (PyInt (-1))) <$>
      EnergySimulation.solar_generation (energy_simulation building_1_reset) ∧
  let b := reset_attributes building_1 in
  let t := time_step b in
  ∃ cooling heating dhw storage load solar,
    cooling_electricity_consumption building_1_reset =
      cooling_electricity_consumption b ++ [cooling] ∧
    heating_electricity_consumption building_1_reset =
      heating_electricity_consumption b ++ [heating] ∧
    dhw_electricity_consumption building_1_reset = dhw_electricity_consumption b ++ [dhw] ∧
    electricity_consumption (electrical_storage b) !! t = Some storage ∧
    EnergySimulation.non_shiftable_load (energy_simulation b) !! t = Some load ∧
    solar_generation_ b !! t = Some solar ∧
    net_electricity_consumption building_1_reset =
      net_electricity_consumption b ++
        [Py.add (Py.add (Py.add (Py.add (Py.add cooling heating) dhw) storage) load) solar].
Proof.
  split.
  - exact (proj1 net_electricity_consumption_entry _ _ building_1_reset_eq).
  - exact (proj2 net_electricity_consumption_entry (reset_attributes building_1)
             building_1_reset building_1_reset_update).
Defined.

(** C4 on [building_1]: the emission entry appended by [reset], and the
    emission ledger one step later. *)
Lemma emission_entry_witness :
  (let b := reset_attributes building_1 in
   ∃ net ci,
     net_electricity_consumption building_1_reset = net_electricity_consumption b ++ [net] ∧
     CarbonIntensity.carbon_intensity (carbon_intensity b) !! time_step b = Some ci ∧
     net_electricity_consumption_emission building_1_reset =
       net_electricity_consumption_emission b ++ [Py.max (PyInt 0) (Py.mul net ci)] ∧
     Py.le (PyInt 0) (Py.max (PyInt 0) (Py.mul net ci)) = true ∧
     Py.lt (Py.max (PyInt 0) (Py.mul net ci)) (PyInt 0) = false) ∧
  Forall (λ e, Py.le (PyInt 0) e = true ∧ Py.lt e (PyInt 0) = false)
    (net_electricity_consumption_emission building_1_next).
Proof.
  split.
  - exact (proj1 emission_entry (reset_attributes building_1) building_1_reset
             building_1_reset_update).
  - exact (proj2 emission_entry _ episode_building_1_next).
Defined.

(** C5 on [building_1]: one entry per ledger at time step 0, two at time
    step 1, the first one kept. *)
Lemma ledgers_length_append_only_witness :
  Forall (λ l, length l = 1) (ledgers building_1_acted) ∧
  Forall (λ l, length l = 2) (ledgers building_1_next) ∧
  Forall2 (λ l l', ∀ i x, l !! i = Some x → l' !! i = Some x)
    (ledgers building_1_acted) (ledgers building_1_next).
Proof.
  split_and!.
  - exact (proj1 (ledgers_length_append_only _ episode_building_1_acted)).
  - exact (proj1 (ledgers_length_append_only _ episode_building_1_next)).
  - apply (proj2 (ledgers_length_append_only _ episode_building_1_acted)).
    eapply rtc_l; [|apply rtc_refl]. apply step_next_time_step. exact building_1_next_eq.
Defined.

(** C2 on [building_2]: action 1.0 on a cooling storage of capacity 10, no
    cooling demand, a cooling device of maximum output 5: the storage is
    charged with 5.  On [building_11], whose cooling and heating demands
    of step 0 are NaN and count as 0: the cooling storage is charged with
    5 again and the heating storage, behind a heat pump of maximum output
    6, with 6; its hot-water storage, behind a heat pump of maximum output
    4 and with a demand of 1, is charged with 3.  The resistive heaters of
    [building_3] (maximum output 8, heating demand 9) and of [building_2]
    (hot-water demand 1, action -1.0): -1 each. *)
Lemma storage_charge_request_witness :
  (∃ b', update_cooling_storage (Py.flt 1) building_2 = Ok b' ∧
         energy_balance (cooling_storage b') = [Py.flt 0; Py.flt 5]) ∧
  (EnergySimulation.cooling_demand (energy_simulation building_11) !! 0 = Some Py.nan ∧
   ∃ b', update_cooling_storage (Py.flt 1) building_11 = Ok b' ∧
         energy_balance (cooling_storage b') = [Py.flt 0; Py.flt 5]) ∧
  (EnergySimulation.heating_demand (energy_simulation building_11) !! 0 = Some Py.nan ∧
   ∃ b', update_heating_storage (Py.flt 1) building_11 = Ok b' ∧
         energy_balance (heating_storage b') = [Py.flt 0; Py.flt 6]) ∧
  (∃ b', update_heating_storage (Py.flt 1) building_3 = Ok b' ∧
         energy_balance (heating_storage b') = [Py.flt 0; Py.flt (-1)]) ∧
  (∃ b', update_dhw_storage (Py.flt 1) building_11 = Ok b' ∧
         energy_balance (dhw_storage b') = [Py.flt 0; Py.flt 3]) ∧
  (∃ b', update_dhw_storage (Py.flt (-1)) building_2 = Ok b' ∧
         energy_balance (dhw_storage b') = [Py.flt 0; Py.flt (-1)]).
Proof.
  split_and!.
  - destruct (storage_charge_request (Py.flt 1) building_2) as (Hc & _).
    destruct (Hc (Py.flt 0) (Py.flt 30) eq_refl eq_refl) as (b' & H1 & H2).
    exists b'. split; [exact H1|]. rewrite H2. vm_compute. reflexivity.
  - reflexivity.
  - destruct (storage_charge_request (Py.flt 1) building_11) as (Hc & _).
    destruct (Hc Py.nan (Py.flt 30) eq_refl eq_refl) as (b' & H1 & H2).
    exists b'. split; [exact H1|]. rewrite H2. vm_compute. reflexivity.
  - reflexivity.
  - destruct (storage_charge_request (Py.flt 1) building_11) as (_ & Hh & _).
    destruct (Hh Py.nan (sample_heat_pump 4 6) (Py.flt 30) eq_refl eq_refl eq_refl)
      as (b' & H1 & H2).
    exists b'. split; [exact H1|]. rewrite H2. vm_compute. reflexivity.
  - destruct (storage_charge_request (Py.flt 1) building_3) as (_ & _ & Hh & _).
    destruct (Hh (Py.flt 9) (sample_heater (Py.flt 1)) eq_refl eq_refl) as (b' & H1 & H2).
    exists b'. split; [exact H1|]. rewrite H2. vm_compute. reflexivity.
  - destruct (storage_charge_request (Py.flt 1) building_11) as (_ & _ & _ & Hd & _).
    destruct (Hd (Py.flt 1) (sample_heat_pump 3 4) (Py.flt 30) eq_refl eq_refl eq_refl)
      as (b' & H1 & H2).
    exists b'. split; [exact H1|]. rewrite H2. vm_compute. reflexivity.
  - destruct (storage_charge_request (Py.flt (-1)) building_2) as (_ & _ & _ & _ & Hd).
    destruct (Hd (Py.flt 1) (sample_heater (Py.flt 1)) eq_refl eq_refl) as (b' & H1 & H2).
    exists b'. split; [exact H1|]. rewrite H2. vm_compute. reflexivity.
Defined.

Lemma data_1_eq : observations_data building_1_reset = Ok (dict_update ∅ items_1).
Proof. unfold observations_data. rewrite items_1_eq. reflexivity. Qed.

Lemma data_6_eq : observations_data building_6_reset = Ok (dict_update ∅ items_6).
Proof. unfold observations_data. rewrite items_6_eq. reflexivity. Qed.

Lemma active_observations_1 :
  active_observations building_1_reset =
    ["hour"; "outdoor_dry_bulb_temperature"; "heating_device_cop";
     "net_electricity_consumption"].
Proof. vm_compute. reflexivity. Qed.

Lemma active_observations_6 :
  active_observations building_6_reset = ["hour"; "indoor_air_quality"].
Proof. vm_compute. reflexivity. Qed.

(** C7 on [building_6], whose active observation [indoor_air_quality] has
    no data source, and on [building_1], whose four active observations
    all have one. *)
Lemma observations_resolution_witness :
  (∃ unknown,
     observations building_6_reset = Raise (AssertionError unknown) ∧
     ∀ k, k ∈ unknown ↔
          k ∈ active_observations building_6_reset ∧ dict_update ∅ items_6 !! k = None) ∧
  (∃ obs,
     observations building_1_reset = Ok obs ∧
     obs.*1 = active_observations building_1_reset ∧
     Forall (λ kv, dict_update ∅ items_1 !! kv.1 = Some kv.2) obs).
Proof.
  split.
  - apply (proj1 (observations_resolution _ _ data_6_eq)).
    exists "indoor_air_quality". split.
    + rewrite active_observations_6. apply list_elem_of_further, list_elem_of_here.
    + vm_compute. reflexivity.
  - apply (proj2 (observations_resolution _ _ data_1_eq)).
    intros k Hk. rewrite active_observations_1 in Hk.
    repeat (apply elem_of_cons in Hk as [->|Hk]; [eexists; vm_compute; reflexivity|]).
    by apply elem_of_nil in Hk.
Defined.

Lemma observations_1_eq : observations building_1_reset = Ok observations_1.
Proof. vm_compute. reflexivity. Qed.

Lemma building_8_reset_eq : reset building_8 = Ok building_8_reset.
Proof. vm_compute. reflexivity. Qed.

Lemma observations_8_eq : observations building_8_reset = Ok observations_8.
Proof. vm_compute. reflexivity. Qed.

(** C10 on [building_1], whose heating heat pump has a coefficient of
    performance of 4 and whose cooling heat pump has one of 2: the
    observation, third of the active ones, is 2.  On [building_8], heated
    by a resistive heater of efficiency 1: the observation is 1. *)
Lemma heating_device_cop_observation_witness :
  (heating_device building_1_reset = HeatPump (sample_heat_pump 4 6) ∧
   dict_update ∅ items_1 !! "heating_device_cop" = Some (Py.flt 2) ∧
   observations building_1_reset = Ok observations_1 ∧
   observations_1 !! 2 = Some ("heating_device_cop", Py.flt 2) ∧
   ∀ v, ("heating_device_cop", v) ∈ observations_1 → v = Py.flt 2) ∧
  (heating_device building_8_reset = ElectricHeater (sample_heater (Py.flt 1)) ∧
   observations building_8_reset = Ok observations_8 ∧
   observations_8 !! 2 = Some ("heating_device_cop", Py.flt 1)).
Proof.
  split.
  - destruct (heating_device_cop_observation building_1_reset) as [Hdata Hobs].
    destruct (Hdata _ data_1_eq) as (T1 & HT1 & H1).
    destruct (Hobs _ observations_1_eq) as (T2 & HT2 & H2 & H3).
    split_and!.
    + vm_compute. reflexivity.
    + rewrite H1. vm_compute. reflexivity.
    + exact observations_1_eq.
    + rewrite (H2 2); [vm_compute; reflexivity|vm_compute; reflexivity].
    + intros v Hv. rewrite (H3 v Hv). vm_compute. reflexivity.
  - destruct (heating_device_cop_observation building_8_reset) as [_ Hobs].
    destruct (Hobs _ observations_8_eq) as (T2 & HT2 & H2 & _).
    split_and!.
    + vm_compute. reflexivity.
    + exact observations_8_eq.
    + rewrite (H2 2); [vm_compute; reflexivity|vm_compute; reflexivity].
Defined.

(** C8 as stated fails on [building_5]: in the first row of the window the
    indoor temperature is that of step 0 and the outdoor temperature is
    that of step 0 too, not of step 1. *)
Lemma temperature_not_one_step_behind :
  LSTMDynamicsBuilding.model_input sample_periodic sample_periodic dynamics_5 building_5
    = Ok frame_5 ∧
  ¬ one_step_after_temperature frame_5
      (EnergySimulation.indoor_dry_bulb_temperature (energy_simulation building_5))
      "outdoor_dry_bulb_temperature"
      (Weather.outdoor_dry_bulb_temperature (weather building_5))
      (LSTMDynamicsBuilding.lookback dynamics_5).
Proof.
  split; [exact frame_5_eq|]. intros H.
  destruct (H 0) as (p & Hp & Ht & Ho); [cbn; lia|].
  rewrite frame_5_eq' in Ht, Ho.
  destruct p as [|[|[|[|p]]]]; vm_compute in Ht, Ho; discriminate.
Qed.

(** C8 as amended, on [building_5]: the last row of the window holds the
    indoor and outdoor temperatures of step 1 and the cooling demand of
    step 2. *)
Lemma lookback_window_alignment_witness :
  ∃ frame,
    LSTMDynamicsBuilding.model_input sample_periodic sample_periodic dynamics_5 building_5
      = Ok frame ∧
    df_column frame "indoor_dry_bulb_temperature" !! 1 = Some (Py.flt 21) ∧
    df_column frame "outdoor_dry_bulb_temperature" !! 1 = Some (Py.flt 31) ∧
    df_column frame "q_hvac" !! 1 = Some (Py.flt 6).
Proof.
  destruct (lookback_window_alignment sample_periodic sample_periodic dynamics_5 building_5)
    as (frame & Hframe & Hrows).
  - reflexivity.
  - vm_compute. lia.
  - vm_compute. lia.
  - reflexivity.
  - reflexivity.
  - reflexivity.
  - reflexivity.
  - reflexivity.
  - reflexivity.
  - reflexivity.
  - exists frame. split; [exact Hframe|].
    destruct (Hrows 1) as (Ht & _ & Ho & _ & _ & _ & _ & Hq); [vm_compute; lia|].
    rewrite Ht, Ho, Hq. vm_compute. split_and!; reflexivity.
Defined.

(** C9 on [building_7], whose schedule flag is 0, and on [building_1], whose
    flag is 1 and whose cooling device has nominal power 4 and a
    coefficient of performance of 2: action 2 is bounded to the nominal
    power and the demand of step 0 becomes 8. *)
Lemma cooling_device_demand_witness :
  (∃ b', LSTMDynamicsBuilding.update_cooling_device (Py.flt 1) building_7 = Ok b' ∧
         EnergySimulation.cooling_demand (energy_simulation b') = floats [0; 5; 6; 7]%Z) ∧
  (∃ b', LSTMDynamicsBuilding.update_cooling_device (Py.flt 2) building_1 = Ok b' ∧
         EnergySimulation.cooling_demand (energy_simulation b') = floats [8; 5; 6; 7]%Z).
Proof.
  split.
  - destruct (cooling_device_demand (Py.flt 1) building_7) as [H _]; [vm_compute; lia|].
    destruct (H eq_refl) as (b' & H1 & H2).
    exists b'. split; [exact H1|]. rewrite H2. vm_compute. reflexivity.
  - destruct (cooling_device_demand (Py.flt 2) building_1) as [_ H]; [vm_compute; lia|].
    destruct (H eq_refl (Py.flt 30) eq_refl) as (b' & H1 & H2).
    exists b'. split; [exact H1|]. rewrite H2. vm_compute. reflexivity.
Defined.

(** C3 fails on [building_3], whose heating device is a resistive heater of
    efficiency 1 and whose hot-water device is a resistive heater of
    efficiency 0.5: for the heating demand 9 of step 0 (and an idle
    heating storage), the heating entry of the ledger is 18, the input
    power of the hot-water device, where the heating device needs 9. *)
Theorem heating_entry_from_dhw_device :
  reset building_3 = Ok building_3_reset ∧
  heating_electricity_consumption building_3_reset = [Py.flt 18] ∧
  ∃ heater dhw_heater balance,
    heating_device building_3_reset = ElectricHeater heater ∧
    dhw_device building_3_reset = ElectricHeater dhw_heater ∧
    EnergySimulation.heating_demand (energy_simulation building_3_reset) !! 0 = Some (Py.flt 9) ∧
    energy_balance (heating_storage building_3_reset) !! 0 = Some balance ∧
    eh_get_input_power dhw_heater (Py.add (Py.flt 9) balance) = Py.flt 18 ∧
    eh_get_input_power heater (Py.add (Py.flt 9) balance) = Py.flt 9.
Proof.
  split; [exact building_3_reset_eq|]. split; [vm_compute; reflexivity|].
  exists (sample_heater (Py.flt 1)), (sample_heater (np_truediv (Py.flt 1) (Py.flt 2))),
    (Py.flt 0).
  split_and!; vm_compute; reflexivity.
Qed.

(** With a capacity of [0.0] and a positive maximum demand the quotient is
    [+inf] and the two limits are -1 and 1. *)
Lemma zero_capacity_positive_demand (x : spec_float) :
  Py.lt (PyInt 0) (PyFloat x) = true →
  let ratio := np_truediv (PyFloat x) (Py.flt 0) in
  Py.max (Py.neg ratio) (Py.flt (-1)) = Py.flt (-1) ∧ Py.min ratio (Py.flt 1) = Py.flt 1.
Proof.
  destruct x as [s|[]| |[] m e]; try discriminate; intros _; split; reflexivity.
Qed.

(** C6 fails on [building_4], whose heating storage has capacity 0 and whose
    heating demand is 0 over the whole horizon: the bound of the
    [heating_storage] action is [nan, nan], not [-1, 1]. *)
Theorem zero_capacity_action_bound :
  capacity (heating_storage building_4) = Py.flt 0 ∧
  np_max (EnergySimulation.heating_demand (energy_simulation building_4)) = Ok (Py.flt 0) ∧
  active_actions building_4 = ["heating_storage"] ∧
  estimate_action_space building_4 = Ok {| low := [Py.nan]; high := [Py.nan] |}.
Proof. split_and!; vm_compute; reflexivity. Qed.

(** * Further properties of the code *)

(** ** Order facts on Python numbers *)

Lemma SFcompare_refl (x : spec_float) : x ≠ S754_nan → SFcompare x x = Some Eq.
Proof.
  destruct x as [s|s| |s m e]; try done; intros _; cbn.
  - by destruct s.
  - destruct s; rewrite Z.compare_refl, Pos.compare_cont_refl; done.
Qed.

Lemma le_refl (a : pynum) : Py.isnan a = false → Py.le a a = true.
Proof.
  destruct a as [n|x]; cbn.
  - intros _. apply Z.leb_refl.
  - intros H. unfold SFleb. rewrite SFcompare_refl; [done|]. by intros ->.
Qed.

Lemma lt_le (a b : pynum) : Py.lt a b = true → Py.le a b = true.
Proof.
  destruct a as [m|x], b as [n|y]; cbn; unfold SFltb, SFleb;
    try (destruct (SFcompare _ _) as [[]|]; done).
  intros ?%Z.ltb_lt. apply Z.leb_le. lia.
Qed.

Lemma le_not_nan_r (a b : pynum) : Py.le a b = true → Py.isnan b = false.
Proof.
  destruct b as [n|[| | |]]; try done. destruct a as [m|x]; cbn; unfold SFleb.
  - by destruct (Py.float_of_Z m).
  - by destruct x.
Qed.

Lemma known_space_demand_not_nan (d : pynum) : Py.isnan (Py.neg (known_space_demand d)) = false.
Proof. unfold known_space_demand. by destruct d as [n|[| | |]]. Qed.

(** [max(lower, min(upper, x))] is never below [lower], and never above
    [upper] when the two bounds are in order. *)
Lemma clamp_bounds (lower upper x : pynum) :
  Py.isnan lower = false →
  Py.le lower (Py.max lower (Py.min upper x)) = true ∧
  (Py.le lower upper = true → Py.le (Py.max lower (Py.min upper x)) upper = true).
Proof.
  intros Hnd. unfold Py.max, Py.gt.
  destruct (Py.lt lower (Py.min upper x)) eqn:Hlt.
  - split; [by apply lt_le|]. intros Hu. unfold Py.min.
    destruct (Py.lt x upper) eqn:Hraw; [by apply lt_le|].
    apply le_refl. by eapply le_not_nan_r.
  - split; [by apply le_refl|done].
Qed.

Section BuildingBehaviour.

Context {Tank Battery HP EH PVT : Type}.
Context `{!StorageModel Tank, !StorageModel Battery, !BatteryModel Battery}.
Context `{!HeatPumpModel HP, !ElectricHeaterModel EH, !PVModel PVT}.

Implicit Types b : @Building Tank Battery HP EH PVT.

(** *** The end of the horizon *)

(** X1. [next_time_step] at the last step of the cooling demand series (or
    beyond it) raises [IndexError]: the first read of [update_variables] at
    the new time step is out of range. *)
Theorem next_time_step_past_horizon b :
  (length (EnergySimulation.cooling_demand (energy_simulation b)) ≤ S (time_step b))%nat →
  next_time_step b = Raise IndexError.
Proof.
  intros Hlen. unfold next_time_step, update_variables.
  cbn [time_step energy_simulation advance Environment_next_time_step].
  unfold index, Environment_next_time_step.
  rewrite (lookup_ge_None_2 (EnergySimulation.cooling_demand (energy_simulation b))) by lia.
  reflexivity.
Qed.

(** X2. [next_time_step] returns, one time step later, as soon as every
    series read by [update_variables] reaches the new time step (the
    storages' series being those left by their own [next_time_step]) and
    the building does not pair a resistive heating device with a heat-pump
    hot-water device. *)
Theorem next_time_step_returns b :
  let t := S (time_step b) in
  let es := energy_simulation b in
  t < length (EnergySimulation.cooling_demand es) →
  t < length (EnergySimulation.heating_demand es) →
  t < length (EnergySimulation.dhw_demand es) →
  t < length (EnergySimulation.non_shiftable_load es) →
  t < length (energy_balance (storage_next_time_step (cooling_storage b))) →
  t < length (energy_balance (storage_next_time_step (heating_storage b))) →
  t < length (energy_balance (storage_next_time_step (dhw_storage b))) →
  t < length (electricity_consumption (storage_next_time_step (electrical_storage b))) →
  t < length (Weather.outdoor_dry_bulb_temperature (weather b)) →
  t < length (solar_generation_ b) →
  t < length (Pricing.electricity_pricing (pricing b)) →
  t < length (CarbonIntensity.carbon_intensity (carbon_intensity b)) →
  (∀ e h, heating_device b = ElectricHeater e → dhw_device b ≠ HeatPump h) →
  ∃ b', next_time_step b = Ok b' ∧ time_step b' = t.
Proof.
  intros t es H1 H2 H3 H4 H5 H6 H7 H8 H9 H10 H11 H12 Hdev.
  destruct (update_variables_returns (advance b)) as [b' Hb']; try done.
  - cbn [advance heating_device dhw_device]. intros e h Hh Hd.
    destruct (heating_device b) as [|e0] eqn:Eh; [done|].
    destruct (dhw_device b) as [h0|] eqn:Ed; [|done].
    by eapply Hdev.
  - exists b'. split; [exact Hb'|]. by rewrite (update_variables_time_step _ _ Hb').
Qed.

(** *** What [apply_actions] changes *)

Lemma update_cooling_storage_frame action b b' :
  update_cooling_storage action b = Ok b' →
  ∃ storage device, b' = set_cooling_device device (set_cooling_storage storage b).
Proof.
  unfold update_cooling_storage. intros H. bind_step H as d Hd. bind_step H as T HT.
  cbn [weather time_step set_cooling_storage] in H. rewrite HT in H.
  cbn [mbind result_bind] in H. injection H as <-. eauto.
Qed.

Lemma update_heating_storage_frame action b b' :
  update_heating_storage action b = Ok b' →
  ∃ storage device, b' = set_heating_device device (set_heating_storage storage b).
Proof.
  unfold update_heating_storage. intros H. bind_step H as d Hd. bind_step H as m Hm.
  bind_step H as p Hp. injection H as <-. eauto.
Qed.

Lemma update_dhw_storage_frame action b b' :
  update_dhw_storage action b = Ok b' →
  ∃ storage device, b' = set_dhw_device device (set_dhw_storage storage b).
Proof.
  unfold update_dhw_storage. intros H. bind_step H as d Hd. bind_step H as m Hm.
  bind_step H as p Hp. injection H as <-. eauto.
Qed.

(** X3. The [apply_actions] of the base class only touches the four
    storages and the three devices: the exogenous data, the PV array, the
    metadata, the negated solar generation, the time step and the six
    ledgers are those of the building it was called on; and the electrical
    storage is charged with [action * capacity] as it is, an absent action
    counting as [0.0]. *)
Theorem apply_actions_frame a b b' :
  apply_actions a b = Ok b' →
  energy_simulation b' = energy_simulation b ∧
  weather b' = weather b ∧
  carbon_intensity b' = carbon_intensity b ∧
  pricing b' = pricing b ∧
  pv b' = pv b ∧
  observation_metadata b' = observation_metadata b ∧
  action_metadata b' = action_metadata b ∧
  solar_generation_ b' = solar_generation_ b ∧
  time_step b' = time_step b ∧
  ledgers b' = ledgers b ∧
  electrical_storage b' =
    charge (electrical_storage b)
      (Py.mul (default (Py.flt 0) (electrical_storage_action a))
         (capacity (electrical_storage b))).
Proof.
  unfold apply_actions, update_cooling_device, update_heating_device, update_dynamics,
    update_electrical_storage.
  cbn [mbind result_bind]. intros H.
  bind_step H as b1 H1. bind_step H as b2 H2. bind_step H as b3 H3.
  injection H as <-.
  apply update_cooling_storage_frame in H1 as (s1 & d1 & ->).
  apply update_heating_storage_frame in H2 as (s2 & d2 & ->).
  apply update_dhw_storage_frame in H3 as (s3 & d3 & ->).
  split_and!; reflexivity.
Qed.

(** *** The bounds of a storage request *)

(** X4. The energy with which [update_cooling_storage],
    [update_heating_storage] and [update_dhw_storage] charge their storage
    is never below minus the demand of the step (0 for a NaN demand),
    whatever the action and the device output are, NaN included: a storage
    is never asked to discharge more than the building needs.  And when the
    headroom [max_output - demand] of the device is itself not below minus
    the demand, the energy is not above that headroom. *)
Theorem storage_request_bounds (action : pynum) b :
  let t := time_step b in
  let es := energy_simulation b in
  let temperatures := Weather.outdoor_dry_bulb_temperature (weather b) in
  (∀ demand temperature,
     EnergySimulation.cooling_demand es !! t = Some demand →
     temperatures !! t = Some temperature →
     let d := known_space_demand demand in
     let m := hp_get_max_output_power (cooling_device b) temperature false None in
     ∃ b' energy,
       update_cooling_storage action b = Ok b' ∧
       cooling_storage b' = charge (cooling_storage b) energy ∧
       Py.le (Py.neg d) energy = true ∧
       (Py.le (Py.neg d) (Py.sub m d) = true → Py.le energy (Py.sub m d) = true)) ∧
  (∀ demand m,
     EnergySimulation.heating_demand es !! t = Some demand →
     heating_max_output (heating_device b) temperatures t = Ok m →
     let d := known_space_demand demand in
     ∃ b' energy,
       update_heating_storage action b = Ok b' ∧
       heating_storage b' = charge (heating_storage b) energy ∧
       Py.le (Py.neg d) energy = true ∧
       (Py.le (Py.neg d) (Py.sub m d) = true → Py.le energy (Py.sub m d) = true)) ∧
  (∀ demand m,
     EnergySimulation.dhw_demand es !! t = Some demand →
     heating_max_output (dhw_device b) temperatures t = Ok m →
     let d := known_space_demand demand in
     ∃ b' energy,
       update_dhw_storage action b = Ok b' ∧
       dhw_storage b' = charge (dhw_storage b) energy ∧
       Py.le (Py.neg d) energy = true ∧
       (Py.le (Py.neg d) (Py.sub m d) = true → Py.le energy (Py.sub m d) = true)).
Proof.
  intros t es temperatures. subst t es temperatures. split_and!.
  - intros demand T Hd HT d m. unfold update_cooling_storage.
    rewrite (index_lookup _ _ _ Hd). cbn [mbind result_bind].
    rewrite (index_lookup _ _ _ HT). cbn [mbind result_bind weather set_cooling_storage].
    rewrite (index_lookup _ _ _ HT). cbn [mbind result_bind].
    eexists _, _. split; [reflexivity|]. split; [reflexivity|].
    apply clamp_bounds, known_space_demand_not_nan.
  - intros demand m Hd Hm d. unfold update_heating_storage.
    rewrite (index_lookup _ _ _ Hd). cbn [mbind result_bind]. rewrite Hm.
    cbn [mbind result_bind weather heating_device set_heating_storage].
    edestruct (heating_max_output_input_power (heating_device b)) as [p ->]; [exact Hm|].
    cbn [mbind result_bind]. eexists _, _. split; [reflexivity|]. split; [reflexivity|].
    apply clamp_bounds, known_space_demand_not_nan.
  - intros demand m Hd Hm d. unfold update_dhw_storage.
    rewrite (index_lookup _ _ _ Hd). cbn [mbind result_bind]. rewrite Hm.
    cbn [mbind result_bind weather dhw_device set_dhw_storage].
    edestruct (heating_max_output_input_power (dhw_device b)) as [p ->]; [exact Hm|].
    cbn [mbind result_bind]. eexists _, _. split; [reflexivity|]. split; [reflexivity|].
    apply clamp_bounds, known_space_demand_not_nan.
Qed.

End BuildingBehaviour.

(** ** More order facts: opposites and the total order of the numbers *)

Lemma SFcompare_antisym (x y : spec_float) :
  SFcompare y x = option_map CompOpp (SFcompare x y).
Proof.
  destruct x as [s1|s1| |s1 m1 e1], y as [s2|s2| |s2 m2 e2]; cbn;
    try done; try (by destruct s1); try (by destruct s2); try (by destruct s1, s2).
  destruct s1, s2; cbn; try done; rewrite (Z.compare_antisym e1 e2);
    destruct (e1 ?= e2)%Z; cbn; try done; f_equal.
  - symmetry. f_equal. apply (Pos.compare_cont_antisym m1 m2 Eq).
  - symmetry. apply (Pos.compare_cont_antisym m1 m2 Eq).
Qed.

Lemma SFcompare_opp (x y : spec_float) :
  SFcompare (SFopp x) (SFopp y) = SFcompare y x.
Proof.
  rewrite (SFcompare_antisym x y).
  destruct x as [s1|s1| |s1 m1 e1], y as [s2|s2| |s2 m2 e2]; cbn;
    try done; try (by destruct s1); try (by destruct s2); try (by destruct s1, s2).
  destruct s1, s2; cbn; try done; destruct (e1 ?= e2)%Z; cbn; try done.
  by rewrite CompOpp_involutive.
Qed.

Lemma SFltb_opp (x y : spec_float) : SFltb (SFopp x) (SFopp y) = SFltb y x.
Proof. unfold SFltb. by rewrite SFcompare_opp. Qed.

Lemma SFleb_opp (x y : spec_float) : SFleb (SFopp x) (SFopp y) = SFleb y x.
Proof. unfold SFleb. by rewrite SFcompare_opp. Qed.

(** Two floats that are not NaN are comparable. *)
Lemma SFleb_total (x y : spec_float) :
  x ≠ S754_nan → y ≠ S754_nan → SFltb y x = false → SFleb x y = true.
Proof.
  intros Hx Hy. unfold SFltb, SFleb. rewrite (SFcompare_antisym x y).
  destruct (SFcompare x y) as [[]|] eqn:E; cbn; try done.
  destruct x, y; done.
Qed.

Lemma neg_one : Py.flt (-1) = Py.neg (Py.flt 1).
Proof. reflexivity. Qed.

(** [max(-r, -1.0)] and [min(r, 1.0)] for a float [r]: unless [r] is NaN,
    two opposite numbers between -1 and 1. *)
Lemma ratio_limits (r : spec_float) :
  let lo := Py.max (Py.neg (PyFloat r)) (Py.flt (-1)) in
  let hi := Py.min (PyFloat r) (Py.flt 1) in
  Py.isnan hi = false →
  lo = Py.neg hi ∧ Py.le hi (Py.flt 1) = true ∧ Py.le (Py.flt (-1)) lo = true.
Proof.
  intros lo hi. subst lo hi. unfold Py.max, Py.min, Py.gt.
  assert (Py.lt (Py.neg (PyFloat r)) (Py.flt (-1)) = Py.lt (Py.flt 1) (PyFloat r)) as ->.
  { rewrite neg_one. cbn [Py.lt Py.neg Py.flt Py.to_float]. apply SFltb_opp. }
  destruct (Py.lt (Py.flt 1) (PyFloat r)) eqn:Hlt.
  - intros _. split_and!; reflexivity.
  - intros Hnan.
    assert (Py.le (PyFloat r) (Py.flt 1) = true) as Hr.
    { cbn in *. apply SFleb_total; [by intros ->|done|done]. }
    split_and!; [reflexivity|exact Hr|].
    rewrite neg_one. cbn [Py.le Py.neg Py.flt Py.to_float]. rewrite SFleb_opp. exact Hr.
Qed.

(** The sign of a zero does not count in a comparison. *)
Lemma SFleb_zero_r (x : spec_float) (s s' : bool) :
  SFleb x (S754_zero s) = SFleb x (S754_zero s').
Proof. by destruct x as [?|[]| |[] ? ?]. Qed.

Lemma float_of_Z_zero : Py.float_of_Z 0 = S754_zero false.
Proof. reflexivity. Qed.

(** [max(-r, -1.0)] and [min(r, 1.0)] for a float [r] that is not below
    zero: two opposite numbers, the first between -1 and 0 and the second
    between 0 and 1. *)
Lemma ratio_limits_not_negative (r : spec_float) :
  let lo := Py.max (Py.neg (PyFloat r)) (Py.flt (-1)) in
  let hi := Py.min (PyFloat r) (Py.flt 1) in
  Py.le (Py.flt 0) (PyFloat r) = true →
  lo = Py.neg hi ∧
  Py.le (Py.flt (-1)) lo = true ∧ Py.le lo (Py.flt 0) = true ∧
  Py.le (Py.flt 0) hi = true ∧ Py.le hi (Py.flt 1) = true.
Proof.
  intros lo hi Hr.
  assert (∃ x, hi = PyFloat x ∧ x ≠ S754_nan ∧ SFleb (S754_zero false) x = true)
    as (x & Hx & Hxn & Hx0).
  { subst hi. unfold Py.min. destruct (Py.lt _ _).
    - eexists. split; [reflexivity|]. split; [done|reflexivity].
    - exists r. split; [done|]. split; [by intros ->|exact Hr]. }
  destruct (ratio_limits r) as (Hlo & Hhi & Hlow).
  { fold hi. rewrite Hx. by destruct x. }
  fold lo hi in Hlo, Hhi, Hlow.
  split_and!; [done|done| |by rewrite Hx|done].
  rewrite Hlo, Hx. cbn [Py.le Py.neg Py.flt Py.to_float]. rewrite float_of_Z_zero.
  rewrite (SFleb_zero_r _ false true). change (S754_zero true) with (SFopp (S754_zero false)).
  by rewrite SFleb_opp.
Qed.

(** For a float [r] below zero they are [-r] and [r]: the lower limit is
    above the upper one. *)
Lemma ratio_limits_negative (r : spec_float) :
  let lo := Py.max (Py.neg (PyFloat r)) (Py.flt (-1)) in
  let hi := Py.min (PyFloat r) (Py.flt 1) in
  Py.lt (PyFloat r) (Py.flt 0) = true →
  lo = Py.neg (PyFloat r) ∧ hi = PyFloat r ∧ Py.lt hi lo = true.
Proof.
  intros lo hi. subst lo hi. unfold Py.max, Py.min, Py.gt.
  assert (Py.lt (Py.neg (PyFloat r)) (Py.flt (-1)) = Py.lt (Py.flt 1) (PyFloat r)) as ->.
  { rewrite neg_one. cbn [Py.lt Py.neg Py.flt Py.to_float]. apply SFltb_opp. }
  intros Hr.
  assert (Py.lt (Py.flt 1) (PyFloat r) = false) as ->.
  { by destruct r as [?|[]| |[] ? ?]. }
  split_and!; [done|done|]. by destruct r as [?|[]| |[] ? ?].
Qed.

(** ** Loops over the active names *)

(** A [for] loop that appends one value per name returns when each pass
    returns, with the values in the order of the names. *)
Lemma mapM_Ok {A B} (f : A → result B) (l : list A) (k : list B) :
  mapM f l = Ok k ↔ Forall2 (λ x y, f x = Ok y) l k.
Proof.
  revert k. induction l as [|x l IH]; intros k; cbn [mapM].
  - split; [intros [= <-]; constructor | by intros ->%Forall2_nil_inv_l].
  - split.
    + intros H. bind_step H as y Hy. bind_step H as k' Hk. injection H as <-.
      constructor; [done|by apply IH].
    + intros (y & k' & Hy & Hk & ->)%Forall2_cons_inv_l.
      rewrite Hy. cbn [mbind result_bind]. apply IH in Hk. rewrite Hk. done.
Qed.

(** Membership in a list of names written out. *)
Ltac in_names := solve [repeat first [by left | right]].

Ltac split_names :=
  repeat match goal with
         | H : _ ∈ _ :: _ |- _ =>
             apply elem_of_cons in H as [?|H]; [try discriminate; subst|]
         | H : _ ∈ [] |- _ => by apply elem_of_nil in H
         end.

Section ActionSpace.

Context {Tank Battery HP EH PVT : Type}.
Context `{!StorageModel Tank, !StorageModel Battery, !BatteryModel Battery}.
Context `{!HeatPumpModel HP, !ElectricHeaterModel EH, !PVModel PVT}.

Implicit Types b : @Building Tank Battery HP EH PVT.

Lemma estimate_action_space_lookup b (box : Box) (n : nat) (key : string) :
  estimate_action_space b = Ok box →
  active_actions b !! n = Some key →
  ∃ lo hi,
    action_limits b key = Ok (lo, hi) ∧
    low box !! n = Some (np_float32 lo) ∧ high box !! n = Some (np_float32 hi).
Proof.
  unfold estimate_action_space. intros H Hn. bind_step H as limits Hl.
  injection H as <-. apply mapM_Ok in Hl.
  destruct (Forall2_lookup_l _ _ _ _ _ Hl Hn) as ([lo hi] & Hy & Hf).
  exists lo, hi. cbn [low high]. rewrite !list_lookup_fmap, Hy. done.
Qed.

Lemma private_capacity_Ok b (key : string) (c : pynum) :
  private_capacity b key = Ok c →
  key ∈ ["dhw_storage"; "cooling_storage"; "heating_storage"; "electrical_storage"].
Proof.
  unfold private_capacity.
  repeat case_decide; try done; intros _; subst; in_names.
Qed.

Lemma action_limits_Ok b (key : string) (limits : pynum * pynum) :
  action_limits b key = Ok limits →
  key ∈ ["electrical_storage"; "cooling_device"; "heating_device";
         "cooling_storage"; "heating_storage"; "dhw_storage"].
Proof.
  unfold action_limits. case_decide as H1; [subst; by left|].
  case_decide as H2.
  { intros _. split_names; in_names. }
  intros H. bind_step H as c Hc. apply private_capacity_Ok in Hc.
  split_names; in_names.
Qed.

(** A name that is none of the six has no capacity to read. *)
Lemma action_limits_unknown b (key : string) :
  key ∉ ["electrical_storage"; "cooling_device"; "heating_device";
         "cooling_storage"; "heating_storage"; "dhw_storage"] →
  action_limits b key = Raise (AttributeError "capacity") ∨
  action_limits b key = Raise (KeyError ("_Building__" +:+ key)).
Proof.
  intros Hkey. unfold action_limits, private_capacity.
  repeat case_decide; subst; eauto; exfalso; apply Hkey; split_names; in_names.
Qed.

(** X5. [estimate_action_space] knows six action names: the electrical
    storage, the two devices and the three thermal storages.  The pass for
    any other name raises an [AttributeError] (the name of another
    attribute of the building, which has no capacity) or a [KeyError]; so
    the estimate returns only when every active action is one of the six,
    and the two arrays of the box then have one entry per active action. *)
Theorem estimate_action_space_names b :
  (∀ key,
     key ∉ ["electrical_storage"; "cooling_device"; "heating_device";
            "cooling_storage"; "heating_storage"; "dhw_storage"] →
     action_limits b key = Raise (AttributeError "capacity") ∨
     action_limits b key = Raise (KeyError ("_Building__" +:+ key))) ∧
  (∀ box,
     estimate_action_space b = Ok box →
     Forall (λ key, key ∈ ["electrical_storage"; "cooling_device"; "heating_device";
                           "cooling_storage"; "heating_storage"; "dhw_storage"])
       (active_actions b) ∧
     length (low box) = length (active_actions b) ∧
     length (high box) = length (active_actions b)).
Proof.
  split; [apply action_limits_unknown|].
  unfold estimate_action_space. intros box H. bind_step H as limits Hl.
  injection H as <-. apply mapM_Ok in Hl. cbn [low high].
  rewrite !length_fmap, <- (Forall2_length _ _ _ Hl). split; [|done].
  apply Forall_forall. intros key Hkey.
  apply list_elem_of_lookup in Hkey as [n Hn].
  destruct (Forall2_lookup_l _ _ _ _ _ Hl Hn) as (y & _ & Hy).
  by eapply action_limits_Ok.
Qed.

(** The attribute and the series that [estimate_action_space] reads for a
    thermal storage. *)
Lemma thermal_storage_attributes b (key : string) (c : pynum) (demand : list pynum) :
  key = "cooling_storage" ∧ c = capacity (cooling_storage b) ∧
    demand = EnergySimulation.cooling_demand (energy_simulation b) ∨
  key = "heating_storage" ∧ c = capacity (heating_storage b) ∧
    demand = EnergySimulation.heating_demand (energy_simulation b) ∨
  key = "dhw_storage" ∧ c = capacity (dhw_storage b) ∧
    demand = EnergySimulation.dhw_demand (energy_simulation b) →
  key ∈ ["cooling_storage"; "heating_storage"; "dhw_storage"] ∧
  private_capacity b key = Ok c ∧
  vars_lookup (EnergySimulation.vars (energy_simulation b))
    (split_underscore_head key +:+ "_demand") = Ok demand.
Proof.
  intros [(-> & -> & ->)|[(-> & -> & ->)|(-> & -> & ->)]];
    (split; [in_names|]); split; reflexivity.
Qed.

(** X6. In the box returned by [estimate_action_space], at the position of
    each active action: the electrical storage is bounded by [-1, 1] and a
    device by [0, 1].  For a thermal storage, with [r] the maximum of the
    demand series of its own end use ([cooling_demand] for
    [cooling_storage], [heating_demand] for [heating_storage], [dhw_demand]
    for [dhw_storage]) over the capacity of that storage, the two limits
    are [lo = max(-r, -1.0)] and [hi = min(r, 1.0)], and the box holds
    their float32 values (stated when that value is not infinite: [gym]
    may rewrite an infinite bound).  Unless [hi] is NaN, [lo = -hi],
    [hi <= 1] and [-1 <= lo].  When [r] is not below 0, both limits lie
    within [-1, 1]: [-1 <= lo <= 0 <= hi <= 1].  When [r] is below 0 (a
    demand series that is negative throughout) they do not: [lo = -r] is
    above [hi = r]. *)
Theorem estimate_action_space_bounds b (box : Box) (n : nat) (key : string) :
  estimate_action_space b = Ok box →
  active_actions b !! n = Some key →
  (key = "electrical_storage" →
     low box !! n = Some (Py.flt (-1)) ∧ high box !! n = Some (Py.flt 1)) ∧
  (key ∈ ["cooling_device"; "heating_device"] →
     low box !! n = Some (Py.flt 0) ∧ high box !! n = Some (Py.flt 1)) ∧
  (∀ (c : pynum) (demand : list pynum),
     key = "cooling_storage" ∧ c = capacity (cooling_storage b) ∧
       demand = EnergySimulation.cooling_demand (energy_simulation b) ∨
     key = "heating_storage" ∧ c = capacity (heating_storage b) ∧
       demand = EnergySimulation.heating_demand (energy_simulation b) ∨
     key = "dhw_storage" ∧ c = capacity (dhw_storage b) ∧
       demand = EnergySimulation.dhw_demand (energy_simulation b) →
     ∃ maximum_demand,
       np_max demand = Ok maximum_demand ∧
       let r := np_truediv maximum_demand c in
       let lo := Py.max (Py.neg r) (Py.flt (-1)) in
       let hi := Py.min r (Py.flt 1) in
       (np_isinf (np_float32 lo) = false → low box !! n = Some (np_float32 lo)) ∧
       (np_isinf (np_float32 hi) = false → high box !! n = Some (np_float32 hi)) ∧
       (Py.isnan hi = false →
          lo = Py.neg hi ∧ Py.le hi (Py.flt 1) = true ∧ Py.le (Py.flt (-1)) lo = true) ∧
       (Py.le (Py.flt 0) r = true →
          lo = Py.neg hi ∧
          Py.le (Py.flt (-1)) lo = true ∧ Py.le lo (Py.flt 0) = true ∧
          Py.le (Py.flt 0) hi = true ∧ Py.le hi (Py.flt 1) = true) ∧
       (Py.lt r (Py.flt 0) = true → lo = Py.neg r ∧ hi = r ∧ Py.lt hi lo = true)).
Proof.
  intros H Hn. destruct (estimate_action_space_lookup b box n key H Hn)
    as (lo & hi & Hlim & -> & ->).
  unfold action_limits in Hlim. split_and!.
  - intros ->. rewrite decide_True in Hlim by done. by injection Hlim as <- <-.
  - intros Hkey. rewrite decide_False in Hlim by (intros ->; split_names; done).
    rewrite decide_True in Hlim by done. by injection Hlim as <- <-.
  - intros c demand (Hkey & Hc & Hd)%thermal_storage_attributes.
    rewrite decide_False in Hlim by (intros ->; split_names; done).
    rewrite decide_False in Hlim by (intros Hkey'; split_names; done).
    rewrite Hc, Hd in Hlim. cbn [mbind result_bind] in Hlim.
    bind_step Hlim as m Hm.
    cbn [except_ZeroDivisionError] in Hlim. injection Hlim as <- <-.
    exists m. split; [done|]. cbn zeta.
    split_and!; [done|done|apply ratio_limits|apply ratio_limits_not_negative|
                 apply ratio_limits_negative].
Qed.

End ActionSpace.

(** ** The observed values *)

Lemma series_at_nil (t : nat) (items : list (string * pynum)) :
  series_at t [] = Ok items → items = [].
Proof. by intros [= <-]. Qed.

Lemma series_at_cons (t : nat) (k : string) (s : list pynum) (vs : list (string * list pynum)) (items : list (string * pynum)) :
  series_at t ((k, s) :: vs) = Ok items →
  ∃ v rest, s !! t = Some v ∧ series_at t vs = Ok rest ∧ items = (k, v) :: rest.
Proof.
  unfold series_at. cbn [mapM fst snd]. intros H.
  bind_step H as kv Hkv. bind_step H as rest Hrest. injection H as <-.
  bind_step Hkv as v Hv. injection Hkv as <-. apply index_Ok in Hv. eauto.
Qed.

(** A dictionary display holds, for each key, the value written last. *)
Lemma dict_update_lookup (d : gmap string pynum) (kvs : list (string * pynum)) (k : string) :
  dict_update d kvs !! k =
    match list_find (λ kv, kv.1 = k) (reverse kvs) with
    | Some (_, kv) => Some kv.2
    | None => d !! k
    end.
Proof.
  induction kvs as [|kv kvs IH] using rev_ind; [done|].
  unfold dict_update. rewrite foldl_app, reverse_app. cbn [foldl reverse rev_append app list_find].
  fold (dict_update d kvs). case_decide as Hk.
  - cbn. rewrite Hk. apply lookup_insert_eq.
  - rewrite lookup_insert_ne by done. rewrite IH.
    destruct (list_find _ (reverse kvs)) as [[i kv']|]; done.
Qed.

Lemma abs_not_negative (x : pynum) : Py.lt (Py.abs x) (PyInt 0) = false.
Proof.
  destruct x as [n|[s|s| |s m e]]; cbn; try done.
  apply Z.ltb_ge. lia.
Qed.

Section Observed.

Context {Tank Battery HP EH PVT : Type}.
Context `{!StorageModel Tank, !StorageModel Battery, !BatteryModel Battery}.
Context `{!HeatPumpModel HP, !ElectricHeaterModel EH, !PVModel PVT}.

Implicit Types b : @Building Tank Battery HP EH PVT.

(** Splits [H : (x ← m; ...) = Ok _] along all its binds. *)
Ltac binds H :=
  repeat match type of H with
         | (?m ≫= _) = Ok _ =>
             let x := fresh "x" in
             let E := fresh "E" in
             destruct m as [x|] eqn:E; [cbn [mbind result_bind] in H | by cbn in H]
         end.

Ltac series_items :=
  repeat match goal with
         | H : series_at _ (_ :: _) = Ok _ |- _ =>
             let v := fresh "v" in
             let Hv := fresh "Hv" in
             apply series_at_cons in H as (v & ? & Hv & H & ->)
         | H : series_at _ [] = Ok _ |- _ => apply series_at_nil in H as ->
         | H : index _ _ = Ok _ |- _ => apply index_Ok in H
         end.

(** One name for the value of one sample. *)
Ltac same_samples :=
  repeat match goal with
         | H1 : ?s !! ?i = Some ?x, H2 : ?s !! ?i = Some ?y |- _ =>
             rewrite H1 in H2; injection H2 as <-
         end.

Ltac split_items Hin :=
  repeat match type of Hin with
         | _ ∈ _ ++ _ => apply elem_of_app in Hin as [Hin|Hin]
         | (_, _) ∈ _ :: _ => apply elem_of_cons in Hin as [[= -> ->]|Hin]
         | _ ∈ [] => by apply elem_of_nil in Hin
         end.

(** X7. In the data behind [observations], every series of the weather,
    the pricing, the carbon intensity and the energy simulation is read at
    the current time step, under its own name; the one exception is
    [solar_generation], whose entry is replaced. *)
Theorem observed_series b (data : gmap string pynum) :
  observations_data b = Ok data →
  ∀ (k : string) (series : list pynum),
    (k, series) ∈ Weather.vars (weather b) ++ Pricing.vars (pricing b) ++
                  CarbonIntensity.vars (carbon_intensity b) ++
                  EnergySimulation.vars (energy_simulation b) →
    k ≠ "solar_generation" →
    data !! k = series !! time_step b.
Proof.
  intros H k series Hin Hk. unfold observations_data in H.
  destruct (observations_items b) as [items|] eqn:Hitems; [|by cbn in H].
  cbn [mbind result_bind] in H. injection H as <-.
  unfold observations_items in Hitems. binds Hitems. injection Hitems as <-.
  unfold EnergySimulation.vars, Weather.vars, Pricing.vars, CarbonIntensity.vars in *.
  series_items. rewrite dict_update_lookup.
  split_items Hin; try done.
  all: match goal with H : ?s !! _ = Some _ |- _ = ?s !! _ => rewrite H end.
  all: vm_compute; congruence.
Qed.

(** X8. The entries of the data that are computed: [solar_generation] is
    the generation of the PV array for the raw sample of the current step,
    [net_electricity_consumption] is the entry of the current step in the
    ledger, and the two temperature deltas are the absolute differences
    between the set point and the indoor temperature, never negative. *)
Theorem observed_computed b (data : gmap string pynum) :
  observations_data b = Ok data →
  let t := time_step b in
  let es := energy_simulation b in
  data !! "solar_generation" =
    get_generation (pv b) <$> EnergySimulation.solar_generation es !! t ∧
  data !! "net_electricity_consumption" = net_electricity_consumption b !! t ∧
  ∃ cooling_set_point heating_set_point indoor,
    EnergySimulation.cooling_dry_bulb_temperature_set_point es !! t = Some cooling_set_point ∧
    EnergySimulation.heating_dry_bulb_temperature_set_point es !! t = Some heating_set_point ∧
    EnergySimulation.indoor_dry_bulb_temperature es !! t = Some indoor ∧
    data !! "cooling_dry_bulb_temperature_delta" =
      Some (Py.abs (Py.sub cooling_set_point indoor)) ∧
    data !! "heating_dry_bulb_temperature_delta" =
      Some (Py.abs (Py.sub heating_set_point indoor)) ∧
    Py.lt (Py.abs (Py.sub cooling_set_point indoor)) (PyInt 0) = false ∧
    Py.lt (Py.abs (Py.sub heating_set_point indoor)) (PyInt 0) = false.
Proof.
  intros H t es. subst t es. unfold observations_data in H.
  destruct (observations_items b) as [items|] eqn:Hitems; [|by cbn in H].
  cbn [mbind result_bind] in H. injection H as <-.
  unfold observations_items in Hitems. binds Hitems. injection Hitems as <-.
  unfold EnergySimulation.vars, Weather.vars, Pricing.vars, CarbonIntensity.vars in *.
  series_items. same_samples. rewrite !dict_update_lookup.
  split_and!.
  - match goal with H : ?s !! _ = Some _ |- _ = _ <$> ?s !! _ => rewrite H end.
    vm_compute. reflexivity.
  - match goal with H : ?s !! _ = Some _ |- _ = ?s !! _ => rewrite H end.
    vm_compute. reflexivity.
  - match goal with
    | H1 : EnergySimulation.cooling_dry_bulb_temperature_set_point _ !! _ = Some ?csp,
      H2 : EnergySimulation.heating_dry_bulb_temperature_set_point _ !! _ = Some ?hsp,
      H3 : EnergySimulation.indoor_dry_bulb_temperature _ !! _ = Some ?indoor |- _ =>
        exists csp, hsp, indoor;
        split_and!; [done|done|done| | |apply abs_not_negative|apply abs_not_negative];
        generalize (Py.abs (Py.sub csp indoor)), (Py.abs (Py.sub hsp indoor));
        intros delta delta'; vm_compute; reflexivity
    end.
Qed.

End Observed.

(** ** The estimated observation space *)

Section ObservationSpaceFacts.

Context {Tank Battery HP EH PVT : Type}.
Context `{!StorageModel Tank, !StorageModel Battery, !BatteryModel Battery}.
Context `{!HeatPumpModel HP, !ElectricHeaterModel EH, !PVModel PVT}.

Implicit Types b : @Building Tank Battery HP EH PVT.

Lemma estimate_observation_space_lookup b (box : Box) (n : nat) (key : string) :
  estimate_observation_space b = Ok box →
  active_observations b !! n = Some key →
  ∃ lo hi,
    observation_limits b key = Ok (lo, hi) ∧
    low box !! n = Some (np_float32 (Py.sub lo observation_epsilon)) ∧
    high box !! n = Some (np_float32 (Py.add hi observation_epsilon)).
Proof.
  unfold estimate_observation_space. intros H Hn. bind_step H as limits Hl.
  injection H as <-. apply mapM_Ok in Hl.
  destruct (Forall2_lookup_l _ _ _ _ _ Hl Hn) as ([lo hi] & Hy & Hf).
  exists lo, hi. cbn [low high]. rewrite !list_lookup_fmap, Hy. done.
Qed.

(** Any other name is looked up in the data. *)
Lemma observation_limits_data b (key : string) :
  key ∉ special_observations →
  observation_limits b key =
    (series ← getitem (observation_space_data b) key;
     l ← py_min_list series;
     series' ← getitem (observation_space_data b) key;
     h ← py_max_list series';
     Ok (l, h)).
Proof.
  intros Hkey. unfold observation_limits.
  repeat (rewrite decide_False;
          [|intros Hin; apply Hkey; unfold special_observations;
            first [subst key | split_names]; in_names]).
  reflexivity.
Qed.

(** The series behind a name of the data: a series of one of the four data
    objects, the energy simulation first. *)
Lemma getitem_observation_space_data b (key : string) (series : list pynum) :
  (key, series) ∈ EnergySimulation.vars (energy_simulation b) ++
                  Weather.vars (weather b) ++
                  CarbonIntensity.vars (carbon_intensity b) ++
                  Pricing.vars (pricing b) →
  getitem (observation_space_data b) key = Ok series.
Proof.
  intros Hin. unfold observation_space_data, EnergySimulation.vars, Weather.vars,
    CarbonIntensity.vars, Pricing.vars in *.
  repeat match type of Hin with
         | _ ∈ _ ++ _ => apply elem_of_app in Hin as [Hin|Hin]
         | (_, _) ∈ _ :: _ => apply elem_of_cons in Hin as [[= -> ->]|Hin]
         | _ ∈ [] => by apply elem_of_nil in Hin
         end.
  all: vm_compute; reflexivity.
Qed.

Lemma getitem_unknown {A} (items : list (string * A)) (key : string) :
  key ∉ items.*1 → getitem items key = Raise (KeyError key).
Proof.
  intros Hkey. unfold getitem.
  destruct (list_find _ (reverse items)) as [[i kv]|] eqn:E; [|done].
  apply list_find_Some in E as (E & <- & _). exfalso. apply Hkey.
  apply list_elem_of_fmap. exists kv. split; [done|].
  apply elem_of_reverse. by eapply list_elem_of_lookup_2.
Qed.

(** X9. In the box returned by [estimate_observation_space], at the
    position of each active observation: a state of charge is bounded by
    [0, 1] and a temperature delta by [0, 20], whatever the data are. *)
Theorem observation_space_fixed_bounds b (box : Box) (n : nat) (key : string) :
  estimate_observation_space b = Ok box →
  active_observations b !! n = Some key →
  (key ∈ ["cooling_storage_soc"; "heating_storage_soc"; "dhw_storage_soc";
          "electrical_storage_soc"] →
     low box !! n = Some (Py.flt 0) ∧ high box !! n = Some (Py.flt 1)) ∧
  (key ∈ ["cooling_dry_bulb_temperature_delta"; "heating_dry_bulb_temperature_delta"] →
     low box !! n = Some (Py.flt 0) ∧ high box !! n = Some (Py.flt 20)).
Proof.
  intros H Hn. destruct (estimate_observation_space_lookup b box n key H Hn)
    as (lo & hi & Hlim & -> & ->).
  split; intros Hkey; split_names; vm_compute in Hlim; injection Hlim as <- <-;
    split; vm_compute; reflexivity.
Qed.

(** X10. The bound of an observation that names a series of the energy
    simulation, the weather, the carbon intensity or the pricing (and has
    no case of its own) is the minimum and the maximum of that whole
    series, as the builtins [min] and [max] find them.  This holds for
    [solar_generation] too: its bound is taken from the raw series of the
    energy simulation, which replaces the generation of the PV array in the
    data. *)
Theorem observation_space_series_bounds b (box : Box) (n : nat) (key : string) (series : list pynum) :
  estimate_observation_space b = Ok box →
  active_observations b !! n = Some key →
  (key, series) ∈ EnergySimulation.vars (energy_simulation b) ++
                  Weather.vars (weather b) ++
                  CarbonIntensity.vars (carbon_intensity b) ++
                  Pricing.vars (pricing b) →
  key ∉ ["indoor_dry_bulb_temperature"; "cooling_demand"; "heating_demand"] →
  ∃ lo hi,
    py_min_list series = Ok lo ∧ py_max_list series = Ok hi ∧
    low box !! n = Some (np_float32 (Py.sub lo observation_epsilon)) ∧
    high box !! n = Some (np_float32 (Py.add hi observation_epsilon)).
Proof.
  intros H Hn Hin Hkey. destruct (estimate_observation_space_lookup b box n key H Hn)
    as (lo & hi & Hlim & Hlo & Hhi).
  rewrite observation_limits_data in Hlim.
  - rewrite (getitem_observation_space_data b key series Hin) in Hlim.
    cbn [mbind result_bind] in Hlim.
    bind_step Hlim as l Hl. bind_step Hlim as h Hh. injection Hlim as <- <-.
    exists l, h. done.
  - intros Hspecial. apply Hkey. clear -Hin Hspecial.
    unfold EnergySimulation.vars, Weather.vars, CarbonIntensity.vars, Pricing.vars,
      special_observations in *.
    repeat match type of Hin with
           | _ ∈ _ ++ _ => apply elem_of_app in Hin as [Hin|Hin]
           | (_, _) ∈ _ :: _ => apply elem_of_cons in Hin as [[= -> ->]|Hin]
           | _ ∈ [] => by apply elem_of_nil in Hin
           end.
    all: try in_names.
    all: exfalso; split_names.
Qed.

(** X11. The bound of [heating_device_cop]: the efficiency of a resistive
    heater on both sides; for a heat pump, the extremes of the coefficient
    of performance that the heating device itself gives, in heating mode,
    over the outdoor temperatures of the whole horizon. *)
Theorem observation_space_heating_device_cop b (box : Box) (n : nat) :
  estimate_observation_space b = Ok box →
  active_observations b !! n = Some "heating_device_cop" →
  match heating_device b with
  | ElectricHeater e =>
      low box !! n = Some (np_float32 (Py.sub (efficiency e) observation_epsilon)) ∧
      high box !! n = Some (np_float32 (Py.add (efficiency e) observation_epsilon))
  | HeatPump h =>
      let cop :=
        (λ t, get_cop h t true) <$> Weather.outdoor_dry_bulb_temperature (weather b) in
      ∃ lo hi,
        py_min_list cop = Ok lo ∧ py_max_list cop = Ok hi ∧
        low box !! n = Some (np_float32 (Py.sub lo observation_epsilon)) ∧
        high box !! n = Some (np_float32 (Py.add hi observation_epsilon))
  end.
Proof.
  intros H Hn. destruct (estimate_observation_space_lookup b box n _ H Hn)
    as (lo & hi & Hlim & Hlo & Hhi).
  assert (observation_limits b "heating_device_cop" =
            match heating_device b with
            | HeatPump h =>
                let cop :=
                  (λ t, get_cop h t true) <$>
                    Weather.outdoor_dry_bulb_temperature (weather b) in
                l ← py_min_list cop;
                h ← py_max_list cop;
                Ok (l, h)
            | ElectricHeater e => Ok (efficiency e, efficiency e)
            end) as E.
  { unfold observation_limits.
    repeat (rewrite decide_False by (intros Hin; split_names; done)).
    rewrite decide_True by in_names. reflexivity. }
  rewrite E in Hlim. destruct (heating_device b) as [h|e].
  - cbn zeta in *. bind_step Hlim as l Hl. bind_step Hlim as m Hm.
    injection Hlim as <- <-. exists l, m. done.
  - by injection Hlim as <- <-.
Qed.

(** X12. [estimate_observation_space] returns only when every active
    observation has a case of its own or names a series of the data; a name
    that is neither raises [KeyError] with that name.  The two arrays of
    the box then have one entry per active observation. *)
Theorem observation_space_names b :
  (∀ key, key ∉ special_observations → key ∉ (observation_space_data b).*1 →
     observation_limits b key = Raise (KeyError key)) ∧
  (∀ box, estimate_observation_space b = Ok box →
     Forall (λ key, key ∈ special_observations ∨ key ∈ (observation_space_data b).*1)
       (active_observations b) ∧
     length (low box) = length (active_observations b) ∧
     length (high box) = length (active_observations b)).
Proof.
  assert (∀ key, key ∉ special_observations → key ∉ (observation_space_data b).*1 →
            observation_limits b key = Raise (KeyError key)) as Hraise.
  { intros key H1 H2. rewrite observation_limits_data by done.
    by rewrite getitem_unknown. }
  split; [exact Hraise|].
  unfold estimate_observation_space. intros box H. bind_step H as limits Hl.
  injection H as <-. apply mapM_Ok in Hl. cbn [low high].
  rewrite !length_fmap, <- (Forall2_length _ _ _ Hl). split; [|done].
  apply Forall_forall. intros key Hkey.
  apply list_elem_of_lookup in Hkey as [n Hn].
  destruct (Forall2_lookup_l _ _ _ _ _ Hl Hn) as (y & _ & Hy).
  destruct (decide (key ∈ special_observations)) as [?|H1]; [by left|].
  destruct (decide (key ∈ (observation_space_data b).*1)) as [?|H2]; [by right|].
  rewrite (Hraise key H1 H2) in Hy. done.
Qed.

End ObservationSpaceFacts.

(** ** The other entries of [update_variables] *)

Section LedgerEntries.

Context {Tank Battery HP EH PVT : Type}.
Context `{!StorageModel Tank, !StorageModel Battery, !BatteryModel Battery}.
Context `{!HeatPumpModel HP, !ElectricHeaterModel EH, !PVModel PVT}.

Implicit Types b : @Building Tank Battery HP EH PVT.

(** X13. The cooling and the hot-water entries that [update_variables]
    appends are the input powers of the building's own cooling device and
    hot-water device for the demand of the step plus the energy balance of
    the matching storage, and the price entry is the net electricity
    consumption appended by the same call times the electricity price of
    the step. *)
Theorem consumption_and_price_entries b b' :
  update_variables b = Ok b' →
  let t := time_step b in
  let es := energy_simulation b in
  ∃ cooling cooling_balance dhw dhw_balance temperature net price,
    EnergySimulation.cooling_demand es !! t = Some cooling ∧
    energy_balance (cooling_storage b) !! t = Some cooling_balance ∧
    EnergySimulation.dhw_demand es !! t = Some dhw ∧
    energy_balance (dhw_storage b) !! t = Some dhw_balance ∧
    Weather.outdoor_dry_bulb_temperature (weather b) !! t = Some temperature ∧
    Pricing.electricity_pricing (pricing b) !! t = Some price ∧
    cooling_electricity_consumption b' =
      cooling_electricity_consumption b ++
        [hp_get_input_power (cooling_device b) (Py.add cooling cooling_balance)
           temperature false] ∧
    dhw_electricity_consumption b' =
      dhw_electricity_consumption b ++
        [match dhw_device b with
         | HeatPump h => hp_get_input_power h (Py.add dhw dhw_balance) temperature true
         | ElectricHeater e => eh_get_input_power e (Py.add dhw dhw_balance)
         end] ∧
    net_electricity_consumption b' = net_electricity_consumption b ++ [net] ∧
    net_electricity_consumption_price b' =
      net_electricity_consumption_price b ++ [Py.mul net price].
Proof.
  intros H t es. apply update_variables_inv in H.
  destruct H as (cd&cb&T&hd&hb&hc&dd&db&ec&nsl&sg&price&ci&
                 Hcd&Hcb&HT&Hhd&Hhb&Hhc&Hdd&Hdb&Hec&Hnsl&Hsg&Hprice&Hci&->).
  eexists cd, cb, dd, db, T, _, price.
  split_and!; [exact Hcd|exact Hcb|exact Hdd|exact Hdb|exact HT|exact Hprice|..];
    reflexivity.
Qed.

End LedgerEntries.

(** ** The look-back window, step by step *)

(** X14. Row [i] of a window of [lookback] rows taken at time step [t]
    holds the sample of step [t + i - lookback] when that step exists; in
    the first steps of the series, where it would be negative, the row
    holds a sample from the end of the series, step
    [n + t + i - lookback].  The last row of the window rolled one step
    less, the one of [q_hvac], is the sample of the current step. *)
Theorem lookback_window_steps {A} (x : list A) (l t i : nat) :
  let n := length x in
  0 < l ≤ n → t < n → i < l →
  ((l ≤ t + i)%nat → lookback_window (Z.of_nat l) l t x !! i = x !! (t + i - l)) ∧
  (t + i < l → lookback_window (Z.of_nat l) l t x !! i = x !! (n + t + i - l)) ∧
  lookback_window (Z.of_nat l - 1) l t x !! (l - 1) = x !! t.
Proof.
  intros n Hl Ht Hi. split_and!.
  - intros Hge. rewrite lookback_window_lookup by done. fold n. f_equal.
    replace (t + i + n - l) with (t + i - l + 1 * n) by lia.
    rewrite Nat.Div0.mod_add. apply Nat.mod_small. lia.
  - intros Hlt. rewrite lookback_window_lookup by done. fold n. f_equal.
    rewrite Nat.mod_small by lia. lia.
  - rewrite lookback_window_lookup_pred by lia. fold n. f_equal.
    destruct (decide (t = 0)) as [->|Hpos].
    + replace (0 + (l - 1) + n - l) with (n - 1) by lia.
      rewrite (Nat.mod_small (n - 1)) by lia.
      replace (S (n - 1)) with n by lia. apply Nat.Div0.mod_same.
    + replace (t + (l - 1) + n - l) with (t - 1 + 1 * n) by lia.
      rewrite Nat.Div0.mod_add. rewrite (Nat.mod_small (t - 1)) by lia.
      replace (S (t - 1)) with t by lia. apply Nat.mod_small. lia.
Qed.

(** ** The device updates of the temperature-driven variant *)

Section DeviceUpdates.

Context {Tank Battery HP EH PVT : Type}.
Context `{!StorageModel Tank, !StorageModel Battery, !BatteryModel Battery}.
Context `{!HeatPumpModel HP, !ElectricHeaterModel EH, !PVModel PVT}.

Implicit Types b : @Building Tank Battery HP EH PVT.

Import LSTMDynamicsBuilding.

(** X15. [update_heating_device] overwrites the heating demand of the
    current step: with 0 when the demand schedule flag is at most 0; when
    the flag is above 0, with the maximum output of a resistive heater,
    whatever the action is, and for a heat pump with its maximum output at
    the current outdoor temperature, in heating mode, for the electric
    power [min(action * nominal_power, nominal_power)]. *)
Theorem heating_device_demand (action : pynum) b :
  let t := time_step b in
  let es := energy_simulation b in
  let flag := EnergySimulation.heating_device_demand_schedule es in
  t < length (EnergySimulation.heating_demand es) →
  (Py.le flag (PyInt 0) = true →
     ∃ b', update_heating_device action b = Ok b' ∧
           EnergySimulation.heating_demand (energy_simulation b') =
             <[t := Py.flt 0]> (EnergySimulation.heating_demand es)) ∧
  (Py.gt flag (PyInt 0) = true →
     (∀ e, heating_device b = ElectricHeater e →
        ∃ b', update_heating_device action b = Ok b' ∧
              EnergySimulation.heating_demand (energy_simulation b') =
                <[t := PyFloat (Py.to_float (eh_get_max_output_power e))]>
                  (EnergySimulation.heating_demand es)) ∧
     (∀ h temperature,
        heating_device b = HeatPump h →
        Weather.outdoor_dry_bulb_temperature (weather b) !! t = Some temperature →
        ∃ b', update_heating_device action b = Ok b' ∧
              EnergySimulation.heating_demand (energy_simulation b') =
                <[t := PyFloat (Py.to_float
                         (hp_get_max_output_power h temperature true
                            (Some (Py.min (Py.mul action (hp_nominal_power h))
                                     (hp_nominal_power h)))))]>
                  (EnergySimulation.heating_demand es))).
Proof.
  intros t es flag Ht. subst flag. split.
  - intros Hle%le_zero_not_gt. unfold update_heating_device. fold t es. rewrite Hle.
    cbn [mbind result_bind]. unfold np_setitem. rewrite decide_True by done.
    cbn [mbind result_bind]. eexists. split; reflexivity.
  - intros Hgt. split.
    + intros e He. unfold update_heating_device. fold t es. rewrite Hgt, He.
      cbn [mbind result_bind]. unfold np_setitem. rewrite decide_True by done.
      cbn [mbind result_bind]. eexists. split; reflexivity.
    + intros h T Hh HT. unfold update_heating_device. fold t es. rewrite Hgt, Hh.
      rewrite (index_lookup _ _ _ HT). cbn [mbind result_bind device_nominal_power].
      unfold np_setitem. rewrite decide_True by done.
      cbn [mbind result_bind]. eexists. split; reflexivity.
Qed.

(** X16. Past the end of the demand series the two device updates raise
    [IndexError]; when they return, the building differs from the one they
    were called on in one entry of one series only: the demand series
    keeps its length and its other entries, and the time step, the weather
    and the other demand series are the same. *)
Theorem device_updates_frame (action : pynum) b :
  let t := time_step b in
  let es := energy_simulation b in
  ((length (EnergySimulation.cooling_demand es) ≤ t)%nat →
     update_cooling_device action b = Raise IndexError) ∧
  ((length (EnergySimulation.heating_demand es) ≤ t)%nat →
     update_heating_device action b = Raise IndexError) ∧
  (∀ b', update_cooling_device action b = Ok b' →
     ∃ demand,
       EnergySimulation.cooling_demand (energy_simulation b') =
         <[t := demand]> (EnergySimulation.cooling_demand es) ∧
       EnergySimulation.heating_demand (energy_simulation b') =
         EnergySimulation.heating_demand es ∧
       weather b' = weather b ∧ time_step b' = t) ∧
  (∀ b', update_heating_device action b = Ok b' →
     ∃ demand,
       EnergySimulation.heating_demand (energy_simulation b') =
         <[t := demand]> (EnergySimulation.heating_demand es) ∧
       EnergySimulation.cooling_demand (energy_simulation b') =
         EnergySimulation.cooling_demand es ∧
       weather b' = weather b ∧ time_step b' = t).
Proof.
  intros t es. split_and!.
  - intros Hlen. unfold update_cooling_device. fold t es.
    assert (∀ d, np_setitem (EnergySimulation.cooling_demand es) t d = Raise IndexError)
      as Hset by (intros d; unfold np_setitem; rewrite decide_False by lia; done).
    destruct (Py.gt _ _); [|cbn [mbind result_bind]; by rewrite Hset].
    destruct (index _ t) as [T|] eqn:HT; cbn [mbind result_bind].
    + by rewrite Hset.
    + unfold index in HT.
      destruct (Weather.outdoor_dry_bulb_temperature (weather b) !! t); [done|].
      by injection HT as <-.
  - intros Hlen. unfold update_heating_device. fold t es.
    assert (∀ d, np_setitem (EnergySimulation.heating_demand es) t d = Raise IndexError)
      as Hset by (intros d; unfold np_setitem; rewrite decide_False by lia; done).
    destruct (Py.gt _ _); [|cbn [mbind result_bind]; by rewrite Hset].
    destruct (heating_device b) as [h|e]; [|cbn [mbind result_bind]; by rewrite Hset].
    destruct (index _ t) as [T|] eqn:HT; cbn [mbind result_bind].
    + by rewrite Hset.
    + unfold index in HT.
      destruct (Weather.outdoor_dry_bulb_temperature (weather b) !! t); [done|].
      by injection HT as <-.
  - intros b' H. unfold update_cooling_device in H. fold t es in H.
    bind_step H as d Hd. bind_step H as cd Hcd. injection H as <-.
    unfold np_setitem in Hcd. case_decide; [|done]. injection Hcd as <-.
    eexists. split_and!; reflexivity.
  - intros b' H. unfold update_heating_device in H. fold t es in H.
    bind_step H as d Hd. bind_step H as cd Hcd. injection H as <-.
    unfold np_setitem in Hcd. case_decide; [|done]. injection Hcd as <-.
    eexists. split_and!; reflexivity.
Qed.

End DeviceUpdates.

(** ** The bound of the net electricity consumption *)

Lemma np_map2_same_length (f : pynum → pynum → pynum) (a b : list pynum) :
  length a = length b → np_map2 f a b = Ok (zip_with f a b).
Proof. intros H. unfold np_map2. by rewrite decide_True. Qed.

Lemma py_truediv_float_0_8 (c : pynum) : py_truediv c float_0_8 = Ok (np_truediv c float_0_8).
Proof.
  unfold py_truediv. replace (Py.is_zero float_0_8) with false by (vm_compute; reflexivity).
  reflexivity.
Qed.

Section NetConsumptionBound.

Context {Tank Battery HP EH PVT : Type}.
Context `{!StorageModel Tank, !StorageModel Battery, !BatteryModel Battery}.
Context `{!HeatPumpModel HP, !ElectricHeaterModel EH, !PVModel PVT}.

Implicit Types b : @Building Tank Battery HP EH PVT.

(** X17. The bound of [net_electricity_consumption] is symmetric, minus and
    plus the largest absolute value of a series that adds, step by step,
    the non-shiftable load, the three demands and the four storage
    capacities over 0.8, and subtracts [data['solar_generation']]: the raw
    solar series of the energy simulation, not the generation of the PV
    array. *)
Theorem observation_space_net_consumption b (box : Box) (n : nat) :
  estimate_observation_space b = Ok box →
  active_observations b !! n = Some "net_electricity_consumption" →
  let es := energy_simulation b in
  ∃ net m,
    net_electric_consumption b = Ok net ∧
    py_max_list (Py.abs <$> net) = Ok m ∧
    low box !! n = Some (np_float32 (Py.sub (Py.neg m) observation_epsilon)) ∧
    high box !! n = Some (np_float32 (Py.add m observation_epsilon)) ∧
    (length (EnergySimulation.dhw_demand es) = length (EnergySimulation.non_shiftable_load es) →
     length (EnergySimulation.cooling_demand es) =
       length (EnergySimulation.non_shiftable_load es) →
     length (EnergySimulation.heating_demand es) =
       length (EnergySimulation.non_shiftable_load es) →
     length (EnergySimulation.solar_generation es) =
       length (EnergySimulation.non_shiftable_load es) →
     ∀ i load dhw cooling heating solar,
       EnergySimulation.non_shiftable_load es !! i = Some load →
       EnergySimulation.dhw_demand es !! i = Some dhw →
       EnergySimulation.cooling_demand es !! i = Some cooling →
       EnergySimulation.heating_demand es !! i = Some heating →
       EnergySimulation.solar_generation es !! i = Some solar →
       net !! i =
         Some (Py.sub
                 (Py.add
                    (Py.add
                       (Py.add
                          (Py.add (Py.add (Py.add (Py.add load dhw) cooling) heating)
                             (np_truediv (capacity (dhw_storage b)) float_0_8))
                          (np_truediv (capacity (cooling_storage b)) float_0_8))
                       (np_truediv (capacity (heating_storage b)) float_0_8))
                    (np_truediv (capacity (electrical_storage b)) float_0_8))
                 solar)).
Proof.
  intros H Hn es. destruct (estimate_observation_space_lookup b box n _ H Hn)
    as (lo & hi & Hlim & Hlo & Hhi).
  unfold observation_limits in Hlim. rewrite decide_True in Hlim by done.
  bind_step Hlim as net Hnet. bind_step Hlim as m Hm. injection Hlim as <- <-.
  exists net, m. split_and!; [done|done|done|done|].
  intros L1 L2 L3 L4 i load dhw cooling heating solar H1 H2 H3 H4 H5.
  unfold net_electric_consumption in Hnet. fold es in Hnet.
  rewrite !py_truediv_float_0_8 in Hnet.
  rewrite (getitem_observation_space_data b "solar_generation"
             (EnergySimulation.solar_generation es)) in Hnet.
  2: { unfold EnergySimulation.vars. in_names. }
  rewrite np_map2_same_length in Hnet by done. cbn [mbind result_bind] in Hnet.
  rewrite np_map2_same_length in Hnet by (rewrite length_zip_with; lia).
  cbn [mbind result_bind] in Hnet.
  rewrite np_map2_same_length in Hnet by (rewrite !length_zip_with; lia).
  cbn [mbind result_bind] in Hnet.
  rewrite np_map2_same_length in Hnet by (rewrite !length_fmap, !length_zip_with; lia).
  injection Hnet as <-.
  rewrite lookup_zip_with, !list_lookup_fmap, !lookup_zip_with, H1, H2, H3, H4, H5.
  reflexivity.
Qed.

End NetConsumptionBound.

(** ** The energy flows of the storages *)

Lemma float_minus_one : Py.to_float (PyInt (-1)) = S754_finite true 4503599627370496 (-52).
Proof. vm_compute. reflexivity. Qed.

(** A rounded number with a positive sign is not below zero. *)
Lemma binary_round_aux_not_negative (mx ex : Z) (lx : location) (s : bool) :
  SFltb (binary_round_aux Py.prec Py.emax false mx ex lx) (S754_zero s) = false.
Proof.
  unfold binary_round_aux.
  destruct (shr_fexp _ _ mx ex lx) as [mrs' e'].
  destruct (shr_fexp _ _ _ e' loc_Exact) as [mrs'' e''].
  destruct (shr_m mrs'') as [|m|m]; [done| |done].
  by destruct (Z.leb _ _).
Qed.

(** One entry of an energy balance, split into what goes into the storage
    and what comes out of it. *)
Lemma energy_flow_entry (x : pynum) :
  let v := PyFloat (Py.to_float x) in
  let energy_to :=
    if Py.isnan v || Py.lt (PyInt 0) v then v else PyFloat (Py.to_float (PyInt 0)) in
  let energy_from :=
    Py.mul (if Py.isnan v || Py.lt v (PyInt 0) then v else PyFloat (Py.to_float (PyInt 0)))
      (PyInt (-1)) in
  Py.lt energy_to (PyInt 0) = false ∧
  Py.lt energy_from (PyInt 0) = false ∧
  (Py.isnan energy_to = true ∨ Py.is_zero energy_to = true ∨ Py.is_zero energy_from = true).
Proof.
  intros v energy_to energy_from. subst v energy_to energy_from.
  unfold Py.lt, Py.mul. rewrite !float_zero, !float_minus_one.
  destruct (Py.to_float x) as [s|s| |s m e].
  - destruct s; cbn; eauto.
  - destruct s; cbn; eauto.
  - cbn. eauto.
  - destruct s; cbn -[binary_round_aux]; [|by eauto].
    split_and!; [done| |by right; left].
    apply (binary_round_aux_not_negative _ _ _ false).
Qed.

Section EnergyFlowFacts.

Context {Tank Battery HP EH PVT : Type}.
Context `{!StorageModel Tank, !StorageModel Battery, !BatteryModel Battery}.
Context `{!HeatPumpModel HP, !ElectricHeaterModel EH, !PVModel PVT}.

Implicit Types b : @Building Tank Battery HP EH PVT.

Lemma energy_flows_split (balance : list pynum) :
  Forall2 (λ energy_to energy_from,
             Py.lt energy_to (PyInt 0) = false ∧
             Py.lt energy_from (PyInt 0) = false ∧
             (Py.isnan energy_to = true ∨ Py.is_zero energy_to = true ∨
              Py.is_zero energy_from = true))
    (energy_to_storage balance) (energy_from_storage balance).
Proof.
  unfold energy_to_storage, energy_from_storage, np_clip_min, np_clip_max, np_array_float.
  rewrite <- !list_fmap_compose. apply Forall2_fmap, Forall_Forall2_diag, Forall_forall.
  intros x _. apply energy_flow_entry.
Qed.

(** X18. For each of the four storages, the series of the energy that goes
    into the storage and the series of the energy that comes out of it have
    one entry per entry of the energy balance; no entry of either is below
    zero, and at each step one of the two is zero (unless the balance is
    NaN): a storage is never reported as charging and discharging at
    once. *)
Theorem energy_flows_never_negative b :
  let split := λ energy_to energy_from : list pynum,
    Forall2 (λ x y,
               Py.lt x (PyInt 0) = false ∧ Py.lt y (PyInt 0) = false ∧
               (Py.isnan x = true ∨ Py.is_zero x = true ∨ Py.is_zero y = true))
      energy_to energy_from in
  (split (energy_from_cooling_device_to_cooling_storage b) (energy_from_cooling_storage b) ∧
   length (energy_from_cooling_storage b) = length (energy_balance (cooling_storage b))) ∧
  (split (energy_from_heating_device_to_heating_storage b) (energy_from_heating_storage b) ∧
   length (energy_from_heating_storage b) = length (energy_balance (heating_storage b))) ∧
  (split (energy_from_dhw_device_to_dhw_storage b) (energy_from_dhw_storage b) ∧
   length (energy_from_dhw_storage b) = length (energy_balance (dhw_storage b))) ∧
  (split (energy_to_electrical_storage b) (energy_from_electrical_storage b) ∧
   length (energy_from_electrical_storage b) = length (energy_balance (electrical_storage b))).
Proof.
  intros split. subst split. cbn beta.
  assert (∀ balance, length (energy_from_storage balance) = length balance) as Hlen.
  { intros balance. unfold energy_from_storage, np_clip_max, np_array_float.
    by rewrite !length_fmap. }
  split_and!; first [apply energy_flows_split | apply Hlen].
Qed.

End EnergyFlowFacts.

(** ** The further properties on the concrete buildings *)

Lemma action_space_1_eq : estimate_action_space building_1 = Ok action_space_1.
Proof. vm_compute. reflexivity. Qed.

Lemma observation_space_8_eq : estimate_observation_space building_8 = Ok observation_space_8.
Proof. vm_compute. reflexivity. Qed.

Lemma observation_space_1_eq : estimate_observation_space building_1 = Ok observation_space_1.
Proof. vm_compute. reflexivity. Qed.

Lemma building_1_cooled_eq :
  LSTMDynamicsBuilding.update_cooling_device (Py.flt 2) building_1 = Ok building_1_cooled.
Proof. vm_compute. reflexivity. Qed.

(** X1 on [building_1] at the last step of its four-step horizon. *)
Lemma next_time_step_past_horizon_witness :
  next_time_step (set_time_step 3 building_1) = Raise IndexError.
Proof. apply next_time_step_past_horizon. vm_compute. lia. Defined.

(** X2 on [building_1] after the actions of the first step. *)
Lemma next_time_step_returns_witness :
  ∃ b', next_time_step building_1_acted = Ok b' ∧
        time_step b' = S (time_step building_1_acted).
Proof.
  apply (next_time_step_returns building_1_acted); try (vm_compute; lia).
  intros e h He. vm_compute in He. discriminate He.
Defined.

(** X3 on [building_1]: the actions of the first step leave the time step
    and the ledgers alone and charge the battery with minus its capacity. *)
Lemma apply_actions_frame_witness :
  energy_simulation building_1_acted = energy_simulation building_1_reset ∧
  time_step building_1_acted = time_step building_1_reset ∧
  ledgers building_1_acted = ledgers building_1_reset ∧
  electrical_storage building_1_acted =
    charge (electrical_storage building_1_reset)
      (Py.mul (Py.flt (-1)) (capacity (electrical_storage building_1_reset))).
Proof.
  destruct (apply_actions_frame actions_1 building_1_reset building_1_acted
              building_1_acted_eq) as (H1 & _ & _ & _ & _ & _ & _ & _ & H9 & H10 & H11).
  split_and!; [exact H1|exact H9|exact H10|exact H11].
Defined.

(** X4 on [building_1]: a cooling demand of 4 and a cooling device of
    maximum output 5 leave a headroom of 1, and the request for the whole
    capacity of 10 is between -4 and 1. *)
Lemma storage_request_bounds_witness :
  ∃ b' energy,
    update_cooling_storage (Py.flt 1) building_1 = Ok b' ∧
    cooling_storage b' = charge (cooling_storage building_1) energy ∧
    Py.le (Py.neg (known_space_demand (Py.flt 4))) energy = true ∧
    Py.le energy
      (Py.sub (hp_get_max_output_power (cooling_device building_1) (Py.flt 30) false None)
         (known_space_demand (Py.flt 4))) = true.
Proof.
  destruct (proj1 (storage_request_bounds (Py.flt 1) building_1) (Py.flt 4) (Py.flt 30)
              eq_refl eq_refl) as (b' & energy & H1 & H2 & H3 & H4).
  exists b', energy. split_and!; [exact H1|exact H2|exact H3|].
  apply H4. vm_compute. reflexivity.
Defined.

(** X5 on [building_1]: [pv] is an attribute without a capacity, and the
    two active actions are known. *)
Lemma estimate_action_space_names_witness :
  (action_limits building_1 "pv" = Raise (AttributeError "capacity") ∨
   action_limits building_1 "pv" = Raise (KeyError ("_Building__" +:+ "pv"))) ∧
  Forall (λ key, key ∈ ["electrical_storage"; "cooling_device"; "heating_device";
                        "cooling_storage"; "heating_storage"; "dhw_storage"])
    (active_actions building_1) ∧
  length (low action_space_1) = length (active_actions building_1) ∧
  length (high action_space_1) = length (active_actions building_1).
Proof.
  split.
  - apply (proj1 (estimate_action_space_names building_1)).
    intros Hin. split_names.
  - exact (proj2 (estimate_action_space_names building_1) action_space_1 action_space_1_eq).
Defined.

Lemma action_space_12_eq : estimate_action_space building_12 = Ok action_space_12.
Proof. vm_compute. reflexivity. Qed.

Lemma action_space_7_eq : estimate_action_space building_7 = Ok action_space_7.
Proof. vm_compute. reflexivity. Qed.

(** X6 on [building_1]: the bound of the electrical storage, and the two
    limits of the cooling storage, whose ratio is 7 / 10.  On [building_7]:
    the bound of the cooling device.  On [building_12], whose heating
    demand is at most -60 for a heating storage of capacity 12: the ratio
    is -5, the lower limit is 5 and the upper limit is -5. *)
Lemma estimate_action_space_bounds_witness :
  (low action_space_1 !! 1 = Some (Py.flt (-1)) ∧
   high action_space_1 !! 1 = Some (Py.flt 1)) ∧
  (low action_space_7 !! 0 = Some (Py.flt 0) ∧
   high action_space_7 !! 0 = Some (Py.flt 1)) ∧
  (∃ lo hi,
     low action_space_1 !! 0 = Some (np_float32 lo) ∧
     high action_space_1 !! 0 = Some (np_float32 hi) ∧
     hi = np_truediv (Py.flt 7) (Py.flt 10) ∧
     lo = Py.neg hi ∧
     Py.le (Py.flt (-1)) lo = true ∧ Py.le lo (Py.flt 0) = true ∧
     Py.le (Py.flt 0) hi = true ∧ Py.le hi (Py.flt 1) = true) ∧
  (low action_space_12 !! 0 = Some (Py.flt 5) ∧
   high action_space_12 !! 0 = Some (Py.flt (-5)) ∧
   Py.lt (Py.flt (-5)) (Py.flt 5) = true).
Proof.
  split; [|split; [|split]].
  - apply (estimate_action_space_bounds building_1 action_space_1 1 "electrical_storage");
      [exact action_space_1_eq|vm_compute; reflexivity|reflexivity].
  - apply (estimate_action_space_bounds building_7 action_space_7 0 "cooling_device");
      [exact action_space_7_eq|vm_compute; reflexivity|in_names].
  - destruct (estimate_action_space_bounds building_1 action_space_1 0 "cooling_storage"
                action_space_1_eq) as (_ & _ & H); [vm_compute; reflexivity|].
    destruct (H (capacity (cooling_storage building_1))
                (EnergySimulation.cooling_demand (energy_simulation building_1)))
      as (m & Hm & Hlo & Hhi & _ & Hin & _); [left; done|].
    vm_compute in Hm. injection Hm as <-.
    eexists _, _. split; [apply Hlo; vm_compute; reflexivity|].
    split; [apply Hhi; vm_compute; reflexivity|].
    split; [vm_compute; reflexivity|].
    apply Hin. vm_compute. reflexivity.
  - destruct (estimate_action_space_bounds building_12 action_space_12 0 "heating_storage"
                action_space_12_eq) as (_ & _ & H); [vm_compute; reflexivity|].
    destruct (H (capacity (heating_storage building_12))
                (EnergySimulation.heating_demand (energy_simulation building_12)))
      as (m & Hm & Hlo & Hhi & _ & _ & Hneg); [right; left; done|].
    vm_compute in Hm. injection Hm as <-.
    split; [|split].
    + rewrite Hlo by (vm_compute; reflexivity). vm_compute. reflexivity.
    + rewrite Hhi by (vm_compute; reflexivity). vm_compute. reflexivity.
    + destruct Hneg as (E1 & E2 & Hlt); [vm_compute; reflexivity|].
      vm_compute in Hlt. vm_compute. exact Hlt.
Defined.

(** X7 on [building_1] after [reset]: the outdoor temperature and the hour
    of step 0. *)
Lemma observed_series_witness :
  dict_update ∅ items_1 !! "outdoor_dry_bulb_temperature" =
    Weather.outdoor_dry_bulb_temperature (weather building_1_reset) !!
      time_step building_1_reset ∧
  dict_update ∅ items_1 !! "hour" =
    EnergySimulation.hour (energy_simulation building_1_reset) !! time_step building_1_reset.
Proof.
  split.
  - apply (observed_series building_1_reset _ data_1_eq); [in_names|done].
  - apply (observed_series building_1_reset _ data_1_eq); [in_names|done].
Defined.

(** X8 on [building_1] after [reset]. *)
Lemma observed_computed_witness :
  dict_update ∅ items_1 !! "solar_generation" =
    get_generation (pv building_1_reset) <$>
      EnergySimulation.solar_generation (energy_simulation building_1_reset) !!
        time_step building_1_reset ∧
  dict_update ∅ items_1 !! "net_electricity_consumption" =
    net_electricity_consumption building_1_reset !! time_step building_1_reset.
Proof.
  destruct (observed_computed building_1_reset _ data_1_eq) as (H1 & H2 & _).
  split; [exact H1|exact H2].
Defined.

(** X9 on [building_8]: the state of charge of the cooling storage and the
    heating temperature delta. *)
Lemma observation_space_fixed_bounds_witness :
  (low observation_space_8 !! 1 = Some (Py.flt 0) ∧
   high observation_space_8 !! 1 = Some (Py.flt 1)) ∧
  (low observation_space_8 !! 3 = Some (Py.flt 0) ∧
   high observation_space_8 !! 3 = Some (Py.flt 20)).
Proof.
  split.
  - apply (observation_space_fixed_bounds building_8 observation_space_8 1
             "cooling_storage_soc");
      [exact observation_space_8_eq|vm_compute; reflexivity|in_names].
  - apply (observation_space_fixed_bounds building_8 observation_space_8 3
             "heating_dry_bulb_temperature_delta");
      [exact observation_space_8_eq|vm_compute; reflexivity|in_names].
Defined.

(** X10 on [building_8], whose raw solar series goes up to 1000 and whose
    PV array turns 1000 into 2: the bound of [solar_generation] is that of
    the raw series. *)
Lemma observation_space_series_bounds_witness :
  ∃ lo hi,
    py_min_list (EnergySimulation.solar_generation (energy_simulation building_8)) = Ok lo ∧
    py_max_list (EnergySimulation.solar_generation (energy_simulation building_8)) = Ok hi ∧
    low observation_space_8 !! 0 = Some (np_float32 (Py.sub lo observation_epsilon)) ∧
    high observation_space_8 !! 0 = Some (np_float32 (Py.add hi observation_epsilon)).
Proof.
  apply (observation_space_series_bounds building_8 observation_space_8 0 "solar_generation");
    [exact observation_space_8_eq|vm_compute; reflexivity|in_names|].
  intros Hin. split_names.
Defined.

(** X11 on [building_8], heated by a resistive heater of efficiency 1. *)
Lemma observation_space_heating_device_cop_witness :
  low observation_space_8 !! 2 =
    Some (np_float32 (Py.sub (efficiency (sample_heater (Py.flt 1))) observation_epsilon)) ∧
  high observation_space_8 !! 2 =
    Some (np_float32 (Py.add (efficiency (sample_heater (Py.flt 1))) observation_epsilon)).
Proof.
  apply (observation_space_heating_device_cop building_8 observation_space_8 2);
    [exact observation_space_8_eq|vm_compute; reflexivity].
Defined.

(** X12 on [building_8]: a name without a series, and the five active
    observations. *)
Lemma observation_space_names_witness :
  observation_limits building_8 "indoor_air_quality" = Raise (KeyError "indoor_air_quality") ∧
  Forall (λ key, key ∈ special_observations ∨ key ∈ (observation_space_data building_8).*1)
    (active_observations building_8) ∧
  length (low observation_space_8) = length (active_observations building_8) ∧
  length (high observation_space_8) = length (active_observations building_8).
Proof.
  split.
  - apply (proj1 (observation_space_names building_8)).
    + intros Hin. unfold special_observations in Hin. split_names.
    + intros Hin.
      unfold observation_space_data, EnergySimulation.vars, Weather.vars,
        CarbonIntensity.vars, Pricing.vars in Hin.
      cbn [fmap list_fmap app fst] in Hin. split_names.
  - exact (proj2 (observation_space_names building_8) observation_space_8
             observation_space_8_eq).
Defined.

(** X13 on the entries that [reset] appends for [building_1]. *)
Lemma consumption_and_price_entries_witness :
  let b := reset_attributes building_1 in
  let t := time_step b in
  let es := energy_simulation b in
  ∃ cooling cooling_balance dhw dhw_balance temperature net price,
    EnergySimulation.cooling_demand es !! t = Some cooling ∧
    energy_balance (cooling_storage b) !! t = Some cooling_balance ∧
    EnergySimulation.dhw_demand es !! t = Some dhw ∧
    energy_balance (dhw_storage b) !! t = Some dhw_balance ∧
    Weather.outdoor_dry_bulb_temperature (weather b) !! t = Some temperature ∧
    Pricing.electricity_pricing (pricing b) !! t = Some price ∧
    cooling_electricity_consumption building_1_reset =
      cooling_electricity_consumption b ++
        [hp_get_input_power (cooling_device b) (Py.add cooling cooling_balance)
           temperature false] ∧
    dhw_electricity_consumption building_1_reset =
      dhw_electricity_consumption b ++
        [match dhw_device b with
         | HeatPump h => hp_get_input_power h (Py.add dhw dhw_balance) temperature true
         | ElectricHeater e => eh_get_input_power e (Py.add dhw dhw_balance)
         end] ∧
    net_electricity_consumption building_1_reset = net_electricity_consumption b ++ [net] ∧
    net_electricity_consumption_price building_1_reset =
      net_electricity_consumption_price b ++ [Py.mul net price].
Proof.
  exact (consumption_and_price_entries (reset_attributes building_1) building_1_reset
           building_1_reset_update).
Defined.

(** X14 on a series of four steps and a window of two rows: at step 2 the
    first row is step 0, at step 0 it is step 2, and at step 2 the last
    row of the window rolled one step less is step 2. *)
Lemma lookback_window_steps_witness :
  let x := floats [4; 5; 6; 7]%Z in
  lookback_window (Z.of_nat 2) 2 2 x !! 0 = x !! (2 + 0 - 2) ∧
  lookback_window (Z.of_nat 2) 2 0 x !! 0 = x !! (length x + 0 + 0 - 2) ∧
  lookback_window (Z.of_nat 2 - 1) 2 2 x !! (2 - 1) = x !! 2.
Proof.
  intros x. split_and!.
  - apply (lookback_window_steps x 2 2 0); vm_compute; lia.
  - apply (lookback_window_steps x 2 0 0); vm_compute; lia.
  - apply (lookback_window_steps x 2 2 0); vm_compute; lia.
Defined.

(** X15 on [building_1], whose heating schedule is off, on [building_9],
    heated by a resistive heater of maximum output 8, and on [building_10],
    heated by a heat pump of nominal power 4 and coefficient of
    performance 4. *)
Lemma heating_device_demand_witness :
  (∃ b', LSTMDynamicsBuilding.update_heating_device (Py.flt 1) building_1 = Ok b' ∧
         EnergySimulation.heating_demand (energy_simulation b') = floats [0; 9; 8; 8]%Z) ∧
  (∃ b', LSTMDynamicsBuilding.update_heating_device (Py.flt 2) building_9 = Ok b' ∧
         EnergySimulation.heating_demand (energy_simulation b') = floats [8; 9; 8; 8]%Z) ∧
  (∃ b', LSTMDynamicsBuilding.update_heating_device (Py.flt 2) building_10 = Ok b' ∧
         EnergySimulation.heating_demand (energy_simulation b') = floats [16; 9; 8; 8]%Z).
Proof.
  split_and!.
  - destruct (heating_device_demand (Py.flt 1) building_1) as [H _]; [vm_compute; lia|].
    destruct (H eq_refl) as (b' & H1 & H2).
    exists b'. split; [exact H1|]. rewrite H2. vm_compute. reflexivity.
  - destruct (heating_device_demand (Py.flt 2) building_9) as [_ H]; [vm_compute; lia|].
    destruct (proj1 (H eq_refl) (sample_heater (Py.flt 1)) eq_refl) as (b' & H1 & H2).
    exists b'. split; [exact H1|]. rewrite H2. vm_compute. reflexivity.
  - destruct (heating_device_demand (Py.flt 2) building_10) as [_ H]; [vm_compute; lia|].
    destruct (proj2 (H eq_refl) (sample_heat_pump 4 6) (Py.flt 30) eq_refl eq_refl)
      as (b' & H1 & H2).
    exists b'. split; [exact H1|]. rewrite H2. vm_compute. reflexivity.
Defined.

(** X16 on [building_1]: past its four steps, and at step 0. *)
Lemma device_updates_frame_witness :
  LSTMDynamicsBuilding.update_cooling_device (Py.flt 1) (set_time_step 4 building_1) =
    Raise IndexError ∧
  LSTMDynamicsBuilding.update_heating_device (Py.flt 1) (set_time_step 4 building_1) =
    Raise IndexError ∧
  ∃ demand,
    EnergySimulation.cooling_demand (energy_simulation building_1_cooled) =
      <[time_step building_1 := demand]>
        (EnergySimulation.cooling_demand (energy_simulation building_1)) ∧
    EnergySimulation.heating_demand (energy_simulation building_1_cooled) =
      EnergySimulation.heating_demand (energy_simulation building_1) ∧
    weather building_1_cooled = weather building_1 ∧
    time_step building_1_cooled = time_step building_1.
Proof.
  split_and!.
  - apply (device_updates_frame (Py.flt 1) (set_time_step 4 building_1)). vm_compute. lia.
  - apply (device_updates_frame (Py.flt 1) (set_time_step 4 building_1)). vm_compute. lia.
  - apply (device_updates_frame (Py.flt 2) building_1). exact building_1_cooled_eq.
Defined.

(** X17 on [building_1]: at step 2 the raw solar sample is 1000, where the
    PV array generates 2. *)
Lemma observation_space_net_consumption_witness :
  ∃ net m,
    net_electric_consumption building_1 = Ok net ∧
    py_max_list (Py.abs <$> net) = Ok m ∧
    low observation_space_1 !! 3 = Some (np_float32 (Py.sub (Py.neg m) observation_epsilon)) ∧
    high observation_space_1 !! 3 = Some (np_float32 (Py.add m observation_epsilon)) ∧
    net !! 2 =
      Some (Py.sub
              (Py.add
                 (Py.add
                    (Py.add
                       (Py.add
                          (Py.add (Py.add (Py.add (Py.flt 2) (Py.flt 2)) (Py.flt 6)) (Py.flt 8))
                          (np_truediv (capacity (dhw_storage building_1)) float_0_8))
                       (np_truediv (capacity (cooling_storage building_1)) float_0_8))
                    (np_truediv (capacity (heating_storage building_1)) float_0_8))
                 (np_truediv (capacity (electrical_storage building_1)) float_0_8))
              (Py.flt 1000)).
Proof.
  destruct (observation_space_net_consumption building_1 observation_space_1 3
              observation_space_1_eq) as (net & m & H1 & H2 & H3 & H4 & H5);
    [vm_compute; reflexivity|].
  exists net, m. split_and!; [exact H1|exact H2|exact H3|exact H4|].
  apply H5; vm_compute; reflexivity.
Defined.
